(** * GenericBro backend: medicine finder

    A shallow embedding of [models/schemas.py] and [routers/finder.py]
    (price validation, record mapping, search orchestration, suggestion
    cache and the HTTP handlers), followed by the properties of the
    specification that were checked against it.

    Conventions of the embedding:
    - a Python [str] is a [string] whose characters are the code points
      below 256;
    - a [Decimal] is a coefficient and a power of ten, compared by value;
    - a database row (a Python [dict]) is a [gmap string value];
    - a function that may raise returns [exn + A] ([inl] raises);
    - the hosted store is an oracle from queries to results, and the
      handlers thread a [world] holding the suggestion cache and the log of
      the queries sent to the store. *)

From Stdlib Require Import ZArith Lia Ascii String List Bool.
From stdpp Require Import gmap strings list pretty.

Local Open Scope string_scope.

(** ** Python text primitives *)

Module Text.

(** [str.isspace] on the code points below 256. *)
Definition isspace (c : ascii) : bool :=
  let n := N_of_ascii c in
  ((9 <=? n) && (n <=? 13) || (28 <=? n) && (n <=? 32)
   || (n =? 133) || (n =? 160))%N.

(** [str.lower] on the code points below 256: the ASCII capitals and the
    Latin-1 capitals (0xC0-0xDE without the multiplication sign). *)
Definition lower_char (c : ascii) : ascii :=
  let n := N_of_ascii c in
  if ((65 <=? n) && (n <=? 90)
      || (192 <=? n) && (n <=? 222) && negb (n =? 215))%N
  then ascii_of_N (n + 32) else c.

Fixpoint lower (s : string) : string :=
  match s with
  | EmptyString => EmptyString
  | String c s' => String (lower_char c) (lower s')
  end.

Fixpoint lstrip_chars (l : list ascii) : list ascii :=
  match l with
  | c :: l' => if isspace c then lstrip_chars l' else l
  | [] => []
  end.

Definition strip_chars (l : list ascii) : list ascii :=
  rev (lstrip_chars (rev (lstrip_chars l))).

(** [s.strip()] *)
Definition strip (s : string) : string :=
  string_of_list_ascii (strip_chars (list_ascii_of_string s)).

(** [s.split(sep)] for a one-character separator: never empty. *)
Fixpoint split_on (sep : ascii) (l : list ascii) : list (list ascii) :=
  match l with
  | [] => [[]]
  | c :: l' =>
      if Ascii.eqb c sep then [] :: split_on sep l'
      else match split_on sep l' with
           | p :: ps => (c :: p) :: ps
           | [] => [[c]]
           end
  end.

(** [s.split()]: the maximal runs of non-blank characters. *)
Fixpoint split_ws_go (cur : list ascii) (l : list ascii) : list (list ascii) :=
  match l with
  | [] => match cur with [] => [] | _ => [rev cur] end
  | c :: l' =>
      if isspace c
      then match cur with
           | [] => split_ws_go [] l'
           | _ => rev cur :: split_ws_go [] l'
           end
      else split_ws_go (c :: cur) l'
  end.

Definition split_ws (l : list ascii) : list (list ascii) := split_ws_go [] l.

(** [sep.join(parts)] *)
Fixpoint join (sep : list ascii) (parts : list (list ascii)) : list ascii :=
  match parts with
  | [] => []
  | [p] => p
  | p :: ps => p ++ sep ++ join sep ps
  end.

(** [s.replace("'", "''")] *)
Definition double_quotes (l : list ascii) : list ascii :=
  flat_map (fun c => if Ascii.eqb c "'"%char then ["'"; "'"]%char else [c]) l.

(** Truth value of a [str]: non-empty. *)
Definition nonempty (s : string) : bool :=
  match s with EmptyString => false | _ => true end.

(** [sorted(...)] on strings: insertion into a list ordered by code
    points. *)
Fixpoint insert_sorted (s : string) (l : list string) : list string :=
  match l with
  | [] => [s]
  | x :: l' => if String.leb s x then s :: l else x :: insert_sorted s l'
  end.

Definition sorted (l : list string) : list string :=
  foldr insert_sorted [] l.

End Text.

(** ** Decimal numbers *)

(** A finite [decimal.Decimal]: [coef * 10 ^ expo].  Comparisons are by
    value, as in Python. *)
Record decimal := Dec { coef : Z; expo : Z }.

Module Decimal.

(** The coefficient of [d] written with the smaller exponent [e]. *)
Definition scaled (d : decimal) (e : Z) : Z := (coef d * 10 ^ (expo d - e))%Z.

Definition compare (a b : decimal) : comparison :=
  let e := Z.min (expo a) (expo b) in
  (scaled a e ?= scaled b e)%Z.

Definition ltb (a b : decimal) : bool :=
  match compare a b with Lt => true | _ => false end.

Definition eqb (a b : decimal) : bool :=
  match compare a b with Eq => true | _ => false end.

Definition zero : decimal := Dec 0 0.

Definition of_Z (n : Z) : decimal := Dec n 0.

(** Precision of the default arithmetic context. *)
Definition prec : Z := 28.

(** How many trailing digits of the coefficient [c] exceed [prec]
    significant digits. *)
Fixpoint excess (fuel : nat) (c : Z) : Z :=
  match fuel with
  | O => 0
  | S fuel' =>
      if (Z.abs c <? 10 ^ prec)%Z then 0%Z
      else (1 + excess fuel' (Z.quot c 10))%Z
  end.

(** [c / 10 ^ k] rounded to the nearest integer, ties to even
    ([ROUND_HALF_EVEN]). *)
Definition round_half_even (c k : Z) : Z :=
  let p := (10 ^ k)%Z in
  let q := Z.quot c p in
  let r := Z.abs (Z.rem c p) in
  if (2 * r <? p)%Z then q
  else if (p <? 2 * r)%Z then (q + Z.sgn c)%Z
  else if Z.even q then q else (q + Z.sgn c)%Z.

(** Rounding of a result to the context precision. *)
Definition round_context (d : decimal) : decimal :=
  let k := excess (Z.to_nat (Z.log2 (Z.abs (coef d)))) (coef d) in
  if (k =? 0)%Z then d else Dec (round_half_even (coef d) k) (expo d + k).

Definition sub_exact (a b : decimal) : decimal :=
  let e := Z.min (expo a) (expo b) in
  Dec (scaled a e - scaled b e) e.

(** [a - b]: the exact difference rounded to the context precision. *)
Definition sub (a b : decimal) : decimal := round_context (sub_exact a b).

End Decimal.

(** ** Floats *)

(** A finite Python [float], seen through the two decimals that the code
    can observe: its exact binary value and the shortest text that [str]
    prints for it.  Non-finite floats are outside the model. *)
Record pyfloat := Float { fl_val : decimal; fl_repr : decimal }.

(** [x > 0] on floats *)
Definition float_pos (x : pyfloat) : bool := Decimal.ltb Decimal.zero (fl_val x).

(** Float arithmetic and the parsing of numeric text are taken as given:
    the development is parametric in them. *)
Class PyNumerics := {
  (** [Decimal(s)], [None] when [s] is not a finite decimal literal *)
  decimal_of_str : string -> option decimal;
  (** [float(s)] as the validation library parses numeric text *)
  float_of_str : string -> option pyfloat;
  (** [float(d)] *)
  float_of_decimal : decimal -> pyfloat;
  fsub : pyfloat -> pyfloat -> pyfloat;
  fdiv : pyfloat -> pyfloat -> pyfloat;
  fmul : pyfloat -> pyfloat -> pyfloat;
  (** [round(x, ndigits)] *)
  fround : pyfloat -> Z -> pyfloat;
  (** the one law: conversion keeps the sign, [float(d) > 0] only when
      [d > 0] *)
  float_of_decimal_pos :
    forall d, float_pos (float_of_decimal d) = true ->
              Decimal.ltb Decimal.zero d = true
}.

(** ** Cell values and rows *)

(** The values a cell of a row can hold: what the JSON decoder produces
    ([None], text, integers, floats) and the [Decimal] objects that
    [create_medicine_from_db] writes back into the row. *)
Inductive value :=
| VNone
| VStr (s : string)
| VInt (n : Z)
| VFloat (f : pyfloat)
| VDec (d : decimal).

(** A row of the medicines table: column name to value. *)
Abbreviation row := (gmap string value).

(** The exact numeric value of a numeric cell. *)
Definition numeric (v : value) : option decimal :=
  match v with
  | VInt n => Some (Decimal.of_Z n)
  | VFloat f => Some (fl_val f)
  | VDec d => Some d
  | _ => None
  end.

(** Python [==] on cell values: numbers of different types compare by
    exact value. *)
Definition py_eqb (a b : value) : bool :=
  match a, b with
  | VNone, VNone => true
  | VStr s, VStr t => String.eqb s t
  | _, _ =>
      match numeric a, numeric b with
      | Some x, Some y => Decimal.eqb x y
      | _, _ => false
      end
  end.

(** Python [==] on dicts: the same keys, holding equal values. *)
Definition dict_eq (a b : row) : Prop :=
  map_relation (fun _ x y => py_eqb x y = true) (fun _ _ => False) (fun _ _ => False) a b.

Definition dict_eqb (a b : row) : bool := bool_decide (dict_eq a b).

(** ** Exceptions *)

(** The exceptions that cross function boundaries.  The message text of
    the exceptions raised by libraries is not modelled. *)
Inductive exn :=
| HTTPException (status_code : nat) (detail : string)
| SupabaseConnectionError (msg : string)
| StoreError (msg : string)          (* any other failure of the store client *)
| ValueError (msg : string)
| ValidationError (locs : list string) (* the fields that failed *)
| InvalidOperation                     (* [Decimal(...)] on non-numeric text *)
| KeyError (key : string)
| AttributeError.

(** [str(e)] *)
Definition exn_str (e : exn) : string :=
  match e with
  | HTTPException st d => pretty st +:+ ": " +:+ d
  | SupabaseConnectionError m => m
  | StoreError m => m
  | ValueError m => m
  | ValidationError locs => "validation error: " +:+ String.concat ", " locs
  | InvalidOperation => "InvalidOperation"
  | KeyError k => "'" +:+ k +:+ "'"
  | AttributeError => "AttributeError"
  end.

(** ** models/schemas.py: Medicine *)

Record Medicine := {
  name : string;
  dosage : string;
  formulation : string;
  cost_of_branded : decimal;
  cost_of_generic : decimal;
  cost_difference : option decimal;
  savings : option pyfloat;
  type_ : string;
  uses : string;
  side_effects : string
}.

(** The part of [values] that the validators of [Medicine] read: the price
    fields validated so far.  A field is absent when it has not been
    reached yet or when it failed. *)
Record validated := {
  v_cost_of_branded : option decimal;
  v_cost_of_generic : option decimal
}.

Section Mapping.
Context `{PyNumerics}.

(** [validate_prices] *)
Definition validate_prices (v : decimal) : exn + decimal :=
  if Decimal.ltb v Decimal.zero
  then inl (ValueError "Price cannot be negative")
  else inr v.

(** [validate_generic_price] *)
Definition validate_generic_price (v : decimal) (values : validated)
  : exn + decimal :=
  match v_cost_of_branded values with
  | Some branded_price =>
      if Decimal.ltb branded_price v
      then inl (ValueError "Generic price cannot be higher than branded price")
      else inr v
  | None => inr v
  end.

(** [calculate_cost_difference] *)
Definition calculate_cost_difference (v : option decimal) (values : validated)
  : exn + option decimal :=
  match v_cost_of_branded values, v_cost_of_generic values with
  | Some branded_price, Some generic_price =>
      let calculated_difference := Decimal.sub branded_price generic_price in
      if Decimal.ltb calculated_difference Decimal.zero
      then inl (ValueError "Cost difference cannot be negative (branded price must be higher than or equal to generic price)")
      else inr (Some calculated_difference)
  | _, _ => inr v
  end.

(** The percentage written both by [calculate_savings] and by
    [create_medicine_from_db]:
    [round(((branded - generic) / branded) * 100, 1)] on floats. *)
Definition savings_percent (branded_price generic_price : pyfloat) : pyfloat :=
  fround
    (fmul (fdiv (fsub branded_price generic_price) branded_price)
          (float_of_decimal (Decimal.of_Z 100)))
    1.

(** [calculate_savings] *)
Definition calculate_savings (v : option pyfloat) (values : validated)
  : option pyfloat :=
  match v_cost_of_branded values, v_cost_of_generic values with
  | Some b, Some g =>
      let branded_price := float_of_decimal b in
      let generic_price := float_of_decimal g in
      if float_pos branded_price
      then Some (savings_percent branded_price generic_price)
      else v
  | _, _ => v
  end.

(** *** Coercions of the validation library (lax mode) *)

(** A [str] field takes text only. *)
Definition coerce_str (v : value) : option string :=
  match v with VStr s => Some s | _ => None end.

(** A [Decimal] field takes a [Decimal], an integer, a float (through
    its text) or numeric text. *)
Definition coerce_decimal (v : value) : option decimal :=
  match v with
  | VDec d => Some d
  | VInt n => Some (Decimal.of_Z n)
  | VFloat f => Some (fl_repr f)
  | VStr s => decimal_of_str s
  | VNone => None
  end.

(** A [float] field takes a float, an integer, a [Decimal] or numeric
    text. *)
Definition coerce_float (v : value) : option pyfloat :=
  match v with
  | VFloat f => Some f
  | VInt n => Some (float_of_decimal (Decimal.of_Z n))
  | VDec d => Some (float_of_decimal d)
  | VStr s => float_of_str s
  | VNone => None
  end.

(** Outcome of one field: its validated value, or [None] when an error
    was recorded for it. *)
Definition and_then {A B} (o : option A) (f : A -> option B) : option B :=
  match o with Some a => f a | None => None end.

Definition ok {A} (r : exn + A) : option A :=
  match r with inr a => Some a | inl _ => None end.

(** [populate_by_name=True]: a field takes the value that the data holds
    under its alias and, when the data has no such key, the value under
    the name of the field. *)
Definition field_input (data : row) (alias field : string) : option value :=
  match data !! alias with
  | Some v => Some v
  | None => data !! field
  end.

(** The key that an error of a field is reported under: the key that its
    input was found under, the alias when the field is missing. *)
Definition error_loc (data : row) (alias field : string) : string :=
  match data !! alias, data !! field with
  | None, Some _ => field
  | _, _ => alias
  end.

Definition required_str (data : row) (alias field : string) : option string :=
  and_then (field_input data alias field) coerce_str.

Definition field_cost_of_branded (data : row) : option decimal :=
  and_then
    (and_then (field_input data "Cost of branded" "cost_of_branded") coerce_decimal)
    (fun v => ok (validate_prices v)).

Definition field_cost_of_generic (data : row) (values : validated)
  : option decimal :=
  and_then
    (and_then
       (and_then (field_input data "Cost of generic" "cost_of_generic") coerce_decimal)
       (fun v => ok (validate_prices v)))
    (fun v => ok (validate_generic_price v values)).

(** An optional field that is not supplied takes its default and its
    validators do not run; a supplied [None] reaches them. *)
Definition field_cost_difference (data : row) (values : validated)
  : option (option decimal) :=
  match field_input data "Cost difference" "cost_difference" with
  | None => Some None
  | Some VNone => ok (calculate_cost_difference None values)
  | Some x =>
      and_then (coerce_decimal x)
               (fun d => ok (calculate_cost_difference (Some d) values))
  end.

Definition field_savings (data : row) (values : validated)
  : option (option pyfloat) :=
  match field_input data "Savings" "savings" with
  | None => Some None
  | Some VNone => Some (calculate_savings None values)
  | Some x =>
      and_then (coerce_float x)
               (fun f => Some (calculate_savings (Some f) values))
  end.

Definition failed {A} (loc : string) (r : option A) : list string :=
  match r with Some _ => [] | None => [loc] end.

(** [values] once [cost_of_branded] has been validated, and once
    [cost_of_generic] has. *)
Definition values_after_branded (data : row) : validated :=
  {| v_cost_of_branded := field_cost_of_branded data;
     v_cost_of_generic := None |}.

Definition values_after_generic (data : row) : validated :=
  {| v_cost_of_branded := field_cost_of_branded data;
     v_cost_of_generic := field_cost_of_generic data (values_after_branded data) |}.

(** [Medicine.model_validate(data)]: the fields are validated in the
    order of their declaration, each read under its alias or else under
    its name, each validator seeing the fields that succeeded before it;
    keys that belong to no field are ignored; every failure is collected
    and any failure raises [ValidationError]. *)
Definition model_validate (data : row) : exn + Medicine :=
  let r_name := required_str data "Name" "name" in
  let r_dosage := required_str data "Dosage" "dosage" in
  let r_formulation := required_str data "Formulation" "formulation" in
  let r_branded := field_cost_of_branded data in
  let r_generic := field_cost_of_generic data (values_after_branded data) in
  let r_difference := field_cost_difference data (values_after_generic data) in
  let r_savings := field_savings data (values_after_generic data) in
  let r_type := required_str data "Type" "type" in
  let r_uses := required_str data "Uses" "uses" in
  let r_side := required_str data "Side Effects" "side_effects" in
  match r_name, r_dosage, r_formulation, r_branded, r_generic,
        r_difference, r_savings, r_type, r_uses, r_side with
  | Some n, Some d, Some f, Some b, Some g, Some cd, Some sv,
    Some t, Some u, Some se =>
      inr {| name := n; dosage := d; formulation := f;
             cost_of_branded := b; cost_of_generic := g;
             cost_difference := cd; savings := sv;
             type_ := t; uses := u; side_effects := se |}
  | _, _, _, _, _, _, _, _, _, _ =>
      inl (ValidationError
             (failed (error_loc data "Name" "name") r_name
              ++ failed (error_loc data "Dosage" "dosage") r_dosage
              ++ failed (error_loc data "Formulation" "formulation") r_formulation
              ++ failed (error_loc data "Cost of branded" "cost_of_branded") r_branded
              ++ failed (error_loc data "Cost of generic" "cost_of_generic") r_generic
              ++ failed (error_loc data "Cost difference" "cost_difference")
                   r_difference
              ++ failed (error_loc data "Savings" "savings") r_savings
              ++ failed (error_loc data "Type" "type") r_type
              ++ failed (error_loc data "Uses" "uses") r_uses
              ++ failed (error_loc data "Side Effects" "side_effects") r_side))
  end.

(** *** routers/finder.py: create_medicine_from_db *)

(** [Decimal(str(v))] *)
Definition to_decimal (v : value) : exn + decimal :=
  match v with
  | VInt n => inr (Decimal.of_Z n)
  | VFloat f => inr (fl_repr f)
  | VDec d => inr d
  | VStr s =>
      match decimal_of_str s with
      | Some d => inr d
      | None => inl InvalidOperation
      end
  | VNone => inl InvalidOperation
  end.

(** [if col in data: data[col] = Decimal(str(data[col]))] *)
Definition decimalize (col : string) (data : row) : exn + row :=
  match data !! col with
  | Some v =>
      match to_decimal v with
      | inr d => inr (<[col := VDec d]> data)
      | inl e => inl e
      end
  | None => inr data
  end.

(** [col not in data or data[col] is None] *)
Definition missing_or_none (col : string) (data : row) : bool :=
  match data !! col with
  | None | Some VNone => true
  | Some _ => false
  end.

(** The two price cells, once both have been made [Decimal]. *)
Definition both_prices (data : row) : option (decimal * decimal) :=
  match data !! "Cost of branded", data !! "Cost of generic" with
  | Some (VDec b), Some (VDec g) => Some (b, g)
  | _, _ => None
  end.

Definition fill_cost_difference (data : row) : row :=
  if missing_or_none "Cost difference" data then
    match both_prices data with
    | Some (b, g) => <["Cost difference" := VDec (Decimal.sub b g)]> data
    | None => data
    end
  else data.

Definition fill_savings (data : row) : row :=
  if missing_or_none "Savings" data then
    match both_prices data with
    | Some (b, g) =>
        let branded_price := float_of_decimal b in
        let generic_price := float_of_decimal g in
        if float_pos branded_price
        then <["Savings" := VFloat (savings_percent branded_price generic_price)]> data
        else data
    | None => data
    end
  else data.

Definition fill_derived (data : row) : row :=
  fill_savings (fill_cost_difference data).

(** [create_medicine_from_db(data)].  The function updates [data] in
    place: the result is paired with the row as it is left, also when an
    exception escapes. *)
Definition create_medicine_from_db (data : row) : (exn + Medicine) * row :=
  match decimalize "Cost of branded" data with
  | inl e => (inl e, data)
  | inr data1 =>
      match decimalize "Cost of generic" data1 with
      | inl e => (inl e, data1)
      | inr data2 =>
          let data3 := fill_derived data2 in
          (model_validate data3, data3)
      end
  end.

End Mapping.

(** ** models/schemas.py: MedicineSearchRequest *)

(** How a field arrives in the request body: not supplied, or supplied
    with [null] or with text. *)
Inductive supplied :=
| Absent
| Given (v : option string).

Record raw_request := {
  raw_name : supplied;
  raw_formulation : supplied;
  raw_type : supplied;
  raw_dosage : supplied
}.

Record MedicineSearchRequest := {
  req_name : option string;
  req_formulation : option string;
  req_type : option string;
  req_dosage : option string
}.

(** [validate_string_fields] *)
Definition validate_string_fields (v : option string) : option string :=
  match v with
  | Some s => if (String.length (Text.strip s) =? 0)%nat then None else v
  | None => v
  end.

(** [validate_at_least_one_field]; [values] holds the fields validated so
    far, in their order. *)
Definition validate_at_least_one_field
    (v : option string) (values : list (string * option string))
  : exn + option string :=
  match values with
  | [] => inr v                       (* skip validation for the first field *)
  | _ =>
      match v with
      | Some _ => inr v
      | None =>
          if existsb (fun field_value => bool_decide (field_value ≠ None))
                     (map snd values)
          then inr v
          else inl (ValueError "At least one search field must be provided")
      end
  end.

(** One field of the request: a field that is not supplied keeps its
    default [None] and its validators do not run; a supplied one goes
    through both validators in turn. *)
Definition search_field (input : supplied) (values : list (string * option string))
  : exn + option string :=
  match input with
  | Absent => inr None
  | Given v => validate_at_least_one_field (validate_string_fields v) values
  end.

(** [values] after a field: a field that failed is left out. *)
Definition record_field (field : string) (r : exn + option string)
    (values : list (string * option string)) : list (string * option string) :=
  match r with
  | inr v => values ++ [(field, v)]
  | inl _ => values
  end.

Definition failed_field {A} (field : string) (r : exn + A) : list string :=
  match r with inr _ => [] | inl _ => [field] end.

(** Validation of the body of [POST /finder/search]. *)
Definition validate_request (raw : raw_request) : exn + MedicineSearchRequest :=
  let r_name := search_field (raw_name raw) [] in
  let values1 := record_field "name" r_name [] in
  let r_formulation := search_field (raw_formulation raw) values1 in
  let values2 := record_field "formulation" r_formulation values1 in
  let r_type := search_field (raw_type raw) values2 in
  let values3 := record_field "type" r_type values2 in
  let r_dosage := search_field (raw_dosage raw) values3 in
  match r_name, r_formulation, r_type, r_dosage with
  | inr n, inr f, inr t, inr d =>
      inr {| req_name := n; req_formulation := f; req_type := t; req_dosage := d |}
  | _, _, _, _ =>
      inl (ValidationError
             (failed_field "name" r_name ++ failed_field "formulation" r_formulation
              ++ failed_field "type" r_type ++ failed_field "dosage" r_dosage))
  end.

(** ** The store *)

Inductive filter_op :=
| FEq (column : string) (operand : string)
| FILike (column : string) (pattern : string).

(** A query under construction by the client's builder. *)
Record db_query := {
  q_table : string;
  q_select : string;
  q_filters : list filter_op;
  q_order : option (string * bool);      (* column, descending *)
  q_limit : option nat
}.

#[global] Instance filter_op_eq_dec : EqDecision filter_op.
Proof. solve_decision. Defined.

#[global] Instance db_query_eq_dec : EqDecision db_query.
Proof. solve_decision. Defined.

Definition MEDICINES_TABLE : string := "generic medicines list".
Definition MAX_RESULTS : nat := 15.

(** [supabase.table(t).select(columns)] *)
Definition select (t columns : string) : db_query :=
  {| q_table := t; q_select := columns; q_filters := [];
     q_order := None; q_limit := None |}.

Definition with_filter (f : filter_op) (q : db_query) : db_query :=
  {| q_table := q_table q; q_select := q_select q;
     q_filters := q_filters q ++ [f];
     q_order := q_order q; q_limit := q_limit q |}.

(** [q.eq(column, v)] *)
Definition eq_ (column v : string) (q : db_query) : db_query := with_filter (FEq column v) q.

(** [q.ilike(column, pattern)] *)
Definition ilike (column pattern : string) (q : db_query) : db_query :=
  with_filter (FILike column pattern) q.

(** [q.order(column, desc=d)] *)
Definition order (column : string) (desc : bool) (q : db_query) : db_query :=
  {| q_table := q_table q; q_select := q_select q; q_filters := q_filters q;
     q_order := Some (column, desc); q_limit := q_limit q |}.

(** [q.limit(n)] *)
Definition limit (n : nat) (q : db_query) : db_query :=
  {| q_table := q_table q; q_select := q_select q; q_filters := q_filters q;
     q_order := q_order q; q_limit := Some n |}.

(** What the store answers to [q.execute()]: the rows, or an exception. *)
Definition store := db_query -> exn + list row.

(** Row-count limiting, the part of the store's contract the search
    relies on. *)
Definition respects_limit (s : store) : Prop :=
  forall q n rows, q_limit q = Some n -> s q = inr rows -> length rows <= n.

(** ** The suggestion cache: functools.lru_cache(maxsize=1000) *)

Definition cache_key : Type := string * option string.

(** The entries, most recently used first. *)
Definition lru : Type := list (cache_key * list string).

Definition maxsize : nat := 1000.

Fixpoint lru_lookup (k : cache_key) (c : lru) : option (list string) :=
  match c with
  | [] => None
  | (k', v) :: c' => if decide (k = k') then Some v else lru_lookup k c'
  end.

Fixpoint lru_remove (k : cache_key) (c : lru) : lru :=
  match c with
  | [] => []
  | (k', v) :: c' =>
      if decide (k = k') then lru_remove k c' else (k', v) :: lru_remove k c'
  end.

(** A hit moves the entry to the front. *)
Definition lru_hit (k : cache_key) (v : list string) (c : lru) : lru :=
  (k, v) :: lru_remove k c.

(** A miss stores the new entry at the front; a full cache drops its
    least recently used entry. *)
Definition lru_store (k : cache_key) (v : list string) (c : lru) : lru :=
  take maxsize ((k, v) :: c).

(** ** Effects: the cache and the traffic to the store *)

Record world := {
  w_cache : lru;
  w_log : list db_query            (* the queries executed, oldest first *)
}.

Definition M (A : Type) : Type := world -> (exn + A) * world.

Definition ret {A} (a : A) : M A := fun w => (inr a, w).

Definition raise {A} (e : exn) : M A := fun w => (inl e, w).

Definition bind {A B} (m : M A) (k : A -> M B) : M B :=
  fun w =>
    match m w with
    | (inr a, w') => k a w'
    | (inl e, w') => (inl e, w')
    end.

(** [try: m  except Exception as e: h e] *)
Definition try_except {A} (m : M A) (h : exn -> M A) : M A :=
  fun w =>
    match m w with
    | (inl e, w') => h e w'
    | r => r
    end.

(** A computation without effects that may raise. *)
Definition lift {A} (r : exn + A) : M A := fun w => (r, w).

Notation "'let*' x ':=' m 'in' k" := (bind m (fun x => k))
  (at level 10, x name, m at level 100, k at level 200).

(** ** Responses *)

Record SearchResponse := {
  exact_match : option Medicine;
  similar_formulations : list Medicine;
  Uses : option string;
  Side_Effects : option string
}.

Record AutocompleteSuggestion := {
  value_ : string;
  field_type : string
}.

Record AutocompleteResponse := {
  suggestions : list AutocompleteSuggestion
}.

(** What a handler returns: its model, serialised with status 200, or an
    explicit [JSONResponse]. *)
Inductive result (A : Type) :=
| Body (a : A)
| JSONResponse (status_code : nat) (detail : string).
Arguments Body {A} a.
Arguments JSONResponse {A} status_code detail.

(** What the client receives. *)
Record http_response (A : Type) := {
  status : nat;
  payload : A + string          (* the model, or the [detail] of an error *)
}.
Arguments status {A} _.
Arguments payload {A} _.

(** The framework around a handler: a returned value is sent as it is, a
    raised [HTTPException] becomes a response with its status, and any
    other exception a plain 500. *)
Definition respond {A} (r : exn + result A) : http_response A :=
  match r with
  | inr (Body a) => {| status := 200; payload := inl a |}
  | inr (JSONResponse st d) => {| status := st; payload := inr d |}
  | inl (HTTPException st d) => {| status := st; payload := inr d |}
  | inl _ => {| status := 500; payload := inr "Internal Server Error" |}
  end.

(** ** routers/finder.py *)

Section Finder.
Context `{PyNumerics}.

(** The shared client: what the hosted store answers during the call. *)
Variable supabase : store.

(** [q.execute()]: one round trip, recorded in the log. *)
Definition execute (q : db_query) : M (list row) :=
  fun w => (supabase q, {| w_cache := w_cache w; w_log := w_log w ++ [q] |}).

(** [clean_search_value] *)
Definition clean_search_value (value : string) : string :=
  if negb (Text.nonempty value) then EmptyString
  else
    let cleaned := Text.strip_chars (list_ascii_of_string value) in
    let cleaned :=
      Text.join ["-"%char] (map Text.strip_chars (Text.split_on "-" cleaned)) in
    string_of_list_ascii (Text.double_quotes cleaned).

(** [clean_type_value] *)
Definition clean_type_value (value : string) : string :=
  if negb (Text.nonempty value) then EmptyString
  else
    string_of_list_ascii
      (Text.join [" "%char] (Text.split_ws (list_ascii_of_string value))).

Definition field_mapping : gmap string string :=
  list_to_map
    [("type", "Type"); ("name", "Name"); ("formulation", "Formulation");
     ("dosage", "Dosage");
     ("Type", "Type"); ("Name", "Name"); ("Formulation", "Formulation");
     ("Dosage", "Dosage")].

(** [build_search_query] *)
Definition build_search_query
    (table_query : db_query) (field value : string) (exact : bool) : db_query :=
  if negb (Text.nonempty value) then table_query
  else
    match field_mapping !! field with
    | None => table_query
    | Some db_field =>
        if String.eqb db_field "Type" then
          let cleaned_value := clean_type_value value in
          if negb (Text.nonempty cleaned_value) then table_query
          else ilike db_field ("%" +:+ cleaned_value +:+ "%") table_query
        else
          let cleaned_value := clean_search_value value in
          if negb (Text.nonempty cleaned_value) then table_query
          else if exact then eq_ db_field cleaned_value table_query
          else ilike db_field ("%" +:+ cleaned_value +:+ "%") table_query
    end.

(** [safe_get] *)
Definition safe_get (data : option row) (key : string) : option value :=
  match data with
  | None => None
  | Some d => d !! key
  end.

(** The text cell of a suggestion row, when it is non-empty text. *)
Definition text_cell (field : string) (item : row) : option string :=
  match item !! field with
  | Some (VStr s) => if Text.nonempty s then Some s else None
  | _ => None
  end.

(** The query that [get_cached_suggestions] builds. *)
Definition suggestions_query (field : string) (query : option string) : db_query :=
  let table_query := select MEDICINES_TABLE field in
  match query with
  | Some q =>
      if Text.nonempty q
      then ilike field ("%" +:+ clean_search_value q +:+ "%") table_query
      else table_query
  | None => table_query
  end.

(** The body of [get_cached_suggestions]: any exception gives the empty
    list. *)
Definition fetch_suggestions (field : string) (query : option string)
  : M (list string) :=
  try_except
    (let* data := execute (suggestions_query field query) in
     match data with
     | [] => ret []
     | _ => ret (take 10 (Text.sorted (remove_dups (omap (text_cell field) data))))
     end)
    (fun _ => ret []).

(** [@lru_cache(maxsize=1000)]: a call whose arguments are in the cache
    returns the stored list and runs nothing; a call that returns
    normally is stored; an exception is not. *)
Definition lru_cached (f : cache_key -> M (list string)) (k : cache_key)
  : M (list string) :=
  fun w =>
    match lru_lookup k (w_cache w) with
    | Some v =>
        (inr v, {| w_cache := lru_hit k v (w_cache w); w_log := w_log w |})
    | None =>
        match f k w with
        | (inr v, w') =>
            (inr v, {| w_cache := lru_store k v (w_cache w'); w_log := w_log w' |})
        | (inl e, w') => (inl e, w')
        end
    end.

(** [get_cached_suggestions] *)
Definition get_cached_suggestions (field : string) (query : option string)
  : M (list string) :=
  lru_cached (fun k => fetch_suggestions (fst k) (snd k)) (field, query).

(** [get_all_types]: one query for the [Type] column; every failure is
    swallowed.  The list it returns is only written to the log by its
    callers, so the embedding keeps the effect alone. *)
Definition get_all_types : M unit :=
  try_except
    (let* _ := execute (select MEDICINES_TABLE "Type") in ret tt)
    (fun _ => ret tt).

Definition valid_fields : list string := ["Name"; "Formulation"; "Type"; "Dosage"].

(** [AutocompleteSuggestion(value=..., field_type=...)] with its
    validator [validate_field_type]. *)
Definition make_suggestion (value field : string) : exn + AutocompleteSuggestion :=
  if bool_decide (field ∈ valid_fields)
  then inr {| value_ := value; field_type := field |}
  else inl (ValidationError ["field_type"]).

Fixpoint make_suggestions (values : list string) (field : string)
  : exn + list AutocompleteSuggestion :=
  match values with
  | [] => inr []
  | v :: rest =>
      match make_suggestion v field with
      | inl e => inl e
      | inr s =>
          match make_suggestions rest field with
          | inl e => inl e
          | inr ss => inr (s :: ss)
          end
      end
  end.

(** [GET /suggestions/{field}] *)
Definition get_suggestions (field : string) (query : option string)
  : M (result AutocompleteResponse) :=
  try_except
    (if negb (bool_decide (field ∈ valid_fields)) then
       raise (HTTPException 400
                ("Invalid field. Must be one of: " +:+ String.concat ", " valid_fields))
     else
       let* found := get_cached_suggestions field query in
       let* _ := (if String.eqb field "Type" then get_all_types else ret tt) in
       let* items := lift (make_suggestions found field) in
       ret (Body {| suggestions := items |}))
    (fun e =>
       match e with
       | SupabaseConnectionError _ =>
           ret (JSONResponse 503 "Database connection error. Please try again later.")
       | _ => ret (JSONResponse 500 (exn_str e))
       end).

(** *** Search *)

Inductive sort_literal := sort_none | low_to_high | high_to_low.

(** Truth value of an optional text. *)
Definition is_set (v : option string) : bool :=
  match v with
  | Some s => Text.nonempty s
  | None => false
  end.

Definition is_type_or_dosage_search (r : MedicineSearchRequest) : bool :=
  (is_set (req_type r) || is_set (req_dosage r))
  && negb (is_set (req_name r) || is_set (req_formulation r)).

(** [if v: query = build_search_query(query, field, v)] *)
Definition add_filter (field : string) (v : option string) (q : db_query) : db_query :=
  match v with
  | Some s => if Text.nonempty s then build_search_query q field s false else q
  | None => q
  end.

Definition add_sort (sort_order : option sort_literal) (q : db_query) : db_query :=
  match sort_order with
  | Some low_to_high => order "Cost of branded" false q
  | Some high_to_low => order "Cost of branded" true q
  | Some sort_none | None => q
  end.

(** The query that [search_medicines] builds. *)
Definition search_query (r : MedicineSearchRequest) (sort_order : option sort_literal)
  : db_query :=
  let q := select MEDICINES_TABLE "*" in
  let q := add_filter "type" (req_type r) q in
  let q := add_filter "formulation" (req_formulation r) q in
  let q := add_filter "name" (req_name r) q in
  let q := add_filter "dosage" (req_dosage r) q in
  let q := add_sort sort_order q in
  if is_type_or_dosage_search r then limit MAX_RESULTS q else q.

(** [[create_medicine_from_db(m) for m in rows]]: stops at the first
    exception. *)
Fixpoint create_all (rows : list row) : exn + list Medicine :=
  match rows with
  | [] => inr []
  | m :: rest =>
      match fst (create_medicine_from_db m) with
      | inl e => inl e
      | inr med =>
          match create_all rest with
          | inl e => inl e
          | inr meds => inr (med :: meds)
          end
      end
  end.

(** [m[col].lower() == text.lower()] *)
Definition cell_is (col text : string) (m : row) : exn + bool :=
  match m !! col with
  | None => inl (KeyError col)
  | Some (VStr s) => inr (String.eqb (Text.lower s) (Text.lower text))
  | Some _ => inl AttributeError
  end.

(** [[m for m in medicines if m[col].lower() == text.lower()]], as the
    positions kept: the test runs on every row. *)
Fixpoint exact_matches (col text : string) (i : nat) (medicines : list row)
  : exn + list (nat * row) :=
  match medicines with
  | [] => inr []
  | m :: rest =>
      match cell_is col text m with
      | inl e => inl e
      | inr b =>
          match exact_matches col text (S i) rest with
          | inl e => inl e
          | inr found => inr (if b then (i, m) :: found else found)
          end
      end
  end.

(** The text of an optional field when its truth value is true. *)
Definition set_text (v : option string) : option string :=
  match v with
  | Some s => if Text.nonempty s then Some s else None
  | None => None
  end.

Definition first_match (col text : string) (medicines : list row)
  : exn + option (nat * row) :=
  match exact_matches col text 0 medicines with
  | inl e => inl e
  | inr found => inr (head found)
  end.

(** [exact_match_data]: [if search_request.name: ... elif
    search_request.formulation: ...] *)
Definition find_exact_match (r : MedicineSearchRequest) (medicines : list row)
  : exn + option (nat * row) :=
  match set_text (req_name r) with
  | Some n => first_match "Name" n medicines
  | None =>
      match set_text (req_formulation r) with
      | Some f => first_match "Formulation" f medicines
      | None => inr None
      end
  end.

(** The conversion of the rows in lookup mode.  [exact_match_data] is the
    row object at its position in [medicines]: converting it updates that
    object, and the comparison [m != exact_match_data] that selects the
    other rows sees it updated.  The result is the exact match, the other
    medicines, and [exact_match_data] as it is left. *)
Definition convert_results (medicines : list row) (exact : option (nat * row))
  : exn + (option Medicine * list Medicine * option row) :=
  match exact with
  | None =>
      match create_all medicines with
      | inl e => inl e
      | inr meds => inr (None, meds, None)
      end
  | Some (i, exact_match_data) =>
      if bool_decide (exact_match_data = ∅) then
        match create_all
                (List.filter (fun m => negb (dict_eqb m exact_match_data)) medicines) with
        | inl e => inl e
        | inr meds => inr (None, meds, Some exact_match_data)
        end
      else
        match create_medicine_from_db exact_match_data with
        | (inl e, _) => inl e
        | (inr med, updated) =>
            match create_all
                    (List.filter (fun m => negb (dict_eqb m updated))
                                 (<[i := updated]> medicines)) with
            | inl e => inl e
            | inr meds => inr (Some med, meds, Some updated)
            end
        end
  end.

(** An [Optional[str]] field of the response. *)
Definition optional_text (loc : string) (v : option value) : exn + option string :=
  match v with
  | None | Some VNone => inr None
  | Some (VStr s) => inr (Some s)
  | Some _ => inl (ValidationError [loc])
  end.

Definition no_results : SearchResponse :=
  {| exact_match := None; similar_formulations := [];
     Uses := None; Side_Effects := None |}.

(** What [search_medicines] makes of the rows that the store returned:
    the statements between [response = query.execute()] and the final
    [return], which touch neither the store nor the cache. *)
Definition process_results
    (search_request : MedicineSearchRequest) (medicines : list row)
  : exn + SearchResponse :=
  match medicines with
  | [] => inr no_results
  | _ =>
      if is_type_or_dosage_search search_request then
        match create_all medicines with
        | inl e => inl e
        | inr processed_medicines =>
            inr {| exact_match := None;
                   similar_formulations := processed_medicines;
                   Uses := None; Side_Effects := None |}
        end
      else
        match find_exact_match search_request medicines with
        | inl e => inl e
        | inr exact =>
            match convert_results medicines exact with
            | inl e =>
                inl (HTTPException 500
                       ("Error processing search results: " +:+ exn_str e))
            | inr (exact_match_medicine, processed_medicines, exact_match_data) =>
                match optional_text "Uses" (safe_get exact_match_data "Uses") with
                | inl e => inl e
                | inr u =>
                    match optional_text "Side_Effects"
                            (safe_get exact_match_data "Side Effects") with
                    | inl e => inl e
                    | inr se =>
                        inr {| exact_match := exact_match_medicine;
                               similar_formulations := processed_medicines;
                               Uses := u; Side_Effects := se |}
                    end
                end
            end
        end
  end.

(** [POST /search] *)
Definition search_medicines
    (search_request : MedicineSearchRequest) (sort_order : option sort_literal)
  : M (result SearchResponse) :=
  try_except
    (let* _ := get_all_types in
     try_except
       (let* medicines := execute (search_query search_request sort_order) in
        let* response := lift (process_results search_request medicines) in
        ret (Body response))
       (fun e =>
          raise (HTTPException 500 ("Error processing search: " +:+ exn_str e))))
    (fun e =>
       ret (JSONResponse 500 ("An unexpected error occurred: " +:+ exn_str e))).

(** [GET /medicine/{name}] *)
Definition get_medicine_details (name : string) : M (result Medicine) :=
  try_except
    (let* data :=
       execute (limit 1 (eq_ "Name" name (select MEDICINES_TABLE "*"))) in
     match data with
     | [] => raise (HTTPException 404 "Medicine not found")
     | medicine :: _ =>
         let* m := lift (model_validate medicine) in
         ret (Body m)
     end)
    (fun e => raise (HTTPException 500 (exn_str e))).

(** *** The endpoints as the client sees them *)

Definition endpoint {A} (handler : M (result A)) (w : world)
  : http_response A * world :=
  let '(r, w') := handler w in (respond r, w').

End Finder.

(** ** Vocabulary of the properties *)

(** The price that a record carries in a column: the cell read as a
    decimal. *)
Definition cost_of `{PyNumerics} (data : row) (col : string) : option decimal :=
  match data !! col with
  | Some v => coerce_decimal v
  | None => None
  end.

Definition is_text (data : row) (col : string) : bool :=
  match data !! col with
  | Some (VStr _) => true
  | _ => false
  end.

(** An optional numeric cell is absent, [None], or readable as a number. *)
Definition optional_cell {A} (read : value -> option A) (data : row) (col : string)
  : bool :=
  match data !! col with
  | None | Some VNone => true
  | Some v => match read v with Some _ => true | None => false end
  end.

(** A record that is well formed apart from its prices: text in the six
    text columns, and nothing unreadable in the two derived columns. *)
Definition well_formed `{PyNumerics} (data : row) : bool :=
  forallb (is_text data)
          ["Name"; "Dosage"; "Formulation"; "Type"; "Uses"; "Side Effects"]
  && optional_cell coerce_decimal data "Cost difference"
  && optional_cell coerce_float data "Savings".






(** The text of a cell; [None] when the cell is missing or not text. *)
Definition cell_text (data : row) (col : string) : option string :=
  match data !! col with
  | Some (VStr s) => Some s
  | _ => None
  end.

(** The four columns that [create_medicine_from_db] may rewrite. *)
Definition without_prices (data : row) : row :=
  delete "Cost of branded"
    (delete "Cost of generic" (delete "Cost difference" (delete "Savings" data))).

(** Two rows that differ in a column other than the price columns. *)
Definition differ_outside_prices (a b : row) : bool :=
  negb (dict_eqb (without_prices a) (without_prices b)).

(** The column and the text that lookup mode compares: the name when the
    request has one, otherwise the formulation. *)
Definition lookup_key (r : MedicineSearchRequest) : option (string * string) :=
  match set_text (req_name r) with
  | Some n => Some ("Name", n)
  | None =>
      match set_text (req_formulation r) with
      | Some f => Some ("Formulation", f)
      | None => None
      end
  end.

(** A text cell equal to [text] up to case; [false] when the cell is
    missing or not text. *)
Definition text_is (col text : string) (m : row) : bool :=
  match m !! col with
  | Some (VStr s) => String.eqb (Text.lower s) (Text.lower text)
  | _ => false
  end.

(** A sequence of calls to [get_cached_suggestions], each against the
    store as it is at that time. *)
Fixpoint run_calls (calls : list (store * cache_key)) (w : world) : world :=
  match calls with
  | [] => w
  | (s, k) :: rest =>
      run_calls rest (snd (get_cached_suggestions s (fst k) (snd k) w))
  end.

(** The search result as the specification words it for lookup mode. *)
Module Spec.

(** "the first row whose name (if the request had name) or formulation
    (if the request had formulation) matches case-insensitively and
    exactly" *)
Definition matches (r : MedicineSearchRequest) (m : row) : bool :=
  match set_text (req_name r) with
  | Some n => text_is "Name" n m
  | None => false
  end
  || match set_text (req_formulation r) with
     | Some f => text_is "Formulation" f m
     | None => false
     end.

Fixpoint first_index (p : row -> bool) (i : nat) (rows : list row) : option nat :=
  match rows with
  | [] => None
  | m :: rest => if p m then Some i else first_index p (S i) rest
  end.

Definition exact_index (r : MedicineSearchRequest) (rows : list row) : option nat :=
  first_index (matches r) 0 rows.

(** "all other rows become similar_formulations in original order" *)
Definition others (rows : list row) (exact : option nat) : list row :=
  match exact with
  | Some i => delete i rows
  | None => rows
  end.

End Spec.

(** ** Numerics for evaluation *)

(** An instance of the numeric parameters used to run the embedding on
    examples: floats computed with decimal arithmetic (quotients to 20
    digits) and plain decimal literals as numeric text.  It agrees with
    binary floating point as long as every intermediate value is exactly
    representable, which is the case in the examples of this file. *)
Module ExactNumerics.

Definition digit (c : ascii) : option Z :=
  let n := N_of_ascii c in
  if ((48 <=? n) && (n <=? 57))%N then Some (Z.of_N n - 48)%Z else None.

(** Digits with at most one point: the coefficient read so far and the
    number of digits after the point. *)
Fixpoint digits (s : string) (seen_point : bool) (acc : Z) (frac : Z)
  : option (Z * Z) :=
  match s with
  | EmptyString => Some (acc, frac)
  | String c s' =>
      if Ascii.eqb c "."%char then
        if seen_point then None else digits s' true acc frac
      else
        match digit c with
        | Some d =>
            digits s' seen_point (10 * acc + d)%Z
                   (if seen_point then frac + 1 else frac)%Z
        | None => None
        end
  end.

Definition unsigned (s : string) : option decimal :=
  match s with
  | EmptyString => None
  | _ =>
      match digits s false 0%Z 0%Z with
      | Some (c, f) => Some (Dec c (- f))
      | None => None
      end
  end.

Definition parse (s : string) : option decimal :=
  match s with
  | String "-" s' =>
      match unsigned s' with
      | Some d => Some (Dec (- coef d) (expo d))
      | None => None
      end
  | _ => unsigned s
  end.

Definition of_decimal (d : decimal) : pyfloat := {| fl_val := d; fl_repr := d |}.

Definition lift2 (f : decimal -> decimal -> decimal) (x y : pyfloat) : pyfloat :=
  of_decimal (f (fl_val x) (fl_val y)).

Definition mul (a b : decimal) : decimal := Dec (coef a * coef b) (expo a + expo b).

Definition div (a b : decimal) : decimal :=
  Dec (Z.quot (coef a * 10 ^ 20) (coef b)) (expo a - expo b - 20).

Definition round (x : pyfloat) (ndigits : Z) : pyfloat :=
  let d := fl_val x in
  if (- ndigits <=? expo d)%Z then x
  else of_decimal (Dec (Decimal.round_half_even (coef d) (- ndigits - expo d))
                       (- ndigits)).

Definition numerics : PyNumerics :=
  {| decimal_of_str := parse;
     float_of_str := fun s => option_map of_decimal (parse s);
     float_of_decimal := of_decimal;
     fsub := lift2 Decimal.sub_exact;
     fdiv := lift2 div;
     fmul := lift2 mul;
     fround := round;
     float_of_decimal_pos := fun _ positive => positive |}.

End ExactNumerics.

(** ** Numerics with the lower end of the range of a float

    [ExactNumerics] with two additions: numeric text may carry an
    exponent ([1e-400]), and a magnitude of at most [2 ^ -1075], half the
    smallest positive float, converts to [0.0], as it does under rounding
    to nearest. *)

Module SmallNumerics.

(** The text before and after the first [e] or [E]. *)
Fixpoint split_exponent (s : string) : string * option string :=
  match s with
  | EmptyString => (EmptyString, None)
  | String c s' =>
      if Ascii.eqb c "e"%char || Ascii.eqb c "E"%char then (EmptyString, Some s')
      else let '(m, e) := split_exponent s' in (String c m, e)
  end.

Fixpoint natural (s : string) (acc : Z) : option Z :=
  match s with
  | EmptyString => Some acc
  | String c s' =>
      match ExactNumerics.digit c with
      | Some d => natural s' (10 * acc + d)%Z
      | None => None
      end
  end.

Definition integer (s : string) : option Z :=
  match s with
  | EmptyString => None
  | String "-" (String _ _ as s') => option_map Z.opp (natural s' 0%Z)
  | String "+" (String _ _ as s') => natural s' 0%Z
  | _ => natural s 0%Z
  end.

Definition parse (s : string) : option decimal :=
  match split_exponent s with
  | (m, None) => ExactNumerics.parse m
  | (m, Some e) =>
      match ExactNumerics.parse m, integer e with
      | Some d, Some k => Some (Dec (coef d) (expo d + k))
      | _, _ => None
      end
  end.

(** [2 ^ -1075] *)
Definition half_least : decimal := Dec (5 ^ 1075) (-1075).

Definition of_decimal (d : decimal) : pyfloat :=
  if Decimal.ltb half_least (Dec (Z.abs (coef d)) (expo d))
  then ExactNumerics.of_decimal d
  else ExactNumerics.of_decimal Decimal.zero.

Definition of_decimal_pos (d : decimal)
  : float_pos (of_decimal d) = true -> Decimal.ltb Decimal.zero d = true :=
  match Decimal.ltb half_least (Dec (Z.abs (coef d)) (expo d)) as above
        return float_pos (if above then ExactNumerics.of_decimal d
                          else ExactNumerics.of_decimal Decimal.zero) = true ->
               Decimal.ltb Decimal.zero d = true
  with
  | true => fun positive => positive
  | false =>
      fun absurd : false = true =>
        eq_ind false
               (fun x : bool => if x then Decimal.ltb Decimal.zero d = true else True)
               I true absurd
  end.

Definition numerics : PyNumerics :=
  {| decimal_of_str := parse;
     float_of_str := fun s => option_map of_decimal (parse s);
     float_of_decimal := of_decimal;
     fsub := ExactNumerics.lift2 Decimal.sub_exact;
     fdiv := ExactNumerics.lift2 ExactNumerics.div;
     fmul := ExactNumerics.lift2 ExactNumerics.mul;
     fround := ExactNumerics.round;
     float_of_decimal_pos := of_decimal_pos |}.

End SmallNumerics.

(** ** Example data *)

Module Examples.

Definition medicine_row (n f : string) (branded generic : Z) : row :=
  list_to_map
    [("Name", VStr n); ("Dosage", VStr "1mg"); ("Formulation", VStr f);
     ("Cost of branded", VInt branded); ("Cost of generic", VInt generic);
     ("Type", VStr "A-Anti Diabetic"); ("Uses", VStr "Diabetes");
     ("Side Effects", VStr "Nausea")].

Definition glimepride : row :=
  medicine_row "TAB GLIMEPRIDE" "Glimepiride 1mg" 10 5.



(** A record whose generic price is above the branded one. *)
Definition generic_above : row := medicine_row "TAB X" "X 1mg" 5 10.

(** The medicines that the two records map to. *)
Definition medicine (n f : string) (branded generic difference : Z) (percent : decimal)
  : Medicine :=
  {| name := n; dosage := "1mg"; formulation := f;
     cost_of_branded := Dec branded 0; cost_of_generic := Dec generic 0;
     cost_difference := Some (Dec difference 0);
     savings := Some (Float percent percent);
     type_ := "A-Anti Diabetic"; uses := "Diabetes"; side_effects := "Nausea" |}.

Definition glimepride_medicine : Medicine :=
  medicine "TAB GLIMEPRIDE" "Glimepiride 1mg" 10 5 5 (Dec 500 (-1)).

Definition amaryl : row := medicine_row "AMARYL" "Glimepiride 1mg" 20 5.

Definition amaryl_medicine : Medicine :=
  medicine "AMARYL" "Glimepiride 1mg" 20 5 15 (Dec 750 (-1)).

(** The first record as a table with stored derived columns returns it. *)
Definition stored_glimepride : row :=
  <["Savings" := VFloat (Float (Dec 500 (-1)) (Dec 500 (-1)))]>
    (<["Cost difference" := VInt 5]> glimepride).

Definition request (n f t d : option string) : MedicineSearchRequest :=
  {| req_name := n; req_formulation := f; req_type := t; req_dosage := d |}.

Definition by_name : MedicineSearchRequest :=
  request (Some "Tab Glimepride") None None None.

Definition by_name_and_formulation : MedicineSearchRequest :=
  request (Some "Glim") (Some "Glimepiride 1mg") None None.

Definition by_type : MedicineSearchRequest :=
  request None None (Some "Anti Diabetic") None.

(** A store that answers every query with the same rows. *)
Definition constant_store (rows : list row) : store := fun _ => inr rows.

(** A store that applies the row limit of the query to a fixed table. *)
Definition limited_store (rows : list row) : store :=
  fun q =>
    inr (match q_limit q with
         | Some n => take n rows
         | None => rows
         end).

(** A store that is down. *)
Definition failing_store : store :=
  fun _ => inl (SupabaseConnectionError "connection refused").

Definition fresh : world := {| w_cache := []; w_log := [] |}.


(** The first record with its uses under the name of the field instead
    of the column name. *)
Definition uses_by_field_name : row :=
  <["uses" := VStr "Diabetes"]> (delete "Uses" glimepride).


End Examples.

(** ** routers/finder.py: the listing by type *)

Section ByType.
Context `{PyNumerics}.
Variable supabase : store.

(** [apply_price_sort] *)
Definition apply_price_sort (q : db_query) (sort_order : option sort_literal)
  : db_query :=
  match sort_order with
  | Some low_to_high => order "Cost of branded" false q
  | Some high_to_low => order "Cost of branded" true q
  | Some sort_none | None => q
  end.

(** The query that [get_medicines_by_type] builds: the filter on the
    cleaned type and the limit first, the sort after them. *)
Definition by_type_query (type : string) (limit_ : nat)
    (sort_order : option sort_literal) : db_query :=
  let cleaned_type := clean_type_value type in
  let query :=
    limit limit_
      (ilike "Type" ("%" +:+ cleaned_type +:+ "%") (select MEDICINES_TABLE "*")) in
  match sort_order with
  | Some sort_none | None => query
  | Some _ => apply_price_sort query sort_order
  end.

(** The conversion loop of [get_medicines_by_type]: a row whose conversion
    raises is logged and skipped. *)
Fixpoint convert_valid (items : list row) : list Medicine :=
  match items with
  | [] => []
  | item :: rest =>
      match fst (create_medicine_from_db item) with
      | inr medicine => medicine :: convert_valid rest
      | inl _ => convert_valid rest
      end
  end.

(** [get_medicines_by_type], once its parameters are validated. *)
Definition get_medicines_by_type
    (type : string) (limit_ : nat) (sort_order : option sort_literal)
  : M (result (list Medicine)) :=
  try_except
    (let* _ := get_all_types supabase in
     let* data := execute supabase (by_type_query type limit_ sort_order) in
     match data with
     | [] => ret (Body [])
     | _ => ret (Body (convert_valid data))
     end)
    (fun e =>
       raise (HTTPException 500
                ("Error filtering medicines by type: " +:+ exn_str e))).

(** [GET /medicines/by_type]: [limit] defaults to 50 and must lie between
    1 and 100 ([Query(default=50, ge=1, le=100)]); a value outside is
    refused by the framework with status 422 before the handler runs. *)
Definition medicines_by_type
    (type : string) (limit_param : option Z) (sort_order : option sort_literal)
    (w : world) : http_response (list Medicine) * world :=
  let n := match limit_param with Some n => n | None => 50%Z end in
  if ((1 <=? n) && (n <=? 100))%Z
  then endpoint (get_medicines_by_type type (Z.to_nat n) sort_order) w
  else ({| status := 422; payload := inr "limit" |}, w).

End ByType.

(** ** db/supabase_client.py *)

Module SupabaseClient.

Section Client.
(** The client library: [create_client] and the test query
    [client.table(...).select("Name").limit(1).execute()], of which the
    code uses the truth value of the response. *)
Variable Client : Type.
Variable create_client : string -> string -> exn + Client.
Variable test_query : Client -> exn + bool.

Definition missing_vars (supabase_url supabase_key : option string) : list string :=
  (if is_set supabase_url then [] else ["SUPABASE_URL"])
  ++ (if is_set supabase_key then [] else ["SUPABASE_KEY"]).

(** The body of the [try] block. *)
Definition connect (url key : string) : exn + Client :=
  match create_client url key with
  | inl e => inl e
  | inr client =>
      match test_query client with
      | inl e => inl e
      | inr true => inr client
      | inr false => inl (SupabaseConnectionError "Failed to execute test query")
      end
  end.

(** [get_supabase_client], given what [os.getenv] returns for the two
    variables. *)
Definition get_supabase_client (supabase_url supabase_key : option string)
  : exn + Client :=
  match supabase_url, supabase_key with
  | Some url, Some key =>
      if Text.nonempty url && Text.nonempty key then
        match connect url key with
        | inl e =>
            inl (SupabaseConnectionError
                   ("Failed to initialize Supabase client: " +:+ exn_str e))
        | inr client => inr client
        end
      else
        inl (SupabaseConnectionError
               ("Missing required environment variables: "
                +:+ String.concat ", " (missing_vars supabase_url supabase_key)))
  | _, _ =>
      inl (SupabaseConnectionError
             ("Missing required environment variables: "
              +:+ String.concat ", " (missing_vars supabase_url supabase_key)))
  end.

End Client.

End SupabaseClient.

(** ** Vocabulary of the further properties *)

From stdpp Require Import sorting.

(** A list of suggestions as the cached function builds them: at most
    ten, in ascending order, without repetition. *)
Definition tidy (l : list string) : Prop :=
  length l <= 10 /\ StronglySorted String.le l /\ NoDup l.

(** A well-kept cache: within its capacity, one entry per pair of
    arguments, every stored list tidy. *)
Definition cache_invariant (c : lru) : Prop :=
  length c <= maxsize /\ NoDup (map fst c) /\ Forall (fun e => tidy (snd e)) c.

(** What the first validator makes of a field on its own: a field that is
    not supplied, null or blank is [None], other text is kept. *)
Definition normalized (input : supplied) : option string :=
  match input with
  | Absent => None
  | Given v => validate_string_fields v
  end.

(** A field passes when it is not supplied, when it is not blank, or when
    one of the fields before it is not blank. *)
Definition passes (earlier : list supplied) (input : supplied) : bool :=
  match input with
  | Absent => true
  | Given _ =>
      bool_decide (normalized input <> None)
      || existsb (fun e => bool_decide (normalized e <> None)) earlier
  end.

(** The bodies that the validation accepts, said without the order of
    evaluation: the name always passes, each other field passes against
    the fields declared before it. *)
Definition accepts (raw : raw_request) : bool :=
  passes [raw_name raw] (raw_formulation raw)
  && passes [raw_name raw; raw_formulation raw] (raw_type raw)
  && passes [raw_name raw; raw_formulation raw; raw_type raw] (raw_dosage raw).

(** The characters of a text. *)
Abbreviation chars := list_ascii_of_string.

(** A text made of blanks only (the empty text included). *)
Definition blank (s : string) : bool := forallb Text.isspace (chars s).

(** The characters that are not blanks, in their order. *)
Definition nonblanks (l : list ascii) : list ascii :=
  List.filter (fun c => negb (Text.isspace c)) l.

(** A word: a non-empty run of characters that are not blanks. *)
Definition is_word (w : list ascii) : Prop :=
  w <> [] /\ Forall (fun c => Text.isspace c = false) w.

(** The column of a filter, and whether it is a pattern match. *)
Definition filter_column (f : filter_op) : string :=
  match f with
  | FEq column _ | FILike column _ => column
  end.

Definition is_ilike (f : filter_op) : bool :=
  match f with
  | FILike _ _ => true
  | FEq _ _ => false
  end.

(** The names that [build_search_query] knows, and the columns they stand
    for. *)
Definition known_fields : list string :=
  ["type"; "name"; "formulation"; "dosage";
   "Type"; "Name"; "Formulation"; "Dosage"].

Definition filter_columns : list string :=
  ["Type"; "Name"; "Formulation"; "Dosage"].

(** Whether the first character of a text satisfies a test. *)
Definition first_is (p : ascii -> bool) (l : list ascii) : bool :=
  match l with
  | c :: _ => p c
  | [] => false
  end.

Definition is_hyphen (c : ascii) : bool := Ascii.eqb c "-".

Definition starts_blank (l : list ascii) : bool := first_is Text.isspace l.

Fixpoint ends_blank (l : list ascii) : bool :=
  match l with
  | [] => false
  | [c] => Text.isspace c
  | _ :: rest => ends_blank rest
  end.

(** A blank right before or right after a hyphen. *)
Fixpoint loose_hyphen (l : list ascii) : bool :=
  match l with
  | [] => false
  | c :: rest =>
      (Text.isspace c && first_is is_hyphen rest)
      || (is_hyphen c && first_is Text.isspace rest)
      || loose_hyphen rest
  end.

(** A text without a blank at either end or next to a hyphen. *)
Definition tight (l : list ascii) : Prop :=
  loose_hyphen l = false /\ starts_blank l = false /\ ends_blank l = false.

(** Bodies of search requests and tables for the instances below. *)
Module Bodies.

(** A name, a blank formulation, no type, a null dosage. *)
Definition named : raw_request :=
  {| raw_name := Given (Some "Amaryl"); raw_formulation := Given (Some "  ");
     raw_type := Absent; raw_dosage := Given None |}.

(** A table with one record that maps and one that does not. *)
Definition mixed : list row := [Examples.glimepride; Examples.generic_above].

End Bodies.

(** * Properties *)

(** ** Decimal arithmetic *)

Module DecimalFacts.
Import Decimal.
Local Open Scope Z_scope.

Lemma pow10_pos k : 0 <= k -> 0 < 10 ^ k.
Proof. intros Hk. apply Z.pow_pos_nonneg; lia. Qed.

(** Scaling to a smaller exponent keeps the sign. *)
Lemma scaled_sign d e :
  e <= expo d -> (scaled d e < 0 <-> coef d < 0) /\ (0 < scaled d e <-> 0 < coef d).
Proof.
  intros He. unfold scaled.
  pose proof (pow10_pos (expo d - e) ltac:(lia)) as Hp.
  split; split; intros Hc; nia.
Qed.

Lemma ltb_zero_r d : ltb d zero = (coef d <? 0).
Proof.
  unfold ltb, compare. cbn [expo coef zero].
  destruct (scaled_sign d (Z.min (expo d) 0) ltac:(lia)) as [Hneg Hpos].
  assert (scaled zero (Z.min (expo d) 0) = 0) as -> by (unfold scaled; cbn; lia).
  destruct (Z.compare_spec (scaled d (Z.min (expo d) 0)) 0) as [Hc|Hc|Hc];
    symmetry; [apply Z.ltb_ge | apply Z.ltb_lt | apply Z.ltb_ge]; lia.
Qed.

Lemma ltb_scaled a b :
  ltb a b = (scaled a (Z.min (expo a) (expo b)) <? scaled b (Z.min (expo a) (expo b))).
Proof.
  unfold ltb, compare, Z.ltb.
  destruct (scaled a _ ?= scaled b _); reflexivity.
Qed.

(** The exact difference is negative exactly when [a < b]. *)
Lemma sub_exact_neg a b : ltb (sub_exact a b) zero = ltb a b.
Proof.
  rewrite ltb_zero_r, ltb_scaled. unfold sub_exact. cbn [coef].
  destruct (Z.ltb_spec (scaled a (Z.min (expo a) (expo b)))
                       (scaled b (Z.min (expo a) (expo b))));
    [apply Z.ltb_lt | apply Z.ltb_ge]; lia.
Qed.

Lemma excess_nonneg fuel c : 0 <= excess fuel c.
Proof.
  revert c. induction fuel as [|fuel IH]; intros c; cbn [excess]; [lia|].
  destruct (Z.abs c <? 10 ^ prec); [lia|]. specialize (IH (Z.quot c 10)). lia.
Qed.

(** The digits dropped never reach the leading digit. *)
Lemma excess_bound fuel c :
  excess fuel c = 0 \/ 10 ^ excess fuel c <= Z.abs c.
Proof.
  revert c. induction fuel as [|fuel IH]; intros c; cbn [excess]; [now left|].
  destruct (Z.ltb_spec (Z.abs c) (10 ^ prec)) as [Hlt|Hge]; [now left|].
  right.
  pose proof (excess_nonneg fuel (Z.quot c 10)) as Hnn.
  rewrite Z.pow_add_r by lia. change (10 ^ 1) with 10.
  assert (10 <= Z.abs c) as H10.
  { etransitivity; [|exact Hge]. unfold prec.
    change 10 with (10 ^ 1) at 1. apply Z.pow_le_mono_r; lia. }
  assert (10 * Z.abs (Z.quot c 10) <= Z.abs c) as Hq.
  { rewrite <- Z.quot_abs by lia.
    rewrite Z.quot_div_nonneg by lia.
    apply Z.mul_div_le. lia. }
  destruct (IH (Z.quot c 10)) as [H0|Hb].
  - rewrite H0. change (10 ^ 0) with 1. lia.
  - nia.
Qed.

(** Rounding a coefficient that has at least [k + 1] digits keeps its
    sign. *)
Lemma round_half_even_sign c k :
  0 <= k -> 10 ^ k <= Z.abs c ->
  (round_half_even c k < 0 <-> c < 0).
Proof.
  intros Hk Hc. unfold round_half_even.
  pose proof (pow10_pos k Hk) as Hp.
  set (p := 10 ^ k) in *.
  assert (c < 0 -> Z.quot c p <= -1) as Hneg.
  { intros Hlt.
    assert (1 <= Z.quot (- c) p) as Hq.
    { rewrite Z.quot_div_nonneg by lia.
      apply Z.div_le_lower_bound; lia. }
    rewrite Z.quot_opp_l in Hq by lia. lia. }
  assert (0 <= c -> 1 <= Z.quot c p) as Hpos.
  { intros Hge. rewrite Z.quot_div_nonneg by lia.
    apply Z.div_le_lower_bound; lia. }
  assert (c < 0 \/ 0 <= c) as [Hlt|Hge] by lia.
  - specialize (Hneg Hlt). rewrite (Z.sgn_neg c) by lia.
    repeat match goal with |- context [if ?b then _ else _] => destruct b end;
      split; intros _; lia.
  - specialize (Hpos Hge).
    assert (0 < c) as Hc0 by lia. rewrite (Z.sgn_pos c) by lia.
    repeat match goal with |- context [if ?b then _ else _] => destruct b end;
      split; intros ?; lia.
Qed.

Lemma round_context_neg d : ltb (round_context d) zero = ltb d zero.
Proof.
  rewrite !ltb_zero_r. unfold round_context.
  set (k := excess _ _).
  destruct (Z.eqb_spec k 0) as [|Hk]; [reflexivity|].
  cbn [coef].
  pose proof (excess_nonneg (Z.to_nat (Z.log2 (Z.abs (coef d)))) (coef d)) as Hnn.
  destruct (excess_bound (Z.to_nat (Z.log2 (Z.abs (coef d)))) (coef d)) as [H0|Hb];
    [contradiction|].
  pose proof (round_half_even_sign (coef d) k Hnn Hb) as Hs.
  destruct (Z.ltb_spec (coef d) 0), (Z.ltb_spec (round_half_even (coef d) k) 0);
    try reflexivity; lia.
Qed.

(** [a - b < 0] exactly when [a < b]. *)
Lemma sub_neg a b : ltb (sub a b) zero = ltb a b.
Proof. unfold sub. rewrite round_context_neg. apply sub_exact_neg. Qed.

(** Below the context precision the subtraction is exact. *)
Lemma sub_small a b :
  Z.abs (coef (sub_exact a b)) < 10 ^ prec -> sub a b = sub_exact a b.
Proof.
  intros Hs. unfold sub, round_context.
  destruct (Z.to_nat _) as [|fuel]; cbn [excess]; [reflexivity|].
  apply Z.ltb_lt in Hs. rewrite Hs. reflexivity.
Qed.

(** [b >= g] and [g >= 0] give [b >= 0]. *)
Lemma nonneg_trans b g :
  ltb b g = false -> ltb g zero = false -> ltb b zero = false.
Proof.
  rewrite ltb_scaled, !ltb_zero_r. intros Hbg Hg.
  apply Z.ltb_ge in Hbg, Hg. apply Z.ltb_ge.
  destruct (scaled_sign b (Z.min (expo b) (expo g)) ltac:(lia)) as [Hb _].
  destruct (scaled_sign g (Z.min (expo b) (expo g)) ltac:(lia)) as [Hgs _].
  lia.
Qed.

Lemma eqb_refl d : eqb d d = true.
Proof. unfold eqb, compare. rewrite Z.compare_refl. reflexivity. Qed.

End DecimalFacts.

(** ** Rows *)

Section RowFacts.

Lemma py_eqb_refl v : py_eqb v v = true.
Proof.
  destruct v; cbn; try reflexivity.
  - apply String.eqb_refl.
  - apply DecimalFacts.eqb_refl.
  - apply DecimalFacts.eqb_refl.
  - apply DecimalFacts.eqb_refl.
Qed.

Lemma dict_eqb_refl (m : row) : dict_eqb m m = true.
Proof.
  apply bool_decide_eq_true. intros k. unfold option_relation.
  destruct (m !! k); [apply py_eqb_refl | exact I].
Qed.

(** Equal dicts stay equal when a key is removed from both. *)
Lemma dict_eq_delete (a b : row) k :
  dict_eq a b -> dict_eq (delete k a) (delete k b).
Proof.
  intros Hab j. specialize (Hab j).
  destruct (decide (k = j)) as [->|Hne].
  - rewrite !lookup_delete_eq. exact I.
  - rewrite !lookup_delete_ne by done. exact Hab.
Qed.

Lemma dict_eq_without_prices (a b : row) :
  dict_eq a b -> dict_eq (without_prices a) (without_prices b).
Proof. intros Hab. unfold without_prices. by do 4 apply dict_eq_delete. Qed.

(** Rows that differ outside the price columns are different. *)
Lemma differ_outside_prices_ne (a b b' : row) :
  without_prices b' = without_prices b ->
  differ_outside_prices a b = true ->
  dict_eqb a b' = false.
Proof.
  intros Hb Hd. unfold differ_outside_prices in Hd.
  apply negb_true_iff, bool_decide_eq_false in Hd.
  apply bool_decide_eq_false. intros Hab. apply Hd.
  rewrite <- Hb. by apply dict_eq_without_prices.
Qed.

End RowFacts.

(** ** The record mapper *)

Section MappingFacts.
Context `{PyNumerics}.

Lemma to_decimal_coerce v d : coerce_decimal v = Some d -> to_decimal v = inr d.
Proof.
  destruct v; cbn; intros Hc; try discriminate; try congruence.
  destruct (decimal_of_str s); congruence.
Qed.

(** The row that [create_medicine_from_db] hands to the validation: both
    prices made [Decimal], then the derived columns filled. *)
Lemma create_medicine_from_db_prepared data b g :
  cost_of data "Cost of branded" = Some b ->
  cost_of data "Cost of generic" = Some g ->
  create_medicine_from_db data =
    let prepared :=
      fill_derived (<["Cost of generic" := VDec g]> (<["Cost of branded" := VDec b]> data)) in
    (model_validate prepared, prepared).
Proof.
  unfold cost_of, create_medicine_from_db, decimalize. intros Hb Hg.
  destruct (data !! "Cost of branded") as [vb|] eqn:Eb; [|discriminate].
  rewrite (to_decimal_coerce _ _ Hb).
  rewrite lookup_insert_ne by done.
  destruct (data !! "Cost of generic") as [vg|] eqn:Eg; [|discriminate].
  rewrite (to_decimal_coerce _ _ Hg). reflexivity.
Qed.

Section Prepared.
Variables (data : row) (b g : decimal).

Let priced : row :=
  <["Cost of generic" := VDec g]> (<["Cost of branded" := VDec b]> data).

Lemma both_prices_priced : both_prices priced = Some (b, g).
Proof. unfold both_prices, priced. by simplify_map_eq. Qed.

Lemma fill_cost_difference_priced :
  fill_cost_difference priced =
    if missing_or_none "Cost difference" data
    then <["Cost difference" := VDec (Decimal.sub b g)]> priced
    else priced.
Proof.
  unfold fill_cost_difference. rewrite both_prices_priced.
  unfold missing_or_none, priced. by simplify_map_eq.
Qed.

Lemma both_prices_difference :
  both_prices (fill_cost_difference priced) = Some (b, g).
Proof.
  rewrite fill_cost_difference_priced.
  destruct (missing_or_none _ data); [|apply both_prices_priced].
  unfold both_prices, priced. by simplify_map_eq.
Qed.

Lemma missing_savings_difference :
  missing_or_none "Savings" (fill_cost_difference priced)
  = missing_or_none "Savings" data.
Proof.
  rewrite fill_cost_difference_priced. unfold missing_or_none, priced.
  destruct (match data !! "Cost difference" with
            | Some VNone | None => true | Some _ => false end);
    by simplify_map_eq.
Qed.

Lemma fill_derived_priced :
  fill_derived priced =
    let d3 := fill_cost_difference priced in
    if missing_or_none "Savings" data && float_pos (float_of_decimal b)
    then <["Savings" :=
             VFloat (savings_percent (float_of_decimal b) (float_of_decimal g))]> d3
    else d3.
Proof.
  unfold fill_derived, fill_savings.
  rewrite missing_savings_difference, both_prices_difference.
  destruct (missing_or_none "Savings" data), (float_pos (float_of_decimal b));
    reflexivity.
Qed.

(** What the prepared row holds, column by column. *)
Lemma prepared_branded :
  fill_derived priced !! "Cost of branded" = Some (VDec b).
Proof.
  rewrite fill_derived_priced, fill_cost_difference_priced. cbv zeta.
  unfold priced.
  destruct (_ && _), (missing_or_none "Cost difference" data); by simplify_map_eq.
Qed.

Lemma prepared_generic :
  fill_derived priced !! "Cost of generic" = Some (VDec g).
Proof.
  rewrite fill_derived_priced, fill_cost_difference_priced. cbv zeta.
  unfold priced.
  destruct (_ && _), (missing_or_none "Cost difference" data); by simplify_map_eq.
Qed.

Lemma prepared_difference :
  fill_derived priced !! "Cost difference" =
    if missing_or_none "Cost difference" data
    then Some (VDec (Decimal.sub b g))
    else data !! "Cost difference".
Proof.
  rewrite fill_derived_priced, fill_cost_difference_priced. cbv zeta.
  unfold priced.
  destruct (_ && _), (missing_or_none "Cost difference" data); by simplify_map_eq.
Qed.


Lemma prepared_other col :
  col <> "Cost of branded" -> col <> "Cost of generic" ->
  col <> "Cost difference" -> col <> "Savings" ->
  fill_derived priced !! col = data !! col.
Proof.
  intros ? ? ? ?.
  rewrite fill_derived_priced, fill_cost_difference_priced. cbv zeta.
  unfold priced.
  destruct (_ && _), (missing_or_none "Cost difference" data); by simplify_map_eq.
Qed.

(** Outside the price columns the prepared row is the raw row. *)
Lemma prepared_without_prices :
  without_prices (fill_derived priced) = without_prices data.
Proof.
  apply map_eq. intros col. unfold without_prices.
  destruct (decide (col = "Cost of branded")) as [->|?];
    [by rewrite !lookup_delete_eq|rewrite !(lookup_delete_ne _ "Cost of branded") by done].
  destruct (decide (col = "Cost of generic")) as [->|?];
    [by rewrite !lookup_delete_eq|rewrite !(lookup_delete_ne _ "Cost of generic") by done].
  destruct (decide (col = "Cost difference")) as [->|?];
    [by rewrite !lookup_delete_eq|rewrite !(lookup_delete_ne _ "Cost difference") by done].
  destruct (decide (col = "Savings")) as [->|?];
    [by rewrite !lookup_delete_eq|rewrite !(lookup_delete_ne _ "Savings") by done].
  by apply prepared_other.
Qed.

End Prepared.

End MappingFacts.

Section ValidationFacts.
Context `{PyNumerics}.

(** A successful validation fixes every field of the medicine. *)
Lemma model_validate_inr data m :
  model_validate data = inr m ->
  required_str data "Name" "name" = Some (name m)
  /\ required_str data "Formulation" "formulation" = Some (formulation m)
  /\ required_str data "Uses" "uses" = Some (uses m)
  /\ required_str data "Side Effects" "side_effects" = Some (side_effects m)
  /\ field_cost_of_branded data = Some (cost_of_branded m)
  /\ field_cost_of_generic data (values_after_branded data) = Some (cost_of_generic m)
  /\ field_cost_difference data (values_after_generic data) = Some (cost_difference m)
  /\ field_savings data (values_after_generic data) = Some (savings m).
Proof.
  unfold model_validate. cbv zeta.
  destruct (required_str data "Name" "name"); [|discriminate].
  destruct (required_str data "Dosage" "dosage"); [|discriminate].
  destruct (required_str data "Formulation" "formulation"); [|discriminate].
  destruct (field_cost_of_branded data) eqn:Eb; [|discriminate].
  destruct (field_cost_of_generic data (values_after_branded data)) eqn:Eg;
    [|discriminate].
  destruct (field_cost_difference data (values_after_generic data)); [|discriminate].
  destruct (field_savings data (values_after_generic data)); [|discriminate].
  destruct (required_str data "Type" "type"); [|discriminate].
  destruct (required_str data "Uses" "uses"); [|discriminate].
  destruct (required_str data "Side Effects" "side_effects"); [|discriminate].
  intros [= <-]. cbn. repeat split; reflexivity.
Qed.


(** The price fields of a row whose price cells read as [b] and [g]. *)
Lemma field_cost_of_branded_eq data b :
  cost_of data "Cost of branded" = Some b ->
  field_cost_of_branded data
  = if Decimal.ltb b Decimal.zero then None else Some b.
Proof.
  unfold cost_of, field_cost_of_branded, field_input, and_then, validate_prices.
  destruct (data !! "Cost of branded"); [|discriminate].
  intros ->. by destruct (Decimal.ltb b Decimal.zero).
Qed.

Lemma field_cost_of_generic_eq data g values :
  cost_of data "Cost of generic" = Some g ->
  field_cost_of_generic data values
  = if Decimal.ltb g Decimal.zero then None
    else match v_cost_of_branded values with
         | Some b => if Decimal.ltb b g then None else Some g
         | None => Some g
         end.
Proof.
  unfold cost_of, field_cost_of_generic, field_input, and_then, validate_prices,
    validate_generic_price.
  destruct (data !! "Cost of generic"); [|discriminate].
  intros ->. destruct (Decimal.ltb g Decimal.zero); cbn; [reflexivity|].
  destruct (v_cost_of_branded values) as [b|]; [|reflexivity].
  by destruct (Decimal.ltb b g).
Qed.


Lemma cost_of_prepared_branded data b g :
  cost_of (fill_derived (<["Cost of generic" := VDec g]>
                           (<["Cost of branded" := VDec b]> data)))
          "Cost of branded" = Some b.
Proof. unfold cost_of. by rewrite prepared_branded. Qed.

Lemma cost_of_prepared_generic data b g :
  cost_of (fill_derived (<["Cost of generic" := VDec g]>
                           (<["Cost of branded" := VDec b]> data)))
          "Cost of generic" = Some g.
Proof. unfold cost_of. by rewrite prepared_generic. Qed.

End ValidationFacts.

(** ** Claims on the record mapper *)

Section MapperClaims.
Context `{PyNumerics}.

Lemma is_text_lookup (data : row) col :
  is_text data col = true -> exists s, data !! col = Some (VStr s).
Proof.
  unfold is_text. destruct (data !! col) as [[]|]; try discriminate. eauto.
Qed.














End MapperClaims.






(** ** The handlers *)

Ltac run_handler :=
  unfold endpoint, bind, ret, raise, lift, try_except, execute; cbn.

Section SuggestionFacts.
Variable supabase : store.

(** The body of the cached function never raises; it leaves the cache
    alone and sends exactly one query. *)
Lemma fetch_suggestions_run field query w :
  exists found,
    fetch_suggestions supabase field query w
    = (inr found,
       {| w_cache := w_cache w;
          w_log := w_log w ++ [suggestions_query field query] |})
    /\ (forall e, supabase (suggestions_query field query) = inl e -> found = []).
Proof.
  unfold fetch_suggestions. run_handler.
  destruct (supabase (suggestions_query field query)) as [e|[|item data]];
    eexists; (split; [reflexivity|]); intros; congruence.
Qed.

(** A call whose arguments are cached returns the cached list and sends
    nothing to the store. *)
Lemma get_cached_suggestions_hit field query w found :
  lru_lookup (field, query) (w_cache w) = Some found ->
  get_cached_suggestions supabase field query w
  = (inr found,
     {| w_cache := lru_hit (field, query) found (w_cache w); w_log := w_log w |}).
Proof.
  intros Hhit. unfold get_cached_suggestions, lru_cached. by rewrite Hhit.
Qed.

(** A call whose arguments are not cached runs the body and stores what it
    returns. *)
Lemma get_cached_suggestions_miss field query w :
  lru_lookup (field, query) (w_cache w) = None ->
  exists found,
    get_cached_suggestions supabase field query w
    = (inr found,
       {| w_cache := lru_store (field, query) found (w_cache w);
          w_log := w_log w ++ [suggestions_query field query] |})
    /\ (forall e, supabase (suggestions_query field query) = inl e -> found = []).
Proof.
  intros Hmiss. unfold get_cached_suggestions, lru_cached. rewrite Hmiss.
  cbn [fst snd].
  destruct (fetch_suggestions_run field query w) as (found & -> & Hfail).
  by exists found.
Qed.

Lemma get_cached_suggestions_total field query w :
  exists found w', get_cached_suggestions supabase field query w = (inr found, w').
Proof.
  destruct (lru_lookup (field, query) (w_cache w)) as [found|] eqn:E.
  - rewrite (get_cached_suggestions_hit _ _ _ _ E). eauto.
  - destruct (get_cached_suggestions_miss _ _ _ E) as (found & -> & _). eauto.
Qed.

Lemma get_all_types_run w :
  get_all_types supabase w
  = (inr tt,
     {| w_cache := w_cache w; w_log := w_log w ++ [select MEDICINES_TABLE "Type"] |}).
Proof.
  unfold get_all_types. run_handler.
  by destruct (supabase (select MEDICINES_TABLE "Type")).
Qed.

Lemma make_suggestions_valid found field :
  field ∈ valid_fields ->
  make_suggestions found field
  = inr (map (fun v => {| value_ := v; field_type := field |}) found).
Proof.
  intros Hv. induction found as [|v rest IH]; [reflexivity|].
  cbn [make_suggestions map]. unfold make_suggestion.
  rewrite (bool_decide_eq_true_2 _ Hv). by rewrite IH.
Qed.

(** The handler on a valid field: status 200 with the suggestions that the
    cached function returns. *)
Lemma get_suggestions_valid field query w found w' :
  field ∈ valid_fields ->
  get_cached_suggestions supabase field query w = (inr found, w') ->
  fst (endpoint (get_suggestions supabase field query) w)
  = {| status := 200;
       payload :=
         inl {| suggestions :=
                  map (fun v => {| value_ := v; field_type := field |}) found |} |}.
Proof.
  intros Hv Hc. unfold endpoint, get_suggestions, try_except.
  rewrite (bool_decide_eq_true_2 _ Hv). cbn [negb]. unfold bind at 1.
  rewrite Hc. unfold bind at 1.
  destruct (String.eqb field "Type").
  - rewrite get_all_types_run. unfold bind, lift, ret.
    by rewrite (make_suggestions_valid _ _ Hv).
  - unfold bind, lift, ret. cbn. by rewrite (make_suggestions_valid _ _ Hv).
Qed.

(** C2, refuted by the code: on a field outside Name, Formulation, Type and
    Dosage the handler raises its 400 inside its own [try] block, whose
    [except Exception] answers 500; the store is not queried and the cache
    is untouched. *)
Theorem invalid_field_answers_500 field query w :
  field ∉ valid_fields ->
  endpoint (get_suggestions supabase field query) w
  = ({| status := 500;
        payload :=
          inr "400: Invalid field. Must be one of: Name, Formulation, Type, Dosage" |},
     w).
Proof.
  intros Hv. unfold endpoint, get_suggestions, try_except.
  rewrite (bool_decide_eq_false_2 _ Hv). reflexivity.
Qed.

(** C9: on a valid field the endpoint answers 200 whatever the store does,
    and when the store raises while the suggestions are fetched (the pair
    is not cached and the query fails) the suggestions are empty. *)
Theorem store_failure_gives_empty_suggestions field query w :
  field ∈ valid_fields ->
  status (fst (endpoint (get_suggestions supabase field query) w)) = 200
  /\ (forall e,
         lru_lookup (field, query) (w_cache w) = None ->
         supabase (suggestions_query field query) = inl e ->
         fst (endpoint (get_suggestions supabase field query) w)
         = {| status := 200; payload := inl {| suggestions := [] |} |}).
Proof.
  intros Hv. split.
  - destruct (get_cached_suggestions_total field query w) as (found & w' & Hc).
    by rewrite (get_suggestions_valid _ _ _ _ _ Hv Hc).
  - intros e Hmiss Hfail.
    destruct (get_cached_suggestions_miss _ _ _ Hmiss) as (found & Hc & Hempty).
    rewrite (get_suggestions_valid _ _ _ _ _ Hv Hc).
    by rewrite (Hempty e Hfail).
Qed.

End SuggestionFacts.

Section DetailsClaim.
Context `{PyNumerics}.
Variable supabase : store.

(** C1, refuted by the code: when the store returns no row for the name,
    the handler raises its 404 inside its own [try] block, whose [except
    Exception] re-raises it as a 500. *)
Theorem missing_medicine_answers_500 name w :
  supabase (limit 1 (eq_ "Name" name (select MEDICINES_TABLE "*"))) = inr [] ->
  fst (endpoint (get_medicine_details supabase name) w)
  = {| status := 500; payload := inr "404: Medicine not found" |}.
Proof.
  intros Hnone. unfold get_medicine_details. run_handler. by rewrite Hnone.
Qed.

End DetailsClaim.

(** ** The suggestion cache *)

Section CacheFacts.

Lemma lru_lookup_take_full k v n (c : lru) :
  lru_lookup k (take n c) = Some v -> lru_lookup k c = Some v.
Proof.
  revert n. induction c as [|[k0 v0] c IH]; intros [|n]; cbn; try discriminate.
  destruct (decide (k = k0)); [done|]. apply IH.
Qed.

Lemma lru_lookup_take_mono k v n m (c : lru) :
  n <= m -> lru_lookup k (take n c) = Some v -> lru_lookup k (take m c) = Some v.
Proof.
  revert n m. induction c as [|[k0 v0] c IH]; intros [|n] [|m] Hle; cbn;
    try discriminate; try lia.
  destruct (decide (k = k0)); [done|]. apply IH. lia.
Qed.

(** Removing another key does not push an entry back. *)
Lemma lru_lookup_take_remove k k' v n (c : lru) :
  k <> k' ->
  lru_lookup k (take n c) = Some v ->
  lru_lookup k (take n (lru_remove k' c)) = Some v.
Proof.
  intros Hne. revert n. induction c as [|[k0 v0] c IH]; intros [|n]; cbn;
    try discriminate.
  destruct (decide (k = k0)) as [->|Hk].
  - intros [= ->]. destruct (decide (k' = k0)) as [->|_]; [done|].
    cbn. by rewrite decide_True.
  - intros Hin. destruct (decide (k' = k0)) as [->|_].
    + apply (lru_lookup_take_mono _ _ n); [lia|]. by apply IH.
    + cbn. rewrite decide_False by done. by apply IH.
Qed.

Lemma lru_store_front k v n (c : lru) :
  S n <= maxsize ->
  take (S n) (lru_store k v c) = (k, v) :: take n c.
Proof.
  intros Hn. unfold lru_store. rewrite take_take.
  by rewrite Nat.min_l by done.
Qed.

(** One call, whatever its arguments and whatever the store answers, moves
    a cached entry back by at most one place. *)
Lemma call_keeps_entry (s : store) k' k v n w :
  S n <= maxsize ->
  lru_lookup k (take n (w_cache w)) = Some v ->
  lru_lookup k
    (take (S n) (w_cache (snd (get_cached_suggestions s (fst k') (snd k') w))))
  = Some v.
Proof.
  intros Hn Hin. destruct k' as [f q]. cbn [fst snd].
  destruct (lru_lookup (f, q) (w_cache w)) as [found|] eqn:E.
  - rewrite (get_cached_suggestions_hit _ _ _ _ _ E). cbn [snd w_cache].
    unfold lru_hit. cbn [take].
    destruct (decide (k = (f, q))) as [->|Hne].
    + apply lru_lookup_take_full in Hin. rewrite E in Hin.
      injection Hin as ->. cbn. by rewrite decide_True.
    + cbn. rewrite decide_False by done. by apply lru_lookup_take_remove.
  - destruct (get_cached_suggestions_miss s _ _ _ E) as (found & -> & _).
    cbn [snd w_cache]. rewrite lru_store_front by done.
    destruct (decide (k = (f, q))) as [->|Hne].
    + apply lru_lookup_take_full in Hin. congruence.
    + cbn. by rewrite decide_False by done.
Qed.

Lemma run_calls_keeps_entry calls k v n w :
  n + length calls <= maxsize ->
  lru_lookup k (take n (w_cache w)) = Some v ->
  lru_lookup k (take (n + length calls) (w_cache (run_calls calls w))) = Some v.
Proof.
  revert n w. induction calls as [|[s k'] calls IH]; intros n w Hn Hin.
  - cbn. by rewrite Nat.add_0_r.
  - cbn [run_calls length] in *.
    replace (n + S (length calls)) with (S n + length calls) by lia.
    apply IH; [lia|]. apply call_keeps_entry; [lia|done].
Qed.

(** C10: a failure of the store while the suggestions of a pair are
    fetched is cached as the empty list: the failing call returns the
    empty list and stores it, any call that finds the entry returns the
    empty list without a query, and the entry is still found after fewer
    than [maxsize] further calls of any kind, against any store. *)
Theorem failure_is_memoized
    (failing recovered : store) field query e w (calls : list (store * cache_key)) :
  lru_lookup (field, query) (w_cache w) = None ->
  failing (suggestions_query field query) = inl e ->
  length calls < maxsize ->
  let w1 := snd (get_cached_suggestions failing field query w) in
  let w2 := run_calls calls w1 in
  fst (get_cached_suggestions failing field query w) = inr []
  /\ lru_lookup (field, query) (w_cache w1) = Some []
  /\ lru_lookup (field, query) (w_cache w2) = Some []
  /\ get_cached_suggestions recovered field query w2
     = (inr [],
        {| w_cache := lru_hit (field, query) [] (w_cache w2); w_log := w_log w2 |}).
Proof.
  intros Hmiss Hfail Hcalls w1 w2.
  destruct (get_cached_suggestions_miss failing _ _ _ Hmiss) as (found & Hrun & Hempty).
  rewrite (Hempty e Hfail) in Hrun.
  assert (lru_lookup (field, query) (take 1 (w_cache w1)) = Some []) as Hfront.
  { subst w1. rewrite Hrun. cbn [snd w_cache].
    rewrite lru_store_front by (unfold maxsize; lia).
    cbn. by rewrite decide_True. }
  assert (lru_lookup (field, query) (w_cache w2) = Some []) as Hkept.
  { subst w2. eapply lru_lookup_take_full.
    apply (run_calls_keeps_entry calls _ _ 1); [lia|exact Hfront]. }
  split; [by rewrite Hrun|].
  split; [by eapply lru_lookup_take_full|].
  split; [exact Hkept|].
  by apply get_cached_suggestions_hit.
Qed.

End CacheFacts.

(** ** Search *)

Section SearchFacts.
Context `{PyNumerics}.
Variable supabase : store.

Lemma create_all_length rows meds :
  create_all rows = inr meds -> length meds = length rows.
Proof.
  revert meds. induction rows as [|m rows IH]; intros meds; cbn [create_all].
  - by intros [= <-].
  - destruct (fst (create_medicine_from_db m)); [discriminate|].
    destruct (create_all rows) as [|rest]; [discriminate|].
    intros [= <-]. cbn. f_equal. by apply IH.
Qed.

Lemma search_query_limit req sort_order :
  is_type_or_dosage_search req = true ->
  q_limit (search_query req sort_order) = Some MAX_RESULTS.
Proof. intros Hb. unfold search_query. by rewrite Hb. Qed.

(** What the client receives, by cases on the answer of the store and on
    the processing of its rows. *)
Lemma search_medicines_run req sort_order w :
  fst (endpoint (search_medicines supabase req sort_order) w)
  = match supabase (search_query req sort_order) with
    | inl e =>
        {| status := 500;
           payload :=
             inr ("An unexpected error occurred: "
                  +:+ exn_str (HTTPException 500
                                 ("Error processing search: " +:+ exn_str e))) |}
    | inr medicines =>
        match process_results req medicines with
        | inl e =>
            {| status := 500;
               payload :=
                 inr ("An unexpected error occurred: "
                      +:+ exn_str (HTTPException 500
                                     ("Error processing search: " +:+ exn_str e))) |}
        | inr response => {| status := 200; payload := inl response |}
        end
    end.
Proof.
  unfold endpoint, search_medicines, try_except at 1. unfold bind at 1.
  rewrite get_all_types_run. unfold try_except, bind, execute, lift, raise, ret.
  destruct (supabase (search_query req sort_order)) as [e|medicines];
    [reflexivity|].
  by destruct (process_results req medicines).
Qed.

(** C4: in browse mode (type or dosage set, neither name nor formulation)
    against a store that honours the row limit, the endpoint answers
    either an error 500 or a search response without exact match and with
    at most [MAX_RESULTS] = 15 similar formulations. *)
Theorem browse_mode_capped req sort_order w :
  respects_limit supabase ->
  is_set (req_type req) || is_set (req_dosage req) = true ->
  is_set (req_name req) = false ->
  is_set (req_formulation req) = false ->
  let r := fst (endpoint (search_medicines supabase req sort_order) w) in
  (status r = 500 /\ exists d, payload r = inr d)
  \/ (status r = 200
      /\ exists resp,
        payload r = inl resp
        /\ exact_match resp = None
        /\ length (similar_formulations resp) <= 15
        /\ Uses resp = None /\ Side_Effects resp = None).
Proof.
  intros Hlimit Htd Hn Hf r.
  assert (is_type_or_dosage_search req = true) as Hbrowse.
  { unfold is_type_or_dosage_search. by rewrite Htd, Hn, Hf. }
  subst r. rewrite search_medicines_run.
  destruct (supabase (search_query req sort_order)) as [e|medicines] eqn:Es.
  - left. cbn. eauto.
  - destruct medicines as [|m rows].
    + right. cbn. split; [done|]. eexists. repeat split. cbn. lia.
    + unfold process_results. rewrite Hbrowse.
      destruct (create_all (m :: rows)) as [e|meds] eqn:Ec.
      * left. cbn. eauto.
      * right. cbn. split; [done|]. eexists. repeat split. cbn.
        rewrite (create_all_length _ _ Ec).
        apply (Hlimit _ _ _ (search_query_limit req sort_order Hbrowse) Es).
Qed.

End SearchFacts.

(** ** Lookup mode *)

Section PriceColumnFacts.
Context `{PyNumerics}.

Lemma lookup_without_prices (data : row) col :
  without_prices data !! col
  = if bool_decide (col ∈ ["Cost of branded"; "Cost of generic";
                           "Cost difference"; "Savings"])
    then None else data !! col.
Proof.
  unfold without_prices.
  destruct (decide (col = "Cost of branded")) as [->|?];
    [by rewrite lookup_delete_eq|rewrite lookup_delete_ne by done].
  destruct (decide (col = "Cost of generic")) as [->|?];
    [by rewrite lookup_delete_eq|rewrite lookup_delete_ne by done].
  destruct (decide (col = "Cost difference")) as [->|?];
    [by rewrite lookup_delete_eq|rewrite lookup_delete_ne by done].
  destruct (decide (col = "Savings")) as [->|?];
    [by rewrite lookup_delete_eq|rewrite lookup_delete_ne by done].
  rewrite bool_decide_eq_false_2; [reflexivity|].
  intros Hin. repeat (apply elem_of_cons in Hin as [->|Hin]; [done|]).
  by apply elem_of_nil in Hin.
Qed.

Lemma without_prices_insert (data : row) col v :
  col ∈ ["Cost of branded"; "Cost of generic"; "Cost difference"; "Savings"] ->
  without_prices (<[col := v]> data) = without_prices data.
Proof.
  intros Hcol. apply map_eq. intros k. rewrite !lookup_without_prices.
  case_bool_decide as Hk; [reflexivity|].
  rewrite lookup_insert_ne; [reflexivity|]. by intros ->.
Qed.

Lemma without_prices_decimalize col data data' :
  col ∈ ["Cost of branded"; "Cost of generic"; "Cost difference"; "Savings"] ->
  decimalize col data = inr data' ->
  without_prices data' = without_prices data.
Proof.
  intros Hcol. unfold decimalize.
  destruct (data !! col) as [v|]; [|by intros [= <-]].
  destruct (to_decimal v); [discriminate|]. intros [= <-].
  by apply without_prices_insert.
Qed.

Lemma without_prices_fill_derived data :
  without_prices (fill_derived data) = without_prices data.
Proof.
  unfold fill_derived, fill_savings, fill_cost_difference.
  repeat match goal with
         | |- context [if ?b then _ else _] => destruct b
         | |- context [match ?x with _ => _ end] => destruct x
         end;
    rewrite ?without_prices_insert by set_solver; reflexivity.
Qed.

Lemma not_elem_of_price_columns (col : string) :
  col <> "Cost of branded" -> col <> "Cost of generic" ->
  col <> "Cost difference" -> col <> "Savings" ->
  col ∉ ["Cost of branded"; "Cost of generic"; "Cost difference"; "Savings"].
Proof.
  intros ? ? ? ? Hin.
  repeat (apply elem_of_cons in Hin as [->|Hin]; [done|]).
  by apply elem_of_nil in Hin.
Qed.

(** The mapper leaves the columns other than the price columns as they
    are. *)
Lemma create_without_prices data :
  without_prices (snd (create_medicine_from_db data)) = without_prices data.
Proof.
  unfold create_medicine_from_db.
  destruct (decimalize "Cost of branded" data) as [e|data1] eqn:E1;
    [reflexivity|].
  apply without_prices_decimalize in E1; [|set_solver].
  destruct (decimalize "Cost of generic" data1) as [e|data2] eqn:E2;
    [by cbn|].
  apply without_prices_decimalize in E2; [|set_solver].
  cbn [snd]. by rewrite without_prices_fill_derived, E2.
Qed.

Lemma create_keeps_column data col :
  col ∉ ["Cost of branded"; "Cost of generic"; "Cost difference"; "Savings"] ->
  snd (create_medicine_from_db data) !! col = data !! col.
Proof.
  intros Hcol.
  pose proof (f_equal (fun d : row => d !! col) (create_without_prices data)) as Heq.
  cbv beta in Heq. rewrite !lookup_without_prices in Heq.
  by rewrite bool_decide_eq_false_2 in Heq.
Qed.

(** The medicine that the mapper returns is the validation of the row
    that it leaves. *)
Lemma create_ok_validates data med :
  fst (create_medicine_from_db data) = inr med ->
  model_validate (snd (create_medicine_from_db data)) = inr med.
Proof.
  unfold create_medicine_from_db.
  destruct (decimalize "Cost of branded" data) as [e|data1]; [discriminate|].
  destruct (decimalize "Cost of generic" data1) as [e|data2]; [discriminate|].
  by cbn.
Qed.

End PriceColumnFacts.

Section LookupFacts.
Context `{PyNumerics}.

(** A row that validates holds, in a column that is the alias of a text
    field, the text of the medicine or nothing. *)
Lemma required_str_column (data : row) alias field s :
  required_str data alias field = Some s ->
  data !! alias = None \/ data !! alias = Some (VStr s).
Proof.
  unfold required_str, field_input, and_then, coerce_str.
  destruct (data !! alias) as [[]|]; try discriminate; [|by left].
  intros [= ->]. by right.
Qed.

(** What the response takes from the exact match: the text of the column
    in the row, which is the text of the medicine when the row holds the
    column. *)
Lemma response_text e med :
  fst (create_medicine_from_db e) = inr med ->
  (forall loc,
      optional_text loc (snd (create_medicine_from_db e) !! "Uses")
      = inr (cell_text e "Uses"))
  /\ (forall loc,
         optional_text loc (snd (create_medicine_from_db e) !! "Side Effects")
         = inr (cell_text e "Side Effects"))
  /\ (is_text e "Uses" = true -> cell_text e "Uses" = Some (uses med))
  /\ (is_text e "Side Effects" = true ->
      cell_text e "Side Effects" = Some (side_effects med)).
Proof.
  intros Hm. apply create_ok_validates in Hm.
  apply model_validate_inr in Hm as (_ & _ & Hu & Hs & _).
  apply required_str_column in Hu, Hs.
  rewrite create_keeps_column in Hu, Hs |- * by (by apply not_elem_of_price_columns).
  rewrite create_keeps_column by (by apply not_elem_of_price_columns).
  unfold cell_text, is_text.
  destruct Hu as [-> | ->], Hs as [-> | ->]; by repeat split.
Qed.

Lemma cell_is_text col text (m : row) :
  is_text m col = true -> cell_is col text m = inr (text_is col text m).
Proof.
  unfold is_text, cell_is, text_is.
  by destruct (m !! col) as [[]|].
Qed.

Lemma exact_matches_none col text k rows :
  Forall (fun m => is_text m col = true) rows ->
  Forall (fun m => text_is col text m = false) rows ->
  exact_matches col text k rows = inr [].
Proof.
  intros Ht Hn. revert k.
  induction rows as [|m rows IH]; intros k; [reflexivity|].
  apply Forall_cons in Ht as [Hm Ht]. apply Forall_cons in Hn as [Hf Hn].
  cbn [exact_matches]. rewrite (cell_is_text _ _ _ Hm), Hf.
  by rewrite (IH Ht Hn).
Qed.

Lemma exact_matches_total col text k rows :
  Forall (fun m => is_text m col = true) rows ->
  exists found, exact_matches col text k rows = inr found.
Proof.
  intros Ht. revert k.
  induction rows as [|m rows IH]; intros k; [by eexists|].
  apply Forall_cons in Ht as [Hm Ht].
  cbn [exact_matches]. rewrite (cell_is_text _ _ _ Hm).
  destruct (IH Ht (S k)) as [found ->]. by eexists.
Qed.

(** The first element of the list of matches is the first matching row. *)
Lemma exact_matches_first col text k rows i e :
  Forall (fun m => is_text m col = true) rows ->
  rows !! i = Some e ->
  text_is col text e = true ->
  (forall j m, j < i -> rows !! j = Some m -> text_is col text m = false) ->
  exists rest, exact_matches col text k rows = inr ((k + i, e) :: rest).
Proof.
  intros Ht. revert k i.
  induction rows as [|m rows IH]; intros k i Hi He Hbefore; [discriminate|].
  apply Forall_cons in Ht as [Hm Ht].
  cbn [exact_matches]. rewrite (cell_is_text _ _ _ Hm).
  destruct i as [|i].
  - injection Hi as ->. rewrite He.
    destruct (exact_matches_total col text (S k) rows Ht) as [found ->].
    rewrite Nat.add_0_r. by eexists.
  - rewrite (Hbefore 0 m) by (done || lia).
    destruct (IH Ht (S k) i Hi He) as [rest ->].
    + intros j m' Hj Hm'. apply (Hbefore (S j) m'); [lia|done].
    + replace (S k + i) with (k + S i) by lia. by eexists.
Qed.

(** The comparison with the converted exact match drops the exact match
    itself, whatever else it drops. *)
Lemma filter_insert_self (rows : list row) i updated :
  i < length rows ->
  List.filter (fun m => negb (dict_eqb m updated)) (<[i := updated]> rows)
  = List.filter (fun m => negb (dict_eqb m updated)) (delete i rows).
Proof.
  revert i. induction rows as [|m rows IH]; intros i Hi; [cbn in Hi; lia|].
  destruct i as [|i].
  - cbn. by rewrite dict_eqb_refl.
  - cbn. rewrite IH by (cbn in Hi; lia). reflexivity.
Qed.

Lemma lookup_key_column req col text :
  lookup_key req = Some (col, text) -> col = "Name" \/ col = "Formulation".
Proof.
  unfold lookup_key.
  destruct (set_text (req_name req)); [intros [= <- _]; by left|].
  destruct (set_text (req_formulation req)); [intros [= <- _]; by right|].
  discriminate.
Qed.

Lemma lookup_key_find req col text medicines :
  lookup_key req = Some (col, text) ->
  find_exact_match req medicines = first_match col text medicines.
Proof.
  unfold lookup_key, find_exact_match.
  destruct (set_text (req_name req)); [by intros [= <- <-]|].
  destruct (set_text (req_formulation req)); [by intros [= <- <-]|].
  discriminate.
Qed.

Lemma set_text_is_set v s : set_text v = Some s -> is_set v = true.
Proof.
  unfold set_text, is_set. destruct v as [t|]; [|discriminate].
  by destruct (Text.nonempty t).
Qed.

Lemma lookup_key_mode req col text :
  lookup_key req = Some (col, text) -> is_type_or_dosage_search req = false.
Proof.
  unfold lookup_key, is_type_or_dosage_search.
  destruct (set_text (req_name req)) eqn:En.
  - intros _. rewrite (set_text_is_set _ _ En). cbn. apply andb_false_r.
  - destruct (set_text (req_formulation req)) eqn:Ef; [|discriminate].
    intros _. rewrite (set_text_is_set _ _ Ef). rewrite orb_true_r. cbn.
    apply andb_false_r.
Qed.

End LookupFacts.

Section LookupClaim.
Context `{PyNumerics}.
Variable supabase : store.

(** C3, as amended: in lookup mode the rows are compared on the name when
    the request has a name and on the formulation otherwise.  The first
    row equal to the request text up to case becomes the exact match.
    The similar formulations are, in the order of the store, the
    medicines of the other rows, except those that are equal as dicts to
    the exact-match row as the mapper has rewritten it, which are left
    out with it; a row that differs from the exact match in a column
    other than the four price columns is never left out.  The uses and
    side effects of the response are the text of the columns [Uses] and
    [Side Effects] of the exact-match row.  When no row is equal, all
    rows are similar formulations and the exact match, uses and side
    effects are absent. *)
Theorem lookup_mode_split req sort_order w medicines col text :
  lookup_key req = Some (col, text) ->
  supabase (search_query req sort_order) = inr medicines ->
  Forall (fun m => is_text m col = true) medicines ->
  (forall i e med others,
      medicines !! i = Some e ->
      text_is col text e = true ->
      (forall j m, j < i -> medicines !! j = Some m -> text_is col text m = false) ->
      fst (create_medicine_from_db e) = inr med ->
      create_all
        (List.filter
           (fun m => negb (dict_eqb m (snd (create_medicine_from_db e))))
           (delete i medicines))
      = inr others ->
      fst (endpoint (search_medicines supabase req sort_order) w)
      = {| status := 200;
           payload :=
             inl {| exact_match := Some med;
                    similar_formulations := others;
                    Uses := cell_text e "Uses";
                    Side_Effects := cell_text e "Side Effects" |} |}
      /\ (is_text e "Uses" = true -> cell_text e "Uses" = Some (uses med))
      /\ (is_text e "Side Effects" = true ->
          cell_text e "Side Effects" = Some (side_effects med)))
  /\ (forall others,
         Forall (fun m => text_is col text m = false) medicines ->
         create_all medicines = inr others ->
         fst (endpoint (search_medicines supabase req sort_order) w)
         = {| status := 200;
              payload :=
                inl {| exact_match := None;
                       similar_formulations := others;
                       Uses := None;
                       Side_Effects := None |} |})
  /\ (forall i e m,
         m ∈ delete i medicines ->
         differ_outside_prices m e = true ->
         m ∈ List.filter
               (fun m => negb (dict_eqb m (snd (create_medicine_from_db e))))
               (delete i medicines)).
Proof.
  intros Hkey Hstore Htext.
  split; [|split].
  - intros i e med others Hi He Hbefore Hmed Hothers.
    destruct (response_text e med Hmed) as (Huses & Hside & Hu & Hs).
    split; [|by split].
    rewrite search_medicines_run, Hstore.
    assert (process_results req medicines
            = inr {| exact_match := Some med;
                     similar_formulations := others;
                     Uses := cell_text e "Uses";
                     Side_Effects := cell_text e "Side Effects" |}) as ->; [|done].
    unfold process_results.
    destruct medicines as [|m0 rows] eqn:Erows; [discriminate|]. rewrite <- Erows in *.
    rewrite (lookup_key_mode _ _ _ Hkey), (lookup_key_find _ _ _ _ Hkey).
    unfold first_match.
    destruct (exact_matches_first col text 0 medicines i e Htext Hi He Hbefore)
      as [rest ->].
    cbn [head Nat.add]. unfold convert_results.
    assert (e <> ∅) as Hne.
    { intros ->. unfold text_is in He. by rewrite lookup_empty in He. }
    rewrite (bool_decide_eq_false_2 _ Hne).
    destruct (create_medicine_from_db e) as [outcome updated] eqn:Ec.
    cbn [fst snd] in *. subst outcome.
    rewrite filter_insert_self by (by eapply lookup_lt_Some).
    rewrite Hothers. cbn [safe_get]. by rewrite Huses, Hside.
  - intros others Hnone Hothers.
    rewrite search_medicines_run, Hstore.
    assert (process_results req medicines
            = inr {| exact_match := None;
                     similar_formulations := others;
                     Uses := None; Side_Effects := None |}) as ->; [|done].
    unfold process_results.
    destruct medicines as [|m0 rows] eqn:Erows.
    { cbn in Hothers. by injection Hothers as <-. }
    rewrite <- Erows in *.
    rewrite (lookup_key_mode _ _ _ Hkey), (lookup_key_find _ _ _ _ Hkey).
    unfold first_match.
    rewrite (exact_matches_none col text 0 medicines Htext Hnone).
    cbn [head]. unfold convert_results. by rewrite Hothers.
  - intros i e m Hin Hdiffer.
    apply list_elem_of_In, filter_In. split; [by apply list_elem_of_In|].
    apply negb_true_iff.
    by apply (differ_outside_prices_ne m e _ (create_without_prices e)).
Qed.

End LookupClaim.

(** ** Request validation *)

(** C8, refuted by the code: the validators run only on the fields that
    the body supplies, and each sees only the fields before it.  A body
    without any field, or with a blank name alone, is accepted; a body
    whose name and formulation are empty is rejected on the formulation,
    whatever its type and dosage. *)
Theorem request_validation_misses :
  validate_request
    {| raw_name := Absent; raw_formulation := Absent;
       raw_type := Absent; raw_dosage := Absent |}
  = inr (Examples.request None None None None)
  /\ (forall n,
         validate_request
           {| raw_name := n; raw_formulation := Absent;
              raw_type := Absent; raw_dosage := Absent |}
         = inr (Examples.request
                  (match n with Absent => None | Given v => validate_string_fields v end)
                  None None None))
  /\ validate_request
       {| raw_name := Given (Some "   "); raw_formulation := Absent;
          raw_type := Absent; raw_dosage := Absent |}
     = inr (Examples.request None None None None)
  /\ validate_request
       {| raw_name := Given (Some EmptyString);
          raw_formulation := Given (Some EmptyString);
          raw_type := Given (Some "Antibiotic"); raw_dosage := Given (Some "5mg") |}
     = inl (ValidationError ["formulation"])
  /\ (forall t d,
         exists locs,
           validate_request
             {| raw_name := Given (Some EmptyString);
                raw_formulation := Given (Some EmptyString);
                raw_type := t; raw_dosage := d |}
           = inl (ValidationError ("formulation" :: locs))).
Proof.
  split; [reflexivity|]. split; [by intros [|v]|]. split; [reflexivity|].
  split; [reflexivity|].
  intros t d. unfold validate_request. cbn.
  destruct (search_field t [("name", None)]);
    destruct (search_field d _); by eexists.
Qed.

(** ** The properties on examples *)

Lemma missing_medicine_answers_500_witness :
  fst (endpoint
         (@get_medicine_details ExactNumerics.numerics
            (Examples.constant_store []) "UNKNOWN")
         Examples.fresh)
  = {| status := 500; payload := inr "404: Medicine not found" |}.
Proof.
  apply (@missing_medicine_answers_500 ExactNumerics.numerics
           (Examples.constant_store []) "UNKNOWN" Examples.fresh).
  reflexivity.
Defined.

Lemma invalid_field_answers_500_witness :
  endpoint (get_suggestions Examples.failing_store "name" (Some "gl")) Examples.fresh
  = ({| status := 500;
        payload :=
          inr "400: Invalid field. Must be one of: Name, Formulation, Type, Dosage" |},
     Examples.fresh).
Proof.
  apply (invalid_field_answers_500 Examples.failing_store "name" (Some "gl")
           Examples.fresh).
  apply (bool_decide_eq_false_1 ("name" ∈ valid_fields)). reflexivity.
Defined.

Lemma store_failure_gives_empty_suggestions_witness :
  status (fst (endpoint (get_suggestions Examples.failing_store "Name" (Some "gl"))
                 Examples.fresh)) = 200
  /\ fst (endpoint (get_suggestions Examples.failing_store "Name" (Some "gl"))
            Examples.fresh)
     = {| status := 200; payload := inl {| suggestions := [] |} |}.
Proof.
  assert ("Name" ∈ valid_fields) as Hv
    by (apply (bool_decide_eq_true_1 ("Name" ∈ valid_fields)); reflexivity).
  destruct (store_failure_gives_empty_suggestions Examples.failing_store
              "Name" (Some "gl") Examples.fresh Hv) as [Hstatus Hempty].
  split; [exact Hstatus|].
  apply (Hempty (SupabaseConnectionError "connection refused")); reflexivity.
Defined.

Lemma failure_is_memoized_witness :
  let w1 :=
    snd (get_cached_suggestions Examples.failing_store "Name" (Some "gl")
           Examples.fresh) in
  let w2 :=
    run_calls [(Examples.constant_store [Examples.glimepride], ("Type", None))] w1 in
  fst (get_cached_suggestions Examples.failing_store "Name" (Some "gl")
         Examples.fresh) = inr []
  /\ lru_lookup ("Name", Some "gl") (w_cache w1) = Some []
  /\ lru_lookup ("Name", Some "gl") (w_cache w2) = Some []
  /\ get_cached_suggestions (Examples.constant_store [Examples.glimepride])
       "Name" (Some "gl") w2
     = (inr [],
        {| w_cache := lru_hit ("Name", Some "gl") [] (w_cache w2);
           w_log := w_log w2 |}).
Proof.
  apply (failure_is_memoized Examples.failing_store
           (Examples.constant_store [Examples.glimepride])
           "Name" (Some "gl") (SupabaseConnectionError "connection refused")
           Examples.fresh
           [(Examples.constant_store [Examples.glimepride], ("Type", None))]).
  - reflexivity.
  - reflexivity.
  - unfold maxsize. cbn. lia.
Defined.

Lemma browse_mode_capped_witness :
  let r :=
    fst (endpoint
           (@search_medicines ExactNumerics.numerics
              (Examples.limited_store [Examples.glimepride; Examples.amaryl])
              Examples.by_type None)
           Examples.fresh) in
  (status r = 500 /\ exists d, payload r = inr d)
  \/ (status r = 200
      /\ exists resp,
        payload r = inl resp
        /\ exact_match resp = None
        /\ length (similar_formulations resp) <= 15
        /\ Uses resp = None /\ Side_Effects resp = None).
Proof.
  apply (@browse_mode_capped ExactNumerics.numerics
           (Examples.limited_store [Examples.glimepride; Examples.amaryl])
           Examples.by_type None Examples.fresh).
  - intros q n rows Hq Hrows. unfold Examples.limited_store in Hrows.
    rewrite Hq in Hrows. injection Hrows as <-. rewrite length_take. lia.
  - reflexivity.
  - reflexivity.
  - reflexivity.
Defined.

Lemma lookup_mode_split_witness :
  fst (endpoint
         (@search_medicines ExactNumerics.numerics
            (Examples.constant_store
               [Examples.stored_glimepride; Examples.stored_glimepride;
                Examples.amaryl])
            Examples.by_name None)
         Examples.fresh)
  = {| status := 200;
       payload :=
         inl {| exact_match := Some Examples.glimepride_medicine;
                similar_formulations := [Examples.amaryl_medicine];
                Uses := Some "Diabetes";
                Side_Effects := Some "Nausea" |} |}
  /\ fst (endpoint
            (@search_medicines ExactNumerics.numerics
               (Examples.constant_store [Examples.amaryl])
               Examples.by_name None)
            Examples.fresh)
     = {| status := 200;
          payload :=
            inl {| exact_match := None;
                   similar_formulations := [Examples.amaryl_medicine];
                   Uses := None;
                   Side_Effects := None |} |}.
Proof.
  split.
  - refine (proj1
              (proj1 (@lookup_mode_split ExactNumerics.numerics
                        (Examples.constant_store
                           [Examples.stored_glimepride; Examples.stored_glimepride;
                            Examples.amaryl])
                        Examples.by_name None Examples.fresh
                        [Examples.stored_glimepride; Examples.stored_glimepride;
                         Examples.amaryl]
                        "Name" "Tab Glimepride" eq_refl eq_refl _)
                 0 Examples.stored_glimepride Examples.glimepride_medicine
                 [Examples.amaryl_medicine] _ _ _ _ _)).
    + repeat constructor.
    + reflexivity.
    + reflexivity.
    + intros j m Hj. lia.
    + vm_compute. reflexivity.
    + vm_compute. reflexivity.
  - apply (proj1 (proj2 (@lookup_mode_split ExactNumerics.numerics
                             (Examples.constant_store [Examples.amaryl])
                             Examples.by_name None Examples.fresh
                             [Examples.amaryl]
                             "Name" "Tab Glimepride" eq_refl eq_refl
                             ltac:(repeat constructor)))
             [Examples.amaryl_medicine]).
    + repeat constructor.
    + vm_compute. reflexivity.
Defined.

(** C3 as stated fails three times.  With a name and a formulation in the
    request, a row whose formulation equals the request's is not taken as
    the exact match, because only names are compared.  With the same row
    returned twice, the second copy is not among the similar formulations,
    because the rows are told apart by comparing their contents.  With an
    exact match that holds its uses under the key [uses], the medicine
    has the uses and the response has none, because the response reads
    the column [Uses]. *)
Lemma lookup_claim_fails :
  (Spec.exact_index Examples.by_name_and_formulation [Examples.glimepride] = Some 0
   /\ exists resp,
       payload
         (fst (endpoint
                 (@search_medicines ExactNumerics.numerics
                    (Examples.constant_store [Examples.glimepride])
                    Examples.by_name_and_formulation None)
                 Examples.fresh))
       = inl resp
       /\ exact_match resp = None)
  /\ (Spec.exact_index Examples.by_name
        [Examples.stored_glimepride; Examples.stored_glimepride] = Some 0
      /\ length (Spec.others [Examples.stored_glimepride; Examples.stored_glimepride]
                   (Some 0)) = 1
      /\ exists resp,
          payload
            (fst (endpoint
                    (@search_medicines ExactNumerics.numerics
                       (Examples.constant_store
                          [Examples.stored_glimepride; Examples.stored_glimepride])
                       Examples.by_name None)
                    Examples.fresh))
          = inl resp
          /\ exact_match resp = Some Examples.glimepride_medicine
          /\ similar_formulations resp = [])
  /\ (Spec.exact_index Examples.by_name [Examples.uses_by_field_name] = Some 0
      /\ exists resp,
          payload
            (fst (endpoint
                    (@search_medicines ExactNumerics.numerics
                       (Examples.constant_store [Examples.uses_by_field_name])
                       Examples.by_name None)
                    Examples.fresh))
          = inl resp
          /\ exact_match resp = Some Examples.glimepride_medicine
          /\ uses Examples.glimepride_medicine = "Diabetes"
          /\ Uses resp = None).
Proof.
  split; [|split].
  - split; [reflexivity|]. eexists. split; [vm_compute; reflexivity|reflexivity].
  - split; [reflexivity|]. split; [reflexivity|].
    eexists. split; [vm_compute; reflexivity|]. split; reflexivity.
  - split; [reflexivity|].
    eexists. split; [vm_compute; reflexivity|]. by repeat split.
Qed.

(** * Further properties of the code *)

(** ** models/schemas.py and create_medicine_from_db *)

Section MapperProperties.
Context `{PyNumerics}.

Lemma to_decimal_inr v d : to_decimal v = inr d -> coerce_decimal v = Some d.
Proof.
  destruct v; cbn; try discriminate; try congruence.
  destruct (decimal_of_str s); congruence.
Qed.

Lemma branded_validated data b v :
  cost_of data "Cost of branded" = Some b ->
  field_cost_of_branded data = Some v ->
  v = b /\ Decimal.ltb b Decimal.zero = false.
Proof.
  intros Hb. rewrite (field_cost_of_branded_eq _ _ Hb).
  destruct (Decimal.ltb b Decimal.zero); [discriminate|]. by intros [= <-].
Qed.

Lemma generic_validated data b g v :
  cost_of data "Cost of branded" = Some b ->
  cost_of data "Cost of generic" = Some g ->
  field_cost_of_branded data = Some b ->
  field_cost_of_generic data (values_after_branded data) = Some v ->
  v = g /\ Decimal.ltb g Decimal.zero = false /\ Decimal.ltb b g = false.
Proof.
  intros Hb Hg Fb. rewrite (field_cost_of_generic_eq _ _ _ Hg).
  unfold values_after_branded. cbn [v_cost_of_branded]. rewrite Fb.
  destruct (Decimal.ltb g Decimal.zero); [discriminate|].
  destruct (Decimal.ltb b g); [discriminate|]. by intros [= <-].
Qed.

(** What a successful validation of a row with both price cells says
    about the prices. *)
Lemma validated_prices data b g m :
  cost_of data "Cost of branded" = Some b ->
  cost_of data "Cost of generic" = Some g ->
  model_validate data = inr m ->
  cost_of_branded m = b /\ cost_of_generic m = g
  /\ Decimal.ltb b Decimal.zero = false
  /\ Decimal.ltb g Decimal.zero = false
  /\ Decimal.ltb b g = false
  /\ values_after_generic data
     = {| v_cost_of_branded := Some b; v_cost_of_generic := Some g |}.
Proof.
  intros Hb Hg Hm.
  apply model_validate_inr in Hm as (_ & _ & _ & _ & Fb & Fg & _).
  destruct (branded_validated _ _ _ Hb Fb) as [Eb Hb0]. rewrite Eb in Fb.
  destruct (generic_validated _ _ _ _ Hb Hg Fb Fg) as (Eg & Hg0 & Hbg).
  repeat split; try done.
  unfold values_after_generic. by rewrite Fg, Fb, Eg.
Qed.

Lemma field_branded_nonneg data b :
  field_cost_of_branded data = Some b -> Decimal.ltb b Decimal.zero = false.
Proof.
  unfold field_cost_of_branded, and_then, validate_prices.
  destruct (field_input data _ _) as [v|]; [|discriminate].
  destruct (coerce_decimal v) as [d|]; [|discriminate].
  destruct (Decimal.ltb d Decimal.zero) eqn:Ed; [discriminate|].
  by intros [= <-].
Qed.

Lemma field_generic_bounds data b g :
  field_cost_of_generic data {| v_cost_of_branded := Some b; v_cost_of_generic := None |}
  = Some g ->
  Decimal.ltb g Decimal.zero = false /\ Decimal.ltb b g = false.
Proof.
  unfold field_cost_of_generic, and_then, validate_prices, validate_generic_price.
  destruct (field_input data _ _) as [v|]; [|discriminate].
  destruct (coerce_decimal v) as [d|]; [|discriminate].
  destruct (Decimal.ltb d Decimal.zero) eqn:Ed; [discriminate|].
  cbn. destruct (Decimal.ltb b d) eqn:Ebd; [discriminate|].
  by intros [= <-].
Qed.

(** The cost difference of a validated field: nothing when the row
    supplies nothing, otherwise [branded - generic]. *)
Lemma field_difference_cases data b g cd :
  field_cost_difference data
    {| v_cost_of_branded := Some b; v_cost_of_generic := Some g |}
  = Some cd ->
  (cd = None \/ cd = Some (Decimal.sub b g))
  /\ (is_Some (field_input data "Cost difference" "cost_difference") ->
      cd = Some (Decimal.sub b g)).
Proof.
  unfold field_cost_difference.
  assert (forall v,
             ok (calculate_cost_difference v
                   {| v_cost_of_branded := Some b; v_cost_of_generic := Some g |})
             = Some cd -> cd = Some (Decimal.sub b g)) as Hcalc.
  { intros v. unfold calculate_cost_difference. cbn.
    destruct (Decimal.ltb (Decimal.sub b g) Decimal.zero); cbn; congruence. }
  destruct (field_input data _ _) as [x|].
  - intros Hcd.
    assert (cd = Some (Decimal.sub b g)) as ->; [|by split; [right|]].
    destruct x; try (by apply (Hcalc None));
      cbn [coerce_decimal and_then] in Hcd;
      try (by apply (Hcalc (Some _)) in Hcd).
    destruct (decimal_of_str s) as [d|]; [|discriminate].
    by apply (Hcalc (Some d)).
  - intros [= <-]. split; [by left|]. by intros [? [=]].
Qed.

(** What a successful validation says about the medicine, wherever the
    row holds the prices. *)
Lemma validated_invariant data m :
  model_validate data = inr m ->
  Decimal.ltb (cost_of_branded m) Decimal.zero = false
  /\ Decimal.ltb (cost_of_generic m) Decimal.zero = false
  /\ Decimal.ltb (cost_of_branded m) (cost_of_generic m) = false
  /\ (cost_difference m = None
      \/ cost_difference m
         = Some (Decimal.sub (cost_of_branded m) (cost_of_generic m)))
  /\ (is_Some (field_input data "Cost difference" "cost_difference") ->
      cost_difference m
      = Some (Decimal.sub (cost_of_branded m) (cost_of_generic m))).
Proof.
  intros Hm.
  apply model_validate_inr in Hm as (_ & _ & _ & _ & Fb & Fg & Fd & _).
  pose proof (field_branded_nonneg _ _ Fb) as Hb0.
  unfold values_after_generic in Fd. unfold values_after_branded in Fg, Fd.
  rewrite Fb in Fg, Fd. rewrite Fg in Fd.
  destruct (field_generic_bounds _ _ _ Fg) as [Hg0 Hbg].
  destruct (field_difference_cases _ _ _ _ Fd) as [Hcases Hsupplied].
  by repeat split.
Qed.

(** X1: every medicine that the mapper returns satisfies the price
    invariant: neither price is negative, the generic price does not
    exceed the branded one, and the cost difference is either absent or
    their difference, which is not negative.  When the row holds both
    prices in the columns [Cost of branded] and [Cost of generic], the
    prices of the medicine are those cells and the cost difference is
    present. *)
Theorem mapped_medicine_invariant data m :
  fst (create_medicine_from_db data) = inr m ->
  Decimal.ltb (cost_of_branded m) Decimal.zero = false
  /\ Decimal.ltb (cost_of_generic m) Decimal.zero = false
  /\ Decimal.ltb (cost_of_branded m) (cost_of_generic m) = false
  /\ Decimal.ltb (Decimal.sub (cost_of_branded m) (cost_of_generic m)) Decimal.zero
     = false
  /\ (cost_difference m = None
      \/ cost_difference m
         = Some (Decimal.sub (cost_of_branded m) (cost_of_generic m)))
  /\ (is_Some (data !! "Cost of branded") ->
      is_Some (data !! "Cost of generic") ->
      cost_of data "Cost of branded" = Some (cost_of_branded m)
      /\ cost_of data "Cost of generic" = Some (cost_of_generic m)
      /\ cost_difference m
         = Some (Decimal.sub (cost_of_branded m) (cost_of_generic m))).
Proof.
  intros Hm.
  destruct (validated_invariant _ _ (create_ok_validates _ _ Hm))
    as (Hb0 & Hg0 & Hbg & Hcases & _).
  rewrite DecimalFacts.sub_neg.
  do 5 (split; [done|]).
  intros [vb Evb] [vg Evg].
  assert (exists b g,
             cost_of data "Cost of branded" = Some b
             /\ cost_of data "Cost of generic" = Some g) as (b & g & Hb & Hg).
  { revert Hm. unfold create_medicine_from_db, decimalize, cost_of.
    rewrite Evb. destruct (to_decimal vb) as [|b] eqn:Tb; [discriminate|].
    rewrite lookup_insert_ne by done. rewrite Evg.
    destruct (to_decimal vg) as [|g] eqn:Tg; [discriminate|].
    intros _. exists b, g. by split; apply to_decimal_inr. }
  rewrite (create_medicine_from_db_prepared _ _ _ Hb Hg) in Hm.
  cbv zeta in Hm. cbn [fst] in Hm. set (P := fill_derived _) in Hm.
  destruct (validated_prices P b g m) as (Eb & Eg & _);
    [apply cost_of_prepared_branded | apply cost_of_prepared_generic | done |].
  rewrite Eb, Eg. do 2 (split; [done|]).
  rewrite <- Eb, <- Eg.
  apply (validated_invariant P m Hm).
  unfold field_input. subst P. rewrite prepared_difference.
  unfold missing_or_none.
  destruct (data !! "Cost difference") as [[]|]; by eexists.
Qed.






End MapperProperties.

Section MapperEffects.
Context `{PyNumerics}.

(** X3: the mapper rewrites its argument in the four price columns only:
    whatever the row holds and whether or not the mapping succeeds, every
    other column of the row is left as it was. *)
Theorem mapper_touches_price_columns_only data :
  without_prices (snd (create_medicine_from_db data)) = without_prices data.
Proof.
  unfold create_medicine_from_db.
  destruct (decimalize "Cost of branded" data) as [e|data1] eqn:E1;
    [reflexivity|].
  apply without_prices_decimalize in E1; [|set_solver].
  destruct (decimalize "Cost of generic" data1) as [e|data2] eqn:E2;
    [by cbn|].
  apply without_prices_decimalize in E2; [|set_solver].
  cbn [snd]. by rewrite without_prices_fill_derived, E2.
Qed.

Lemma decimalize_lookup_other col col' data data' :
  col <> col' -> decimalize col data = inr data' -> data' !! col' = data !! col'.
Proof.
  intros Hne. unfold decimalize.
  destruct (data !! col) as [v|]; [|by intros [= <-]].
  destruct (to_decimal v); [discriminate|]. intros [= <-].
  by rewrite lookup_insert_ne.
Qed.

(** A price cell that has been made a [Decimal], or is missing, is left
    alone by a second pass. *)
Lemma decimalize_stable col (data : row) :
  (data !! col = None \/ exists d, data !! col = Some (VDec d)) ->
  decimalize col data = inr data.
Proof.
  unfold decimalize. intros [->|[d Hd]]; [reflexivity|].
  rewrite Hd. cbn. by rewrite insert_id.
Qed.

Lemma decimalize_result col data data' :
  decimalize col data = inr data' ->
  data' !! col = None \/ exists d, data' !! col = Some (VDec d).
Proof.
  unfold decimalize. destruct (data !! col) as [v|] eqn:E.
  - destruct (to_decimal v) as [|d]; [discriminate|]. intros [= <-].
    right. exists d. by rewrite lookup_insert_eq.
  - intros [= <-]. by left.
Qed.

Lemma fill_derived_lookup_price data col :
  col = "Cost of branded" \/ col = "Cost of generic" ->
  fill_derived data !! col = data !! col.
Proof.
  intros Hcol. unfold fill_derived, fill_savings, fill_cost_difference.
  repeat match goal with
         | |- context [if ?b then _ else _] => destruct b
         | |- context [match ?x with _ => _ end] => destruct x
         end;
    destruct Hcol as [-> | ->]; by rewrite ?lookup_insert_ne by done.
Qed.

Lemma both_prices_fill_cost_difference data :
  both_prices (fill_cost_difference data) = both_prices data.
Proof.
  unfold fill_cost_difference.
  destruct (missing_or_none "Cost difference" data); [|reflexivity].
  destruct (both_prices data) as [[b g]|] eqn:E; [|by rewrite E].
  unfold both_prices in *. by rewrite !lookup_insert_ne by done.
Qed.

Lemma fill_cost_difference_stable data :
  fill_cost_difference (fill_cost_difference data) = fill_cost_difference data.
Proof.
  unfold fill_cost_difference at 2 3.
  destruct (missing_or_none "Cost difference" data) eqn:Em.
  - destruct (both_prices data) as [[b g]|] eqn:E.
    + unfold fill_cost_difference, missing_or_none.
      by rewrite lookup_insert_eq.
    + unfold fill_cost_difference. by rewrite Em, E.
  - unfold fill_cost_difference. by rewrite Em.
Qed.

Lemma fill_savings_stable data :
  fill_savings (fill_savings data) = fill_savings data.
Proof.
  unfold fill_savings at 2 3.
  destruct (missing_or_none "Savings" data) eqn:Em.
  - destruct (both_prices data) as [[b g]|] eqn:E.
    + destruct (float_pos (float_of_decimal b)) eqn:Ep.
      * unfold fill_savings, missing_or_none. by rewrite lookup_insert_eq.
      * unfold fill_savings. by rewrite Em, E, Ep.
    + unfold fill_savings. by rewrite Em, E.
  - unfold fill_savings. by rewrite Em.
Qed.

Lemma missing_difference_fill_savings data :
  missing_or_none "Cost difference" (fill_savings data)
  = missing_or_none "Cost difference" data.
Proof.
  unfold fill_savings.
  destruct (missing_or_none "Savings" data); [|reflexivity].
  destruct (both_prices data) as [[b g]|]; [|reflexivity].
  destruct (float_pos (float_of_decimal b)); [|reflexivity].
  unfold missing_or_none. by rewrite lookup_insert_ne.
Qed.

Lemma both_prices_fill_savings data :
  both_prices (fill_savings data) = both_prices data.
Proof.
  unfold fill_savings.
  destruct (missing_or_none "Savings" data); [|reflexivity].
  destruct (both_prices data) as [[b g]|] eqn:E; [|by rewrite E].
  destruct (float_pos (float_of_decimal b)); [|by rewrite E].
  unfold both_prices in *. by rewrite !lookup_insert_ne by done.
Qed.

Lemma fill_cost_difference_after_savings data :
  fill_cost_difference data = data ->
  fill_cost_difference (fill_savings data) = fill_savings data.
Proof.
  intros Hstable. unfold fill_cost_difference in *.
  rewrite missing_difference_fill_savings, both_prices_fill_savings.
  destruct (missing_or_none "Cost difference" data) eqn:Em; [|reflexivity].
  destruct (both_prices data) as [[b g]|]; [|reflexivity].
  exfalso. unfold missing_or_none in Em.
  rewrite <- Hstable, lookup_insert_eq in Em. discriminate.
Qed.

Lemma fill_derived_stable data :
  fill_derived (fill_derived data) = fill_derived data.
Proof.
  unfold fill_derived.
  rewrite fill_cost_difference_after_savings
    by apply fill_cost_difference_stable.
  apply fill_savings_stable.
Qed.

(** X4: mapping is idempotent on the row it leaves behind: a second call
    on the updated row returns the same outcome and does not change the
    row again. *)
Theorem mapper_idempotent data :
  create_medicine_from_db (snd (create_medicine_from_db data))
  = create_medicine_from_db data.
Proof.
  unfold create_medicine_from_db at 2 3.
  destruct (decimalize "Cost of branded" data) as [e|data1] eqn:E1;
    [cbn [snd]; unfold create_medicine_from_db; by rewrite E1|].
  pose proof (decimalize_result _ _ _ E1) as Hb1.
  destruct (decimalize "Cost of generic" data1) as [e|data2] eqn:E2.
  - cbn [snd]. unfold create_medicine_from_db.
    by rewrite (decimalize_stable _ _ Hb1), E2.
  - pose proof (decimalize_result _ _ _ E2) as Hg2.
    assert (data2 !! "Cost of branded" = None
            \/ exists d, data2 !! "Cost of branded" = Some (VDec d)) as Hb2.
    { assert ("Cost of generic" <> "Cost of branded") as Hne by done.
      by rewrite (decimalize_lookup_other _ _ _ _ Hne E2). }
    cbn [snd]. unfold create_medicine_from_db.
    rewrite (decimalize_stable "Cost of branded")
      by (rewrite fill_derived_lookup_price by (by left); exact Hb2).
    rewrite (decimalize_stable "Cost of generic")
      by (rewrite fill_derived_lookup_price by (by right); exact Hg2).
    by rewrite fill_derived_stable.
Qed.

End MapperEffects.

(** ** The handlers of routers/finder.py *)

Section HandlerProperties.
Context `{PyNumerics}.
Variable supabase : store.

(** X5: [GET /medicine/{name}] answers 200 or 500 and nothing else, and
    200 exactly when the store returns a first row that validates; the
    body is then that row's medicine. *)
Theorem details_answers_200_or_500 name w :
  let r := fst (endpoint (get_medicine_details supabase name) w) in
  (status r = 200 \/ status r = 500)
  /\ (status r = 200 <->
      exists medicine rest m,
        supabase (limit 1 (eq_ "Name" name (select MEDICINES_TABLE "*")))
        = inr (medicine :: rest)
        /\ model_validate medicine = inr m
        /\ payload r = inl m).
Proof.
  unfold get_medicine_details. run_handler.
  destruct (supabase _) as [e|[|medicine rest]] eqn:Es; cbn.
  - split; [by right|]. split; [discriminate|]. by intros (? & ? & ? & ? & _).
  - split; [by right|]. split; [discriminate|]. by intros (? & ? & ? & ? & _).
  - destruct (model_validate medicine) as [e|m] eqn:Em; cbn.
    + split; [by right|]. split; [discriminate|].
      intros (? & ? & ? & [= <- <-] & Hm & _). congruence.
    + split; [by left|]. split; [|done]. intros _. by exists medicine, rest, m.
Qed.

(** X6: [GET /medicine/{name}] validates the stored row as it is and
    derives nothing: for a well-formed row with [branded >= generic >= 0]
    that supplies neither a cost difference nor savings, under the column
    names or under the names of the fields, the answer is 200 and the
    medicine returned has the two prices and neither a cost difference
    nor savings. *)
Theorem details_derive_nothing name w medicine rest b g :
  supabase (limit 1 (eq_ "Name" name (select MEDICINES_TABLE "*")))
  = inr (medicine :: rest) ->
  well_formed medicine = true ->
  cost_of medicine "Cost of branded" = Some b ->
  cost_of medicine "Cost of generic" = Some g ->
  Decimal.ltb g Decimal.zero = false ->
  Decimal.ltb b g = false ->
  field_input medicine "Cost difference" "cost_difference" = None ->
  field_input medicine "Savings" "savings" = None ->
  exists m,
    fst (endpoint (get_medicine_details supabase name) w)
    = {| status := 200; payload := inl m |}
    /\ cost_of_branded m = b /\ cost_of_generic m = g
    /\ cost_difference m = None /\ savings m = None.
Proof.
  intros Hs Hwf Hb Hg Hg0 Hbg Hcd Hsv.
  pose proof (DecimalFacts.nonneg_trans _ _ Hbg Hg0) as Hb0.
  unfold well_formed in Hwf.
  apply andb_true_iff in Hwf as [Hwf _].
  apply andb_true_iff in Hwf as [Htext _].
  cbn [forallb] in Htext.
  apply andb_true_iff in Htext as [[s1 T1]%is_text_lookup Htext].
  apply andb_true_iff in Htext as [[s2 T2]%is_text_lookup Htext].
  apply andb_true_iff in Htext as [[s3 T3]%is_text_lookup Htext].
  apply andb_true_iff in Htext as [[s4 T4]%is_text_lookup Htext].
  apply andb_true_iff in Htext as [[s5 T5]%is_text_lookup Htext].
  apply andb_true_iff in Htext as [[s6 T6]%is_text_lookup _].
  assert (field_cost_of_branded medicine = Some b) as Fb.
  { rewrite (field_cost_of_branded_eq _ _ Hb). by rewrite Hb0. }
  assert (field_cost_of_generic medicine (values_after_branded medicine) = Some g)
    as Fg.
  { rewrite (field_cost_of_generic_eq _ _ _ Hg). rewrite Hg0.
    unfold values_after_branded. cbn [v_cost_of_branded]. by rewrite Fb, Hbg. }
  assert (model_validate medicine
          = inr {| name := s1; dosage := s2; formulation := s3;
                   cost_of_branded := b; cost_of_generic := g;
                   cost_difference := None; savings := None;
                   type_ := s4; uses := s5; side_effects := s6 |}) as Hm.
  { unfold model_validate, required_str, field_cost_difference, field_savings.
    cbv zeta. rewrite Fb, Fg, Hcd, Hsv. unfold field_input.
    rewrite T1, T2, T3, T4, T5, T6. reflexivity. }
  eexists. split.
  - unfold get_medicine_details. run_handler. rewrite Hs. cbn. rewrite Hm.
    reflexivity.
  - done.
Qed.

(** X7: an empty answer of the store is not an error: whatever the
    request and the sort order, the search answers 200 with no exact
    match and no similar formulations. *)
Theorem search_without_rows req sort_order w :
  supabase (search_query req sort_order) = inr [] ->
  fst (endpoint (search_medicines supabase req sort_order) w)
  = {| status := 200; payload := inl no_results |}.
Proof. intros Hs. by rewrite search_medicines_run, Hs. Qed.

Lemma create_all_fails rows item e :
  item ∈ rows ->
  fst (create_medicine_from_db item) = inl e ->
  exists e', create_all rows = inl e'.
Proof.
  intros Hin Hfail. induction rows as [|m rows IH]; [by apply elem_of_nil in Hin|].
  cbn [create_all]. apply elem_of_cons in Hin as [<-|Hin].
  - rewrite Hfail. by eexists.
  - destruct (fst (create_medicine_from_db m)); [by eexists|].
    destruct (IH Hin) as [e' ->]. by eexists.
Qed.

(** X8: browse mode is all or nothing: when every returned row maps, the
    answer is 200 with one medicine per row in the order of the store;
    one row that does not map fails the whole request with 500. *)
Theorem browse_mode_all_or_nothing req sort_order w rows :
  is_type_or_dosage_search req = true ->
  supabase (search_query req sort_order) = inr rows ->
  (forall meds,
      create_all rows = inr meds ->
      length meds = length rows
      /\ fst (endpoint (search_medicines supabase req sort_order) w)
         = {| status := 200;
              payload :=
                inl {| exact_match := None; similar_formulations := meds;
                       Uses := None; Side_Effects := None |} |})
  /\ (forall item e,
         item ∈ rows ->
         fst (create_medicine_from_db item) = inl e ->
         status (fst (endpoint (search_medicines supabase req sort_order) w)) = 500).
Proof.
  intros Hbrowse Hs. split.
  - intros meds Hall. split; [by apply create_all_length|].
    rewrite search_medicines_run, Hs. unfold process_results.
    destruct rows as [|m rows]; [cbn in Hall; by injection Hall as <-|].
    by rewrite Hbrowse, Hall.
  - intros item e Hin Hfail.
    destruct (create_all_fails _ _ _ Hin Hfail) as [e' He'].
    rewrite search_medicines_run, Hs. unfold process_results.
    destruct rows as [|m rows]; [by apply elem_of_nil in Hin|].
    by rewrite Hbrowse, He'.
Qed.

(** X9: a search never touches the suggestion cache and sends exactly two
    queries to the store, whatever the store answers: the listing of the
    types that [get_all_types] fetches for the log, then the search
    itself. *)
Theorem search_sends_two_queries req sort_order w :
  snd (endpoint (search_medicines supabase req sort_order) w)
  = {| w_cache := w_cache w;
       w_log := w_log w ++ [select MEDICINES_TABLE "Type";
                            search_query req sort_order] |}.
Proof.
  unfold endpoint, search_medicines, try_except at 1. unfold bind at 1.
  rewrite get_all_types_run. unfold try_except, bind, execute, lift, raise, ret.
  cbn [w_cache w_log].
  destruct (supabase (search_query req sort_order)) as [e|medicines];
    [by rewrite <- app_assoc|].
  destruct (process_results req medicines); by rewrite <- app_assoc.
Qed.

(** *** The listing by type *)

Lemma convert_valid_elem rows m :
  m ∈ convert_valid rows <->
  exists item, item ∈ rows /\ fst (create_medicine_from_db item) = inr m.
Proof.
  induction rows as [|r rows IH]; cbn [convert_valid].
  - split; [by intros ?%elem_of_nil|]. by intros (? & ?%elem_of_nil & _).
  - destruct (fst (create_medicine_from_db r)) as [e|m'] eqn:Er.
    + rewrite IH. split.
      * intros (item & Hin & Hm). exists item. split; [by apply elem_of_cons; right|done].
      * intros (item & [->|Hin]%elem_of_cons & Hm); [congruence|]. by exists item.
    + rewrite elem_of_cons, IH. split.
      * intros [->|(item & Hin & Hm)].
        -- exists r. split; [by apply elem_of_cons; left|done].
        -- exists item. split; [by apply elem_of_cons; right|done].
      * intros (item & [->|Hin]%elem_of_cons & Hm).
        -- left. congruence.
        -- right. by exists item.
Qed.

Lemma convert_valid_length rows : length (convert_valid rows) <= length rows.
Proof.
  induction rows as [|r rows IH]; cbn [convert_valid length]; [lia|].
  destruct (fst (create_medicine_from_db r)); cbn [length]; lia.
Qed.

Lemma convert_valid_all rows meds :
  create_all rows = inr meds -> convert_valid rows = meds.
Proof.
  revert meds. induction rows as [|r rows IH]; intros meds; cbn [create_all convert_valid].
  - by intros [= <-].
  - destruct (fst (create_medicine_from_db r)); [discriminate|].
    destruct (create_all rows) as [|rest]; [discriminate|].
    intros [= <-]. f_equal. by apply IH.
Qed.

Lemma get_medicines_by_type_run type limit_ sort_order w :
  fst (endpoint (get_medicines_by_type supabase type limit_ sort_order) w)
  = match supabase (by_type_query type limit_ sort_order) with
    | inl e =>
        {| status := 500;
           payload := inr ("Error filtering medicines by type: " +:+ exn_str e) |}
    | inr rows => {| status := 200; payload := inl (convert_valid rows) |}
    end.
Proof.
  unfold endpoint, get_medicines_by_type, try_except. unfold bind at 1.
  rewrite get_all_types_run. unfold bind, execute, raise, ret.
  by destruct (supabase (by_type_query type limit_ sort_order)) as [e|[|r rows]].
Qed.

(** X10: the listing by type tolerates rows that do not map: whenever the
    store answers, the status is 200 and the body holds exactly the
    medicines of the rows that map, never more entries than rows; when
    every row maps it is the list that the search would build. *)
Theorem by_type_skips_unmappable_rows type limit_ sort_order w rows :
  supabase (by_type_query type limit_ sort_order) = inr rows ->
  exists meds,
    fst (endpoint (get_medicines_by_type supabase type limit_ sort_order) w)
    = {| status := 200; payload := inl meds |}
    /\ (forall m,
           m ∈ meds <->
           exists item, item ∈ rows /\ fst (create_medicine_from_db item) = inr m)
    /\ length meds <= length rows
    /\ (forall all, create_all rows = inr all -> meds = all).
Proof.
  intros Hs. exists (convert_valid rows).
  rewrite get_medicines_by_type_run, Hs.
  split; [reflexivity|]. split; [apply convert_valid_elem|].
  split; [apply convert_valid_length|]. intros all Hall.
  by apply convert_valid_all.
Qed.

Lemma by_type_query_limit type limit_ sort_order :
  q_limit (by_type_query type limit_ sort_order) = Some limit_.
Proof. unfold by_type_query. by destruct sort_order as [[]|]. Qed.

(** X11: against a store that honours the row limit, [GET
    /medicines/by_type] never returns more than 100 medicines nor more
    than the limit asked for; a limit outside 1..100 is refused with 422
    before the store or the cache is touched. *)
Theorem by_type_bounded type limit_param sort_order w :
  respects_limit supabase ->
  let n := match limit_param with Some n => n | None => 50%Z end in
  let r := medicines_by_type supabase type limit_param sort_order w in
  ((n < 1 \/ 100 < n)%Z -> status (fst r) = 422 /\ snd r = w)
  /\ (forall meds,
         payload (fst r) = inl meds ->
         (Z.of_nat (length meds) <= n)%Z /\ length meds <= 100).
Proof.
  intros Hlimit n r. subst r. unfold medicines_by_type. fold n.
  destruct (Z.leb_spec 1 n) as [H1|H1], (Z.leb_spec n 100) as [H100|H100];
    cbn [andb]; (split; [intros; try lia; done|]); try (cbn; discriminate).
  intros meds. rewrite get_medicines_by_type_run.
  destruct (supabase (by_type_query type (Z.to_nat n) sort_order)) as [e|rows] eqn:Es;
    [discriminate|].
  cbn. intros [= <-].
  pose proof (convert_valid_length rows) as Hlen.
  pose proof (Hlimit _ _ _ (by_type_query_limit type (Z.to_nat n) sort_order) Es)
    as Hrows.
  lia.
Qed.

End HandlerProperties.

(** ** Suggestions and their cache *)

Section SortedFacts.

Lemma insert_sorted_elem s l x : x ∈ Text.insert_sorted s l <-> x = s \/ x ∈ l.
Proof.
  induction l as [|y l IH]; cbn [Text.insert_sorted].
  - rewrite list_elem_of_singleton. split; [by left|].
    by intros [->|?%elem_of_nil].
  - destruct (String.leb s y); [apply elem_of_cons|].
    rewrite !elem_of_cons, IH. tauto.
Qed.

Lemma insert_sorted_length s l : length (Text.insert_sorted s l) = S (length l).
Proof.
  induction l as [|y l IH]; cbn [Text.insert_sorted]; [reflexivity|].
  destruct (String.leb s y); cbn [length]; [reflexivity|]. by rewrite IH.
Qed.

Lemma insert_sorted_sorted s l :
  StronglySorted String.le l -> StronglySorted String.le (Text.insert_sorted s l).
Proof.
  induction l as [|y l IH]; intros Hl; cbn [Text.insert_sorted].
  - repeat constructor.
  - apply StronglySorted_cons in Hl as [Hy Hl].
    destruct (String.leb s y) eqn:Hsy.
    + apply StronglySorted_cons. split; [|by apply StronglySorted_cons].
      assert (String.le s y) as Hle by (unfold String.le; by rewrite Hsy).
      constructor; [done|].
      eapply Forall_impl; [exact Hy|]. intros z Hz. by etrans.
    + apply StronglySorted_cons. split; [|by apply IH].
      assert (String.le y s) as Hle.
      { destruct (total String.le s y) as [Hle|Hle]; [|done].
        unfold String.le in Hle. by rewrite Hsy in Hle. }
      apply Forall_forall. intros z [->|Hz]%insert_sorted_elem; [done|].
      by eapply Forall_forall in Hy.
Qed.

Lemma insert_sorted_NoDup s l :
  s ∉ l -> NoDup l -> NoDup (Text.insert_sorted s l).
Proof.
  induction l as [|y l IH]; intros Hs Hl; cbn [Text.insert_sorted].
  - apply NoDup_singleton.
  - destruct (String.leb s y); [by constructor|].
    apply NoDup_cons in Hl as [Hy Hl]. apply not_elem_of_cons in Hs as [Hsy Hs].
    constructor; [|by apply IH].
    intros [->|Hin]%insert_sorted_elem; done.
Qed.

Lemma sorted_elem l x : x ∈ Text.sorted l <-> x ∈ l.
Proof.
  unfold Text.sorted. induction l as [|y l IH]; cbn [foldr]; [done|].
  rewrite insert_sorted_elem, elem_of_cons, IH. done.
Qed.

Lemma sorted_length l : length (Text.sorted l) = length l.
Proof.
  unfold Text.sorted. induction l as [|y l IH]; cbn [foldr]; [done|].
  rewrite insert_sorted_length. cbn. by rewrite IH.
Qed.

Lemma sorted_sorted l : StronglySorted String.le (Text.sorted l).
Proof.
  unfold Text.sorted. induction l as [|y l IH]; cbn [foldr]; [constructor|].
  by apply insert_sorted_sorted.
Qed.

Lemma sorted_NoDup l : NoDup l -> NoDup (Text.sorted l).
Proof.
  unfold Text.sorted. induction l as [|y l IH]; cbn [foldr]; [done|].
  intros [Hy Hl]%NoDup_cons. apply insert_sorted_NoDup; [|by apply IH].
  by rewrite (sorted_elem l y).
Qed.

Lemma tidy_nil : tidy [].
Proof. repeat split; [cbn; lia|constructor|constructor]. Qed.

(** The list that the cached function computes from the rows is tidy. *)
Lemma tidy_suggestions (values : list string) :
  tidy (take 10 (Text.sorted (remove_dups values))).
Proof.
  repeat split.
  - rewrite length_take. lia.
  - apply (StronglySorted_app_1_l _ _ (drop 10 (Text.sorted (remove_dups values)))).
    rewrite take_drop. apply sorted_sorted.
  - eapply sublist_NoDup; [|apply sublist_take].
    apply sorted_NoDup, NoDup_remove_dups.
Qed.

End SortedFacts.

Section SuggestionProperties.
Variable supabase : store.

Lemma fetch_suggestions_rows field query w rows :
  supabase (suggestions_query field query) = inr rows ->
  fst (fetch_suggestions supabase field query w)
  = inr (take 10 (Text.sorted (remove_dups (omap (text_cell field) rows)))).
Proof.
  intros Hs. unfold fetch_suggestions. run_handler. rewrite Hs.
  by destruct rows.
Qed.

Lemma text_cell_spec field (item : row) v :
  text_cell field item = Some v <-> item !! field = Some (VStr v) /\ v <> EmptyString.
Proof.
  unfold text_cell. destruct (item !! field) as [[| s | | |]|]; try (split; [discriminate|by intros [? _]]).
  destruct s as [|c s]; cbn.
  - split; [discriminate|]. by intros [[= <-] ?].
  - split; [by intros [= <-]|]. by intros [[= <-] _].
Qed.

(** X12: a call of [get_cached_suggestions] that is not served from the
    cache and to which the store answers returns at most ten values, in
    ascending order and without repetition; each is a non-empty text of
    the requested column in some returned row, and when fewer than ten
    are returned no such text is left out. *)
Theorem fetched_suggestions_are_tidy field query w rows :
  lru_lookup (field, query) (w_cache w) = None ->
  supabase (suggestions_query field query) = inr rows ->
  exists found,
    fst (get_cached_suggestions supabase field query w) = inr found
    /\ length found <= 10
    /\ StronglySorted String.le found
    /\ NoDup found
    /\ (forall v,
           v ∈ found ->
           v <> EmptyString
           /\ exists item, item ∈ rows /\ item !! field = Some (VStr v))
    /\ (length found < 10 ->
        forall item v,
          item ∈ rows -> item !! field = Some (VStr v) -> v <> EmptyString ->
          v ∈ found).
Proof.
  intros Hmiss Hs.
  exists (take 10 (Text.sorted (remove_dups (omap (text_cell field) rows)))).
  destruct (tidy_suggestions (omap (text_cell field) rows)) as (Hlen & Hsorted & Hnodup).
  split.
  - unfold get_cached_suggestions, lru_cached. rewrite Hmiss. cbn [fst snd].
    pose proof (fetch_suggestions_rows field query w rows Hs) as Hf.
    destruct (fetch_suggestions supabase field query w) as [[e|v] w'];
      cbn in Hf; by simplify_eq.
  - repeat split; try done.
    + apply elem_of_take in H as (i & Hi & _).
      apply list_elem_of_lookup_2, sorted_elem, elem_of_remove_dups,
        list_elem_of_omap in Hi as (item & Hin & Hcell).
      by apply text_cell_spec in Hcell as [_ ?].
    + apply elem_of_take in H as (i & Hi & _).
      apply list_elem_of_lookup_2, sorted_elem, elem_of_remove_dups,
        list_elem_of_omap in Hi as (item & Hin & Hcell).
      apply text_cell_spec in Hcell as [? _]. by exists item.
    + intros Hshort item v Hin Hcell Hv.
      rewrite length_take in Hshort.
      rewrite take_ge by lia.
      apply sorted_elem, elem_of_remove_dups, list_elem_of_omap.
      exists item. split; [done|]. by apply text_cell_spec.
Qed.

(** After any call the arguments of the call are at the front of the
    cache, with the list that the call returned. *)
Lemma get_cached_suggestions_front field query w :
  exists found w',
    get_cached_suggestions supabase field query w = (inr found, w')
    /\ lru_lookup (field, query) (w_cache w') = Some found.
Proof.
  destruct (lru_lookup (field, query) (w_cache w)) as [found|] eqn:E.
  - rewrite (get_cached_suggestions_hit _ _ _ _ _ E). eexists _, _.
    split; [reflexivity|]. cbn. by rewrite decide_True.
  - destruct (get_cached_suggestions_miss supabase _ _ _ E) as (found & -> & _).
    eexists _, _. split; [reflexivity|]. cbn [w_cache].
    apply (lru_lookup_take_full _ _ 1).
    rewrite lru_store_front by (unfold maxsize; lia).
    cbn. by rewrite decide_True.
Qed.

End SuggestionProperties.

(** X13: a second call of [get_cached_suggestions] with the same
    arguments, right after the first, returns the same list and sends
    nothing to the store, whatever the store has become. *)
Theorem repeated_call_served_from_cache (before after : store) field query w :
  let first := get_cached_suggestions before field query w in
  let second := get_cached_suggestions after field query (snd first) in
  fst second = fst first /\ w_log (snd second) = w_log (snd first).
Proof.
  destruct (get_cached_suggestions_front before field query w)
    as (found & w' & Hfirst & Hfront).
  cbv zeta. rewrite Hfirst. cbn [fst snd].
  by rewrite (get_cached_suggestions_hit _ _ _ _ _ Hfront).
Qed.

Section CacheInvariant.

Lemma lru_lookup_elem k v (c : lru) : lru_lookup k c = Some v -> (k, v) ∈ c.
Proof.
  induction c as [|[k0 v0] c IH]; cbn; [discriminate|].
  destruct (decide (k = k0)) as [->|_].
  - intros [= ->]. apply elem_of_cons. by left.
  - intros Hin. apply elem_of_cons. right. by apply IH.
Qed.

Lemma lru_lookup_None k (c : lru) : lru_lookup k c = None -> k ∉ map fst c.
Proof.
  induction c as [|[k0 v0] c IH]; cbn; [intros _; apply not_elem_of_nil|].
  destruct (decide (k = k0)) as [->|Hne]; [discriminate|].
  intros Hnone. apply not_elem_of_cons. split; [done|by apply IH].
Qed.

Lemma lru_remove_keys k k' (c : lru) :
  k' ∈ map fst (lru_remove k c) -> k' <> k /\ k' ∈ map fst c.
Proof.
  induction c as [|[k0 v0] c IH]; cbn; [by intros ?%elem_of_nil|].
  destruct (decide (k = k0)) as [->|Hne].
  - intros [? ?]%IH. split; [done|]. apply elem_of_cons. by right.
  - cbn. intros [->|Hin]%elem_of_cons.
    + split; [done|]. apply elem_of_cons. by left.
    + destruct (IH Hin). split; [done|]. apply elem_of_cons. by right.
Qed.

Lemma lru_remove_NoDup k (c : lru) :
  NoDup (map fst c) -> NoDup (map fst (lru_remove k c)).
Proof.
  induction c as [|[k0 v0] c IH]; cbn; [done|].
  intros [Hk0 Hc]%NoDup_cons.
  destruct (decide (k = k0)); [by apply IH|].
  cbn. apply NoDup_cons. split; [|by apply IH].
  by intros [_ ?]%lru_remove_keys.
Qed.

Lemma lru_remove_length k (c : lru) : length (lru_remove k c) <= length c.
Proof.
  induction c as [|[k0 v0] c IH]; cbn; [lia|].
  destruct (decide (k = k0)); cbn; lia.
Qed.

Lemma lru_remove_length_lt k v (c : lru) :
  lru_lookup k c = Some v -> length (lru_remove k c) < length c.
Proof.
  induction c as [|[k0 v0] c IH]; cbn; [discriminate|].
  destruct (decide (k = k0)).
  - intros _. pose proof (lru_remove_length k c). lia.
  - intros Hin. cbn. specialize (IH Hin). lia.
Qed.

Lemma lru_remove_Forall (P : cache_key * list string -> Prop) k (c : lru) :
  Forall P c -> Forall P (lru_remove k c).
Proof.
  induction c as [|[k0 v0] c IH]; cbn; [done|].
  intros [Hh Hc]%Forall_cons. destruct (decide (k = k0)); [by apply IH|].
  apply Forall_cons. split; [done|by apply IH].
Qed.

Variable supabase : store.

Lemma fetch_suggestions_tidy field query w :
  exists found,
    fetch_suggestions supabase field query w
    = (inr found,
       {| w_cache := w_cache w;
          w_log := w_log w ++ [suggestions_query field query] |})
    /\ tidy found.
Proof.
  unfold fetch_suggestions. run_handler.
  destruct (supabase (suggestions_query field query)) as [e|[|item data]];
    eexists; (split; [reflexivity|]);
    [apply tidy_nil | apply tidy_nil | apply tidy_suggestions].
Qed.

(** One call keeps the cache well kept and returns a tidy list. *)
Lemma call_keeps_invariant field query w :
  cache_invariant (w_cache w) ->
  exists found w',
    get_cached_suggestions supabase field query w = (inr found, w')
    /\ tidy found
    /\ cache_invariant (w_cache w').
Proof.
  intros (Hlen & Hkeys & Htidy).
  destruct (lru_lookup (field, query) (w_cache w)) as [found|] eqn:E.
  - rewrite (get_cached_suggestions_hit _ _ _ _ _ E).
    assert (tidy found) as Hfound.
    { apply lru_lookup_elem in E.
      by apply (proj1 (Forall_forall _ _) Htidy) in E. }
    eexists _, _. split; [reflexivity|]. split; [done|].
    cbn [w_cache]. unfold lru_hit. repeat split.
    + cbn [length]. pose proof (lru_remove_length_lt _ _ _ E). lia.
    + cbn [map fst]. apply NoDup_cons. split; [|by apply lru_remove_NoDup].
      by intros [? _]%lru_remove_keys.
    + apply Forall_cons. split; [done|by apply lru_remove_Forall].
  - unfold get_cached_suggestions, lru_cached. rewrite E. cbn [fst snd].
    destruct (fetch_suggestions_tidy field query w) as (found & -> & Hfound).
    eexists _, _. split; [reflexivity|]. split; [done|].
    cbn [w_cache]. unfold lru_store. repeat split.
    + rewrite length_take. lia.
    + change (NoDup (fst <$> take maxsize (((field, query), found) :: w_cache w))).
      rewrite fmap_take. eapply sublist_NoDup; [|apply sublist_take].
      cbn [fmap list_fmap fst]. apply NoDup_cons.
      split; [by apply lru_lookup_None|done].
    + apply Forall_take, Forall_cons. by split.
Qed.

End CacheInvariant.

(** X14: the suggestion cache stays well kept: after any sequence of
    calls, against stores in any state, it holds at most 1000 entries, no
    two for the same arguments, and every cached list has at most ten
    values in ascending order without repetition. *)
Theorem cache_stays_well_kept calls w :
  cache_invariant (w_cache w) -> cache_invariant (w_cache (run_calls calls w)).
Proof.
  revert w. induction calls as [|[s [f q]] calls IH]; intros w Hw; [done|].
  cbn [run_calls fst snd]. apply IH.
  destruct (call_keeps_invariant s f q w Hw) as (found & w' & -> & _ & Hw').
  done.
Qed.

(** X15: on a valid field and a well-kept cache, [GET /suggestions/{field}]
    answers 200 with at most ten suggestions, each tagged with the field,
    whose values are in ascending order without repetition, whether they
    come from the cache or from the store. *)
Theorem suggestions_response_shape (supabase : store) field query w :
  cache_invariant (w_cache w) ->
  field ∈ valid_fields ->
  exists items,
    fst (endpoint (get_suggestions supabase field query) w)
    = {| status := 200; payload := inl {| suggestions := items |} |}
    /\ length items <= 10
    /\ Forall (fun item => field_type item = field) items
    /\ StronglySorted String.le (map value_ items)
    /\ NoDup (map value_ items).
Proof.
  intros Hw Hv.
  destruct (call_keeps_invariant supabase field query w Hw)
    as (found & w' & Hcall & (Hlen & Hsorted & Hnodup) & _).
  eexists. split; [by apply (get_suggestions_valid _ _ _ _ found w')|].
  assert (map value_ (map (fun v => {| value_ := v; field_type := field |}) found)
          = found) as Hvalues.
  { clear. induction found as [|v found IH]; [done|]. cbn. by rewrite IH. }
  rewrite Hvalues. repeat split; try done.
  - by rewrite length_map.
  - apply Forall_forall. intros item Hin.
    apply list_elem_of_fmap in Hin as (v & -> & _). done.
Qed.

(** ** Validation of the search request *)

Lemma validate_request_cases raw :
  (accepts raw = true ->
   validate_request raw
   = inr {| req_name := normalized (raw_name raw);
            req_formulation := normalized (raw_formulation raw);
            req_type := normalized (raw_type raw);
            req_dosage := normalized (raw_dosage raw) |})
  /\ (accepts raw = false ->
      exists locs, validate_request raw = inl (ValidationError locs) /\ locs <> []).
Proof.
  destruct raw as [n f t d].
  unfold accepts, passes, validate_request, search_field, record_field, normalized.
  cbn [raw_name raw_formulation raw_type raw_dosage].
  destruct n as [|vn], f as [|vf], t as [|vt], d as [|vd]; cbn;
    repeat match goal with
           | |- context [validate_string_fields ?v] =>
               destruct (validate_string_fields v); cbn
           end;
    (split; [intros; done || discriminate|]);
    intros; try discriminate; eexists; (split; [reflexivity|discriminate]).
Qed.

(** X16: the validation of a search body accepts it exactly when every
    supplied field other than the name is non-blank or comes after a
    non-blank field; an accepted body becomes the request whose fields
    are the supplied texts, blank ones replaced by [None]. *)
Theorem validate_request_accepts raw :
  (accepts raw = true ->
   validate_request raw
   = inr {| req_name := normalized (raw_name raw);
            req_formulation := normalized (raw_formulation raw);
            req_type := normalized (raw_type raw);
            req_dosage := normalized (raw_dosage raw) |})
  /\ (accepts raw = false ->
      exists locs, validate_request raw = inl (ValidationError locs) /\ locs <> []).
Proof. exact (validate_request_cases raw). Qed.

Lemma validate_string_fields_Some v s :
  validate_string_fields v = Some s ->
  v = Some s /\ Text.strip s <> EmptyString.
Proof.
  unfold validate_string_fields. destruct v as [s'|]; [|discriminate].
  destruct (Text.strip s') eqn:E; cbn; [discriminate|].
  intros [= ->]. split; [done|]. by rewrite E.
Qed.

(** X17: a validated request holds, in each field, either [None] or the
    text exactly as it was supplied, not blank and not trimmed; so a field
    is set for the handler precisely when it is not [None]. *)
Theorem validated_request_normal raw req :
  validate_request raw = inr req ->
  Forall
    (fun '(input, field) =>
       field = normalized input
       /\ is_set field = bool_decide (field <> None)
       /\ forall s, field = Some s ->
                    input = Given (Some s) /\ Text.strip s <> EmptyString)
    [(raw_name raw, req_name req); (raw_formulation raw, req_formulation req);
     (raw_type raw, req_type req); (raw_dosage raw, req_dosage req)].
Proof.
  intros Hreq.
  assert (forall input,
             is_set (normalized input) = bool_decide (normalized input <> None)
             /\ forall s, normalized input = Some s ->
                          input = Given (Some s) /\ Text.strip s <> EmptyString)
    as Hnormal.
  { intros [|v]; cbn [normalized]; [by split|].
    destruct (validate_string_fields v) as [s|] eqn:E; [|by split].
    apply validate_string_fields_Some in E as [-> Hs]. split.
    - cbn. destruct s; [by cbn in Hs|done].
    - by intros ? [= <-]. }
  destruct (accepts raw) eqn:Ha.
  - rewrite (proj1 (validate_request_cases raw) Ha) in Hreq.
    injection Hreq as <-. cbn.
    repeat (apply Forall_cons; split; [split; [done|apply Hnormal]|]).
    constructor.
  - destruct (proj2 (validate_request_cases raw) Ha) as (locs & Hfail & _).
    congruence.
Qed.

(** X18: a body whose name is not blank is accepted, whatever its other
    fields hold. *)
Theorem named_request_accepted raw n :
  raw_name raw = Given (Some n) ->
  Text.strip n <> EmptyString ->
  exists req, validate_request raw = inr req /\ req_name req = Some n.
Proof.
  intros Hn Hs.
  assert (normalized (raw_name raw) = Some n) as Hnorm.
  { rewrite Hn. cbn. destruct (Text.strip n); [done|reflexivity]. }
  eexists. split.
  - apply validate_request_cases. unfold accepts, passes. cbn [existsb].
    rewrite Hnorm. cbn.
    destruct (raw_formulation raw), (raw_type raw), (raw_dosage raw); cbn;
      by rewrite ?orb_true_r.
  - done.
Qed.

(** ** The normalisers of search values *)

Section TextFacts.

Lemma split_ws_go_words cur l :
  Forall (fun c => Text.isspace c = false) cur ->
  Forall is_word (Text.split_ws_go cur l).
Proof.
  revert cur. induction l as [|c l IH]; intros cur Hcur; cbn [Text.split_ws_go].
  - destruct cur as [|c0 cur]; [constructor|].
    repeat constructor.
    + intros Hnil. apply (f_equal (@length _)) in Hnil.
      rewrite length_rev in Hnil. discriminate.
    + by apply Forall_rev.
  - destruct (Text.isspace c) eqn:Ec.
    + destruct cur as [|c0 cur]; [by apply IH|].
      constructor; [|by apply IH]. split.
      * intros Hnil. apply (f_equal (@length _)) in Hnil.
        rewrite length_rev in Hnil. discriminate.
      * by apply Forall_rev.
    + apply IH. by constructor.
Qed.

Lemma split_ws_go_word cur w rest :
  Forall (fun c => Text.isspace c = false) w ->
  Text.split_ws_go cur (w ++ rest) = Text.split_ws_go (rev w ++ cur) rest.
Proof.
  revert cur. induction w as [|c w IH]; intros cur Hw; [reflexivity|].
  apply Forall_cons in Hw as [Hc Hw].
  cbn [app Text.split_ws_go]. rewrite Hc, (IH _ Hw).
  cbn [rev]. by rewrite <- app_assoc.
Qed.

(** Splitting on blanks what was joined with single spaces gives the
    words back. *)
Lemma split_ws_join ws :
  Forall is_word ws -> Text.split_ws (Text.join [" "%char] ws) = ws.
Proof.
  unfold Text.split_ws. induction ws as [|w ws IH]; [reflexivity|].
  intros [[Hne Hw] Hws]%Forall_cons.
  assert (rev w <> []) as Hrev.
  { intros Hnil. apply Hne. apply (f_equal (@length _)) in Hnil.
    rewrite length_rev in Hnil. by destruct w. }
  destruct ws as [|w' ws].
  - cbn [Text.join]. rewrite <- (app_nil_r w) at 1.
    rewrite (split_ws_go_word _ _ _ Hw), app_nil_r. cbn [Text.split_ws_go].
    destruct (rev w) eqn:E; [done|]. by rewrite <- E, rev_involutive.
  - change (Text.join [" "%char] (w :: w' :: ws))
      with (w ++ " "%char :: Text.join [" "%char] (w' :: ws)).
    rewrite (split_ws_go_word _ _ _ Hw), app_nil_r.
    cbn [Text.split_ws_go].
    change (Text.isspace " ") with true. cbv iota.
    destruct (rev w) eqn:E; [done|]. rewrite <- E, rev_involutive.
    f_equal. by apply IH.
Qed.

Lemma split_ws_go_nil cur l :
  Text.split_ws_go cur l = [] <-> cur = [] /\ forallb Text.isspace l = true.
Proof.
  revert cur. induction l as [|c l IH]; intros cur; cbn [Text.split_ws_go forallb].
  - destruct cur; split; try done. by intros [? _].
  - destruct (Text.isspace c); cbn [andb].
    + destruct cur as [|c0 cur]; [apply IH|].
      split; [discriminate|]. by intros [? _].
    + rewrite IH. split; [by intros [? _]|by intros [_ ?]].
Qed.

Lemma join_nil sep ws :
  Forall (fun w => w <> []) ws -> Text.join sep ws = [] -> ws = [].
Proof.
  destruct ws as [|w [|w' ws]]; [done|..]; intros [Hw _]%Forall_cons; cbn.
  - by intros ->.
  - by intros [-> _]%app_eq_nil.
Qed.

Lemma string_of_list_ascii_nil l : string_of_list_ascii l = EmptyString <-> l = [].
Proof. destruct l; split; done. Qed.

Lemma clean_type_value_eq s :
  clean_type_value s
  = string_of_list_ascii (Text.join [" "%char] (Text.split_ws (chars s))).
Proof. unfold clean_type_value. by destruct s. Qed.

(** X19: [clean_type_value] keeps the words of its argument and is
    idempotent: cleaning a cleaned type changes nothing. *)
Theorem clean_type_value_idempotent s :
  Text.split_ws (chars (clean_type_value s)) = Text.split_ws (chars s)
  /\ clean_type_value (clean_type_value s) = clean_type_value s.
Proof.
  assert (Text.split_ws (chars (clean_type_value s)) = Text.split_ws (chars s))
    as Hwords.
  { rewrite clean_type_value_eq, list_ascii_of_string_of_list_ascii.
    apply split_ws_join, split_ws_go_words. constructor. }
  split; [done|].
  by rewrite (clean_type_value_eq (clean_type_value s)), Hwords,
    <- clean_type_value_eq.
Qed.

Lemma clean_type_value_blank s :
  clean_type_value s = EmptyString <-> blank s = true.
Proof.
  rewrite clean_type_value_eq, string_of_list_ascii_nil. unfold blank.
  split.
  - intros Hj. apply join_nil in Hj.
    + by apply split_ws_go_nil in Hj as [_ ?].
    + eapply Forall_impl; [apply split_ws_go_words; constructor|].
      by intros w [? _].
  - intros Hb. unfold Text.split_ws.
    by rewrite (proj2 (split_ws_go_nil [] (chars s)) (conj eq_refl Hb)).
Qed.

(** *** clean_search_value *)

Lemma nonblanks_app l1 l2 : nonblanks (l1 ++ l2) = nonblanks l1 ++ nonblanks l2.
Proof. apply List.filter_app. Qed.

Lemma nonblanks_lstrip l : nonblanks (Text.lstrip_chars l) = nonblanks l.
Proof.
  induction l as [|c l IH]; [reflexivity|]. cbn [Text.lstrip_chars].
  destruct (Text.isspace c) eqn:Ec; [|reflexivity].
  rewrite IH. unfold nonblanks. cbn [List.filter]. by rewrite Ec.
Qed.

Lemma nonblanks_rev l : nonblanks (rev l) = rev (nonblanks l).
Proof.
  induction l as [|c l IH]; [reflexivity|]. cbn [rev].
  rewrite nonblanks_app, IH. unfold nonblanks at 2 3. cbn [List.filter].
  destruct (negb (Text.isspace c)); cbn [rev]; [reflexivity|].
  by rewrite app_nil_r.
Qed.

Lemma nonblanks_strip l : nonblanks (Text.strip_chars l) = nonblanks l.
Proof.
  unfold Text.strip_chars.
  by rewrite nonblanks_rev, nonblanks_lstrip, nonblanks_rev, rev_involutive,
    nonblanks_lstrip.
Qed.

Lemma split_on_nonempty sep l : Text.split_on sep l <> [].
Proof.
  destruct l as [|c l]; cbn; [done|].
  destruct (Ascii.eqb c sep); [done|]. by destruct (Text.split_on sep l).
Qed.

(** Joining with the separator what was split on it gives the text
    back. *)
Lemma join_split_on sep l : Text.join [sep] (Text.split_on sep l) = l.
Proof.
  induction l as [|c l IH]; [reflexivity|]. cbn [Text.split_on].
  pose proof (split_on_nonempty sep l) as Hne.
  destruct (Ascii.eqb_spec c sep) as [->|Hc].
  - destruct (Text.split_on sep l) as [|p ps] eqn:E; [done|].
    change (Text.join [sep] ([] :: p :: ps)) with (sep :: Text.join [sep] (p :: ps)).
    by rewrite IH.
  - destruct (Text.split_on sep l) as [|p ps] eqn:E; [done|].
    destruct ps as [|p' ps]; cbn in *; by rewrite <- IH.
Qed.

Lemma nonblanks_join_map sep (f : list ascii -> list ascii) ps :
  (forall p, nonblanks (f p) = nonblanks p) ->
  nonblanks (Text.join sep (map f ps)) = nonblanks (Text.join sep ps).
Proof.
  intros Hf. induction ps as [|p ps IH]; [reflexivity|].
  destruct ps as [|p' ps]; [apply Hf|].
  change (nonblanks (f p ++ sep ++ Text.join sep (map f (p' :: ps)))
          = nonblanks (p ++ sep ++ Text.join sep (p' :: ps))).
  by rewrite !nonblanks_app, Hf, IH.
Qed.

Lemma nonblanks_double_quotes l :
  nonblanks (Text.double_quotes l) = Text.double_quotes (nonblanks l).
Proof.
  unfold Text.double_quotes. induction l as [|c l IH]; [reflexivity|].
  cbn [flat_map]. rewrite nonblanks_app, IH. unfold nonblanks at 3.
  cbn [List.filter].
  destruct (Ascii.eqb_spec c "'") as [->|Hc].
  - reflexivity.
  - unfold nonblanks at 1. cbn [List.filter].
    destruct (negb (Text.isspace c)); cbn [flat_map app].
    + destruct (Ascii.eqb_spec c "'"); [done|reflexivity].
    + reflexivity.
Qed.

Lemma clean_search_value_eq s :
  clean_search_value s
  = string_of_list_ascii
      (Text.double_quotes
         (Text.join ["-"%char]
            (map Text.strip_chars
               (Text.split_on "-" (Text.strip_chars (chars s)))))).
Proof. unfold clean_search_value. by destruct s. Qed.

Lemma clean_search_value_nonblanks s :
  nonblanks (chars (clean_search_value s))
  = Text.double_quotes (nonblanks (chars s)).
Proof.
  rewrite clean_search_value_eq, list_ascii_of_string_of_list_ascii.
  rewrite nonblanks_double_quotes.
  rewrite (nonblanks_join_map _ _ _ nonblanks_strip).
  by rewrite join_split_on, nonblanks_strip.
Qed.

(** X20: [clean_search_value] removes blanks and doubles single quotes,
    and does nothing else: the characters of its result that are not
    blanks are those of its argument, in the same order, with every
    single quote written twice. *)
Theorem clean_search_value_keeps_text s :
  nonblanks (chars (clean_search_value s))
  = Text.double_quotes (nonblanks (chars s)).
Proof. exact (clean_search_value_nonblanks s). Qed.

Lemma nonblanks_nil l : nonblanks l = [] <-> forallb Text.isspace l = true.
Proof.
  unfold nonblanks. induction l as [|c l IH]; cbn [List.filter forallb]; [done|].
  destruct (Text.isspace c); cbn [negb andb]; [done|].
  split; discriminate.
Qed.

Lemma lstrip_blank l : forallb Text.isspace l = true -> Text.lstrip_chars l = [].
Proof.
  induction l as [|c l IH]; [done|]. cbn [forallb Text.lstrip_chars].
  intros [-> Hl]%andb_true_iff. by apply IH.
Qed.

Lemma clean_search_value_blank s : blank s = true -> clean_search_value s = EmptyString.
Proof.
  unfold blank. intros Hb. rewrite clean_search_value_eq.
  unfold Text.strip_chars. by rewrite (lstrip_blank _ Hb).
Qed.

(** X21: both normalisers return the empty text on blank input and only
    on blank input. *)
Theorem normalisers_empty_iff_blank s :
  (clean_search_value s = EmptyString <-> blank s = true)
  /\ (clean_type_value s = EmptyString <-> blank s = true).
Proof.
  split; [|apply clean_type_value_blank].
  unfold blank. split.
  - intros Hempty. apply nonblanks_nil.
    pose proof (clean_search_value_nonblanks s) as Hkeep.
    rewrite Hempty in Hkeep. cbn in Hkeep.
    destruct (nonblanks (chars s)) as [|c l]; [done|].
    unfold Text.double_quotes in Hkeep. cbn [flat_map] in Hkeep.
    by destruct (Ascii.eqb c "'").
  - apply clean_search_value_blank.
Qed.

End TextFacts.

(** ** The query builder *)

Section BuilderFacts.

Lemma field_mapping_known field db_field :
  field_mapping !! field = Some db_field ->
  field ∈ known_fields /\ db_field ∈ filter_columns.
Proof.
  unfold field_mapping. intros Hin%elem_of_list_to_map_2.
  unfold known_fields, filter_columns.
  repeat (apply elem_of_cons in Hin as [[= -> ->]|Hin];
          [split; by repeat (apply elem_of_cons; (by left) || right)|]).
  by apply elem_of_nil in Hin.
Qed.

Lemma field_mapping_unknown field :
  field ∉ known_fields -> field_mapping !! field = None.
Proof.
  intros Hf. unfold field_mapping. apply not_elem_of_list_to_map_1.
  exact Hf.
Qed.

(** X22: [build_search_query] only ever appends one filter: the table,
    the selected columns, the order and the limit of the query are kept,
    and so are the filters already there.  The filter added is on one of
    the four columns; it is a pattern match on the type column whatever
    [exact] says, and on the other columns unless [exact] is set.  Nothing
    is added for a blank value or for a field name that is not known. *)
Theorem build_search_query_appends q field value exact :
  let r := build_search_query q field value exact in
  q_table r = q_table q /\ q_select r = q_select q
  /\ q_order r = q_order q /\ q_limit r = q_limit q
  /\ (r = q
      \/ exists f,
          q_filters r = q_filters q ++ [f]
          /\ filter_column f ∈ filter_columns
          /\ (filter_column f = "Type" \/ exact = false -> is_ilike f = true)
          /\ (filter_column f <> "Type" -> exact = true -> is_ilike f = false))
  /\ (blank value = true -> r = q)
  /\ (field ∉ known_fields -> r = q).
Proof.
  cbv zeta. unfold build_search_query.
  destruct (Text.nonempty value) eqn:Hv; cbn [negb];
    [|by repeat split; auto].
  destruct (field_mapping !! field) as [db_field|] eqn:Hf;
    [|by repeat split; auto].
  destruct (field_mapping_known _ _ Hf) as [Hknown Hcol].
  destruct (String.eqb_spec db_field "Type") as [->|Htype].
  - destruct (Text.nonempty (clean_type_value value)) eqn:Hc; cbn [negb].
    + repeat split; try done.
      * right. eexists. split; [reflexivity|]. by repeat split.
      * intros Hb%clean_type_value_blank. by rewrite Hb in Hc.
    + by repeat split; auto.
  - destruct (Text.nonempty (clean_search_value value)) eqn:Hc; cbn [negb].
    + destruct exact; (repeat split; try done);
        try (right; eexists; split; [reflexivity|];
             repeat split; (done || by intros [?|?]));
        intros Hb%clean_search_value_blank; by rewrite Hb in Hc.
    + by repeat split; auto.
Qed.

Lemma add_filter_cases field column v q :
  field_mapping !! field = Some column ->
  add_filter field v q = q
  \/ (is_set v = true
      /\ exists pattern, add_filter field v q = ilike column pattern q).
Proof.
  intros Hf. unfold add_filter, is_set.
  destruct v as [s|]; [|by left].
  destruct (Text.nonempty s) eqn:Hs; [|by left].
  unfold build_search_query. rewrite Hs, Hf. cbn [negb].
  destruct (String.eqb column "Type").
  - destruct (Text.nonempty (clean_type_value s)); cbn [negb]; [|by left].
    right. split; [done|]. by eexists.
  - destruct (Text.nonempty (clean_search_value s)); cbn [negb]; [|by left].
    right. split; [done|]. by eexists.
Qed.

(** X23: the query of a search reads every column of the medicines table
    and holds pattern matches only, never an equality: at most four, each
    on the column of a field that is set; it is limited to 15 rows exactly
    in browse mode, and ordered by the branded price exactly when a
    direction is asked for. *)
Theorem search_query_shape req sort_order :
  let q := search_query req sort_order in
  q_table q = MEDICINES_TABLE /\ q_select q = "*"
  /\ Forall (fun f => is_ilike f = true) (q_filters q)
  /\ length (q_filters q) <= 4
  /\ (forall f,
         f ∈ q_filters q ->
         (filter_column f = "Type" /\ is_set (req_type req) = true)
         \/ (filter_column f = "Formulation" /\ is_set (req_formulation req) = true)
         \/ (filter_column f = "Name" /\ is_set (req_name req) = true)
         \/ (filter_column f = "Dosage" /\ is_set (req_dosage req) = true))
  /\ q_limit q = (if is_type_or_dosage_search req then Some 15 else None)
  /\ q_order q
     = match sort_order with
       | Some low_to_high => Some ("Cost of branded", false)
       | Some high_to_low => Some ("Cost of branded", true)
       | _ => None
       end.
Proof.
  cbv zeta. unfold search_query.
  set (q0 := select MEDICINES_TABLE "*").
  destruct (add_filter_cases "type" "Type" (req_type req) q0 eq_refl)
    as [E1|[S1 [p1 E1]]];
  rewrite E1; clear E1;
  match goal with |- context [add_filter "formulation" _ ?q] =>
    destruct (add_filter_cases "formulation" "Formulation" (req_formulation req) q eq_refl)
      as [E2|[S2 [p2 E2]]]
  end; rewrite E2; clear E2;
  match goal with |- context [add_filter "name" _ ?q] =>
    destruct (add_filter_cases "name" "Name" (req_name req) q eq_refl)
      as [E3|[S3 [p3 E3]]]
  end; rewrite E3; clear E3;
  match goal with |- context [add_filter "dosage" _ ?q] =>
    destruct (add_filter_cases "dosage" "Dosage" (req_dosage req) q eq_refl)
      as [E4|[S4 [p4 E4]]]
  end; rewrite E4; clear E4;
  (destruct (is_type_or_dosage_search req); destruct sort_order as [[]|]; cbn;
   repeat split; try reflexivity; try (cbn; lia);
   try (match goal with |- Forall _ _ => by repeat constructor end);
   intros f Hin;
   repeat (apply elem_of_cons in Hin as [->|Hin]; [cbn; tauto|]);
   by apply elem_of_nil in Hin).
Qed.

End BuilderFacts.

(** X24: a type made of blanks does not restrict the listing by type: the
    one filter of its query is the pattern that matches every type, where
    the search would have added no filter at all. *)
Theorem by_type_blank_matches_all type limit_ sort_order :
  blank type = true ->
  q_filters (by_type_query type limit_ sort_order) = [FILike "Type" "%%"]
  /\ forall q,
      build_search_query q "type" type false = q.
Proof.
  intros Hb. split.
  - unfold by_type_query.
    rewrite (proj2 (clean_type_value_blank type) Hb).
    by destruct sort_order as [[]|].
  - intros q. unfold build_search_query.
    destruct (Text.nonempty type); [|reflexivity]. cbn.
    by rewrite (proj2 (clean_type_value_blank type) Hb).
Qed.

(** ** db/supabase_client.py *)

Section ClientFacts.
Variable Client : Type.
Variable create_client : string -> string -> exn + Client.
Variable test_query : Client -> exn + bool.

(** X25: [get_supabase_client] returns a client exactly when both
    variables are set and not empty, the client is created and the test
    query answers with a true response; every other outcome is a
    [SupabaseConnectionError], whatever was raised underneath. *)
Theorem client_or_connection_error supabase_url supabase_key :
  (forall client,
      SupabaseClient.get_supabase_client Client create_client test_query
        supabase_url supabase_key = inr client
      <-> exists url key,
          supabase_url = Some url /\ supabase_key = Some key
          /\ url <> EmptyString /\ key <> EmptyString
          /\ create_client url key = inr client
          /\ test_query client = inr true)
  /\ (forall e,
         SupabaseClient.get_supabase_client Client create_client test_query
           supabase_url supabase_key = inl e ->
         exists msg, e = SupabaseConnectionError msg).
Proof.
  unfold SupabaseClient.get_supabase_client, SupabaseClient.connect.
  split.
  - intros client. split.
    + destruct supabase_url as [url|], supabase_key as [key|]; try discriminate.
      destruct url as [|c url], key as [|c' key]; cbn; try discriminate.
      destruct (create_client _ _) as [e|cl] eqn:Ec; [discriminate|].
      destruct (test_query cl) as [e|[]] eqn:Et; try discriminate.
      intros [= <-]. by eexists _, _.
    + intros (url & key & -> & -> & Hu & Hk & Hc & Ht).
      destruct url as [|c url], key as [|c' key]; try done. cbn.
      by rewrite Hc, Ht.
  - intros e.
    destruct supabase_url as [url|], supabase_key as [key|];
      try (intros [= <-]; by eexists).
    destruct (Text.nonempty url && Text.nonempty key);
      [|intros [= <-]; by eexists].
    destruct (create_client url key) as [e'|cl]; [intros [= <-]; by eexists|].
    destruct (test_query cl) as [e'|[]]; intros [= <-]; by eexists.
Qed.

End ClientFacts.

(** ** Hyphens in search values *)

Section HyphenFacts.

Lemma ends_blank_app_cons l c rest :
  ends_blank (l ++ c :: rest) = ends_blank (c :: rest).
Proof.
  induction l as [|c0 l IH]; [reflexivity|].
  cbn [app]. destruct l; cbn [app ends_blank] in *; exact IH.
Qed.

Lemma ends_blank_rev l : ends_blank (rev l) = starts_blank l.
Proof.
  destruct l as [|c l]; [reflexivity|]. cbn [rev].
  by rewrite ends_blank_app_cons.
Qed.

Lemma starts_blank_rev l : starts_blank (rev l) = ends_blank l.
Proof. by rewrite <- (rev_involutive l) at 2; rewrite ends_blank_rev. Qed.

Lemma starts_blank_lstrip l : starts_blank (Text.lstrip_chars l) = false.
Proof.
  induction l as [|c l IH]; [reflexivity|]. cbn [Text.lstrip_chars].
  destruct (Text.isspace c) eqn:Ec; [exact IH|]. exact Ec.
Qed.

Lemma ends_blank_lstrip l :
  ends_blank l = false -> ends_blank (Text.lstrip_chars l) = false.
Proof.
  induction l as [|c l IH]; [done|]. cbn [Text.lstrip_chars].
  destruct (Text.isspace c) eqn:Ec; [|done].
  destruct l as [|c' l]; [done|]. exact IH.
Qed.

Lemma strip_chars_ends l :
  starts_blank (Text.strip_chars l) = false
  /\ ends_blank (Text.strip_chars l) = false.
Proof.
  unfold Text.strip_chars. rewrite starts_blank_rev, ends_blank_rev. split.
  - apply ends_blank_lstrip. rewrite ends_blank_rev. apply starts_blank_lstrip.
  - apply starts_blank_lstrip.
Qed.

Lemma lstrip_chars_Forall (P : ascii -> Prop) l :
  Forall P l -> Forall P (Text.lstrip_chars l).
Proof.
  induction l as [|c l IH]; [done|]. cbn [Text.lstrip_chars].
  intros Hl. destruct (Text.isspace c); [|done].
  apply Forall_cons in Hl as [_ Hl]. by apply IH.
Qed.

Lemma strip_chars_Forall (P : ascii -> Prop) l :
  Forall P l -> Forall P (Text.strip_chars l).
Proof.
  intros Hl. unfold Text.strip_chars.
  by apply Forall_rev, lstrip_chars_Forall, Forall_rev, lstrip_chars_Forall.
Qed.

Lemma split_on_free l :
  Forall (Forall (fun c => is_hyphen c = false)) (Text.split_on "-" l).
Proof.
  induction l as [|c l IH]; [by repeat constructor|]. cbn [Text.split_on].
  destruct (Ascii.eqb c "-") eqn:Ec; [by constructor|].
  destruct (Text.split_on "-" l) as [|p ps]; [by repeat constructor|].
  apply Forall_cons in IH as [Hp Hps]. constructor; [|done].
  by constructor.
Qed.

Lemma loose_hyphen_free l :
  Forall (fun c => is_hyphen c = false) l -> loose_hyphen l = false.
Proof.
  induction l as [|c l IH]; [done|]. intros [Hc Hl]%Forall_cons.
  cbn [loose_hyphen]. rewrite Hc, (IH Hl). cbn [andb orb].
  destruct l as [|c' l]; cbn [first_is]; [by rewrite andb_false_r|].
  apply Forall_cons in Hl as [-> _]. by rewrite andb_false_r.
Qed.

Lemma loose_hyphen_app p rest :
  Forall (fun c => is_hyphen c = false) p ->
  ends_blank p = false ->
  loose_hyphen rest = false -> starts_blank rest = false ->
  loose_hyphen (p ++ "-"%char :: rest) = false.
Proof.
  intros Hp Hend Hrest Hstart.
  assert (loose_hyphen ("-"%char :: rest) = false) as Hhead.
  { cbn [loose_hyphen]. change (Text.isspace "-") with false.
    change (is_hyphen "-") with true. cbn [andb orb].
    unfold starts_blank in Hstart. by rewrite Hstart, Hrest. }
  induction p as [|c p IH]; [exact Hhead|].
  apply Forall_cons in Hp as [Hc Hp]. cbn [app loose_hyphen]. rewrite Hc.
  cbn [andb orb]. destruct p as [|c' p].
  - cbn [app first_is ends_blank] in *. change (is_hyphen "-") with true.
    rewrite Hend, Hhead. reflexivity.
  - cbn [app first_is]. pose proof Hp as [-> _]%Forall_cons.
    rewrite andb_false_r. cbn [orb]. by apply IH.
Qed.

(** Parts without hyphens and without blanks at their ends, joined with
    hyphens, make a tight text. *)
Lemma join_tight ps :
  Forall (fun p => Forall (fun c => is_hyphen c = false) p
                   /\ starts_blank p = false /\ ends_blank p = false) ps ->
  tight (Text.join ["-"%char] ps).
Proof.
  induction ps as [|p ps IH]; [done|].
  intros [(Hfree & Hstart & Hend) Hps]%Forall_cons.
  destruct ps as [|p' ps].
  - cbn [Text.join]. split; [by apply loose_hyphen_free|done].
  - destruct (IH Hps) as (Hl & Hs & He).
    change (Text.join ["-"%char] (p :: p' :: ps))
      with (p ++ "-"%char :: Text.join ["-"%char] (p' :: ps)).
    repeat split.
    + by apply loose_hyphen_app.
    + destruct p; [reflexivity|exact Hstart].
    + rewrite ends_blank_app_cons.
      destruct (Text.join ["-"%char] (p' :: ps)); [reflexivity|exact He].
Qed.

Lemma first_is_double_quotes p l :
  p "'"%char = false -> first_is p (Text.double_quotes l) = first_is p l.
Proof.
  intros Hq. destruct l as [|c l]; [reflexivity|].
  unfold Text.double_quotes. cbn [flat_map].
  destruct (Ascii.eqb_spec c "'") as [->|_]; [cbn; by rewrite Hq|reflexivity].
Qed.

Lemma double_quotes_nil l : Text.double_quotes l = [] -> l = [].
Proof.
  destruct l as [|c l]; [done|]. unfold Text.double_quotes. cbn [flat_map].
  by destruct (Ascii.eqb c "'").
Qed.

Lemma double_quotes_tight l : tight l -> tight (Text.double_quotes l).
Proof.
  intros (Hl & Hs & He). repeat split.
  - clear Hs He. induction l as [|c l IH]; [reflexivity|].
    cbn [loose_hyphen] in Hl.
    apply orb_false_iff in Hl as [[H1 H2]%orb_false_iff H3].
    change (Text.double_quotes (c :: l))
      with ((if Ascii.eqb c "'" then ["'"%char; "'"%char] else [c])
            ++ Text.double_quotes l).
    destruct (Ascii.eqb_spec c "'") as [->|_]; cbn [app loose_hyphen first_is].
    + change (Text.isspace "'") with false. change (is_hyphen "'") with false.
      cbn [andb orb]. by apply IH.
    + rewrite !first_is_double_quotes by reflexivity.
      rewrite H1, H2. cbn [orb]. by apply IH.
  - unfold starts_blank in *. by rewrite first_is_double_quotes.
  - clear Hl Hs. induction l as [|c l IH]; [reflexivity|].
    change (Text.double_quotes (c :: l))
      with ((if Ascii.eqb c "'" then ["'"%char; "'"%char] else [c])
            ++ Text.double_quotes l).
    destruct l as [|c' l].
    + cbn [Text.double_quotes flat_map app]. rewrite app_nil_r.
      destruct (Ascii.eqb_spec c "'") as [->|_]; [reflexivity|exact He].
    + destruct (Text.double_quotes (c' :: l)) as [|d ds] eqn:Ed;
        [by apply double_quotes_nil in Ed|].
      rewrite ends_blank_app_cons. by apply IH.
Qed.

(** X26: the result of [clean_search_value] has no blank at either end and
    no blank next to a hyphen. *)
Theorem clean_search_value_tight s : tight (chars (clean_search_value s)).
Proof.
  rewrite clean_search_value_eq, list_ascii_of_string_of_list_ascii.
  apply double_quotes_tight, join_tight.
  apply Forall_forall. intros p Hin.
  apply list_elem_of_In, in_map_iff in Hin as (p0 & <- & Hin0).
  apply list_elem_of_In in Hin0.
  pose proof (proj1 (Forall_forall _ _) (split_on_free _) _ Hin0) as Hfree.
  split; [by apply strip_chars_Forall|apply strip_chars_ends].
Qed.

End HyphenFacts.

(** ** Instances of the further properties *)

Lemma mapped_medicine_invariant_witness :
  let m := Examples.glimepride_medicine in
  fst (@create_medicine_from_db ExactNumerics.numerics Examples.glimepride) = inr m
  /\ Decimal.ltb (cost_of_branded m) Decimal.zero = false
  /\ Decimal.ltb (cost_of_generic m) Decimal.zero = false
  /\ Decimal.ltb (cost_of_branded m) (cost_of_generic m) = false
  /\ Decimal.ltb (Decimal.sub (cost_of_branded m) (cost_of_generic m)) Decimal.zero
     = false
  /\ (cost_difference m = None
      \/ cost_difference m
         = Some (Decimal.sub (cost_of_branded m) (cost_of_generic m)))
  /\ (is_Some (Examples.glimepride !! "Cost of branded") ->
      is_Some (Examples.glimepride !! "Cost of generic") ->
      @cost_of ExactNumerics.numerics Examples.glimepride "Cost of branded"
      = Some (cost_of_branded m)
      /\ @cost_of ExactNumerics.numerics Examples.glimepride "Cost of generic"
         = Some (cost_of_generic m)
      /\ cost_difference m
         = Some (Decimal.sub (cost_of_branded m) (cost_of_generic m))).
Proof.
  cbv zeta. split; [vm_compute; reflexivity|].
  apply (@mapped_medicine_invariant ExactNumerics.numerics Examples.glimepride
           Examples.glimepride_medicine).
  vm_compute; reflexivity.
Defined.


Lemma details_derive_nothing_witness :
  exists m,
    fst (endpoint
           (@get_medicine_details ExactNumerics.numerics
              (Examples.constant_store [Examples.glimepride]) "TAB GLIMEPRIDE")
           Examples.fresh)
    = {| status := 200; payload := inl m |}
    /\ cost_of_branded m = Dec 10 0 /\ cost_of_generic m = Dec 5 0
    /\ cost_difference m = None /\ savings m = None.
Proof.
  apply (@details_derive_nothing ExactNumerics.numerics
           (Examples.constant_store [Examples.glimepride]) "TAB GLIMEPRIDE"
           Examples.fresh Examples.glimepride [] (Dec 10 0) (Dec 5 0));
    vm_compute; reflexivity.
Defined.

Lemma search_without_rows_witness :
  fst (endpoint
         (@search_medicines ExactNumerics.numerics (Examples.constant_store [])
            Examples.by_name None)
         Examples.fresh)
  = {| status := 200; payload := inl no_results |}.
Proof.
  apply (@search_without_rows ExactNumerics.numerics (Examples.constant_store [])
           Examples.by_name None Examples.fresh).
  reflexivity.
Defined.

Lemma browse_mode_all_or_nothing_witness :
  let rows := [Examples.glimepride; Examples.amaryl] in
  let r :=
    fst (endpoint
           (@search_medicines ExactNumerics.numerics (Examples.constant_store rows)
              Examples.by_type None)
           Examples.fresh) in
  (forall meds,
      @create_all ExactNumerics.numerics rows = inr meds ->
      length meds = length rows
      /\ r = {| status := 200;
                payload :=
                  inl {| exact_match := None; similar_formulations := meds;
                         Uses := None; Side_Effects := None |} |})
  /\ (forall item e,
         item ∈ rows ->
         fst (@create_medicine_from_db ExactNumerics.numerics item) = inl e ->
         status r = 500).
Proof.
  apply (@browse_mode_all_or_nothing ExactNumerics.numerics
           (Examples.constant_store [Examples.glimepride; Examples.amaryl])
           Examples.by_type None Examples.fresh
           [Examples.glimepride; Examples.amaryl]);
    reflexivity.
Defined.

Lemma by_type_skips_unmappable_rows_witness :
  exists meds,
    fst (endpoint
           (@get_medicines_by_type ExactNumerics.numerics
              (Examples.constant_store Bodies.mixed) "Anti Diabetic" 50 None)
           Examples.fresh)
    = {| status := 200; payload := inl meds |}
    /\ (forall m,
           m ∈ meds <->
           exists item,
             item ∈ Bodies.mixed
             /\ fst (@create_medicine_from_db ExactNumerics.numerics item) = inr m)
    /\ length meds <= length Bodies.mixed
    /\ (forall all,
           @create_all ExactNumerics.numerics Bodies.mixed = inr all -> meds = all).
Proof.
  apply (@by_type_skips_unmappable_rows ExactNumerics.numerics
           (Examples.constant_store Bodies.mixed) "Anti Diabetic" 50 None
           Examples.fresh Bodies.mixed).
  reflexivity.
Defined.

Lemma by_type_bounded_witness :
  let r :=
    @medicines_by_type ExactNumerics.numerics
      (Examples.limited_store [Examples.glimepride; Examples.amaryl])
      "Anti Diabetic" (Some 1%Z) None Examples.fresh in
  ((1 < 1 \/ 100 < 1)%Z -> status (fst r) = 422 /\ snd r = Examples.fresh)
  /\ (forall meds,
         payload (fst r) = inl meds ->
         (Z.of_nat (length meds) <= 1)%Z /\ length meds <= 100).
Proof.
  apply (@by_type_bounded ExactNumerics.numerics
           (Examples.limited_store [Examples.glimepride; Examples.amaryl])
           "Anti Diabetic" (Some 1%Z) None Examples.fresh).
  intros q n rows Hq Hrows. unfold Examples.limited_store in Hrows.
  rewrite Hq in Hrows. injection Hrows as <-. rewrite length_take. lia.
Defined.

Lemma fetched_suggestions_are_tidy_witness :
  let rows := [Examples.glimepride; Examples.amaryl] in
  exists found,
    fst (get_cached_suggestions (Examples.constant_store rows) "Name" (Some "a")
           Examples.fresh)
    = inr found
    /\ length found <= 10
    /\ StronglySorted String.le found
    /\ NoDup found
    /\ (forall v,
           v ∈ found ->
           v <> EmptyString
           /\ exists item, item ∈ rows /\ item !! "Name" = Some (VStr v))
    /\ (length found < 10 ->
        forall item v,
          item ∈ rows -> item !! "Name" = Some (VStr v) -> v <> EmptyString ->
          v ∈ found).
Proof.
  apply (fetched_suggestions_are_tidy
           (Examples.constant_store [Examples.glimepride; Examples.amaryl])
           "Name" (Some "a") Examples.fresh
           [Examples.glimepride; Examples.amaryl]);
    reflexivity.
Defined.

Lemma fresh_cache_invariant : cache_invariant (w_cache Examples.fresh).
Proof.
  repeat split; [unfold maxsize; cbn; lia|constructor|constructor].
Defined.

Lemma cache_stays_well_kept_witness :
  cache_invariant
    (w_cache
       (run_calls
          [(Examples.constant_store [Examples.glimepride], ("Type", None));
           (Examples.failing_store, ("Name", Some "gl"));
           (Examples.constant_store [Examples.amaryl], ("Type", None))]
          Examples.fresh)).
Proof.
  apply (cache_stays_well_kept
           [(Examples.constant_store [Examples.glimepride], ("Type", None));
            (Examples.failing_store, ("Name", Some "gl"));
            (Examples.constant_store [Examples.amaryl], ("Type", None))]
           Examples.fresh).
  exact fresh_cache_invariant.
Defined.

Lemma suggestions_response_shape_witness :
  exists items,
    fst (endpoint
           (get_suggestions
              (Examples.constant_store [Examples.glimepride; Examples.amaryl])
              "Name" (Some "a"))
           Examples.fresh)
    = {| status := 200; payload := inl {| suggestions := items |} |}
    /\ length items <= 10
    /\ Forall (fun item => field_type item = "Name") items
    /\ StronglySorted String.le (map value_ items)
    /\ NoDup (map value_ items).
Proof.
  apply (suggestions_response_shape
           (Examples.constant_store [Examples.glimepride; Examples.amaryl])
           "Name" (Some "a") Examples.fresh).
  - exact fresh_cache_invariant.
  - apply (bool_decide_eq_true_1 ("Name" ∈ valid_fields)). reflexivity.
Defined.

Lemma validated_request_normal_witness :
  let req := Examples.request (Some "Amaryl") None None None in
  validate_request Bodies.named = inr req
  /\ Forall
       (fun '(input, field) =>
          field = normalized input
          /\ is_set field = bool_decide (field <> None)
          /\ forall s, field = Some s ->
                       input = Given (Some s) /\ Text.strip s <> EmptyString)
       [(raw_name Bodies.named, req_name req);
        (raw_formulation Bodies.named, req_formulation req);
        (raw_type Bodies.named, req_type req);
        (raw_dosage Bodies.named, req_dosage req)].
Proof.
  cbv zeta. split; [reflexivity|].
  apply (validated_request_normal Bodies.named
           (Examples.request (Some "Amaryl") None None None)).
  reflexivity.
Defined.

Lemma named_request_accepted_witness :
  exists req,
    validate_request Bodies.named = inr req /\ req_name req = Some "Amaryl".
Proof.
  apply (named_request_accepted Bodies.named "Amaryl").
  - reflexivity.
  - vm_compute. discriminate.
Defined.

Lemma by_type_blank_matches_all_witness :
  q_filters (by_type_query "  " 50 None) = [FILike "Type" "%%"]
  /\ forall q, build_search_query q "type" "  " false = q.
Proof.
  apply (by_type_blank_matches_all "  " 50 None). reflexivity.
Defined.
